(** * Weblate translation views: search cache, translate dispatcher, changes export

    A shallow embedding of [weblate/trans/views/edit.py] and
    [weblate/trans/views/changes.py].  Every view function is written as a
    function that takes the request and the state it can touch (unit table,
    change log, session storage, queued messages, the translated count of
    the user, the active locale) and returns its response together with the
    state it leaves; an exception that leaves the view is a result of its
    own.

    Helpers that live in other modules of Weblate (permission predicates,
    forms, model methods) are the fields of the class [Backend], so that
    the theorems hold for each implementation of them.  Two helpers are
    written out instead, from what the specification says about them:
    [save_backend] and [import_message].  The module [Demo] is one small
    implementation of [Backend], on which the views are run.

    Layout: Python built-ins, data model, the two view modules, [Demo], the
    vocabulary of the statements, then the theorems by topic. *)

From Stdlib Require Import ZArith String Ascii List Bool Lia.
From stdpp Require Import base tactics option list gmap strings pretty.

Local Open Scope string_scope.
Local Open Scope Z_scope.

(** ** Python built-ins used by the views *)

Module Py.

(** Characters removed by [str.strip()] and ignored by [int()]. *)
Definition is_space (c : ascii) : bool :=
  match c with
  | " "%char | "009"%char | "010"%char | "011"%char | "012"%char
  | "013"%char => true
  | _ => false
  end.

Fixpoint lstrip (s : string) : string :=
  match s with
  | String c s' => if is_space c then lstrip s' else s
  | EmptyString => EmptyString
  end.

Definition strip (s : string) : string :=
  String.rev (lstrip (String.rev (lstrip s))).

Definition digit (c : ascii) : option Z :=
  let n := Z.of_nat (nat_of_ascii c) in
  if (48 <=? n) && (n <=? 57) then Some (n - 48) else None.

Fixpoint digits (acc : Z) (s : string) : option Z :=
  match s with
  | EmptyString => Some acc
  | String c s' =>
      match digit c with
      | Some d => digits (10 * acc + d) s'
      | None => None
      end
  end.

Definition unsigned (s : string) : option Z :=
  match s with
  | EmptyString => None
  | _ => digits 0 s
  end.

(** [int(s)] for a text [s]: [Some n] when the text is a decimal literal
    with an optional sign and surrounding white space, [None] when Python
    raises [ValueError].  Texts are sequences of 8-bit characters here, so
    the literal is made of the ASCII digits. *)
Definition int (s : string) : option Z :=
  match strip s with
  | String "+"%char r => unsigned r
  | String "-"%char r => Z.opp <$> unsigned r
  | t => unsigned t
  end.

(** [str(n)] for an integer. *)
Definition str (n : Z) : string := if decide (n = 0) then "0" else pretty n.

(** [needle in haystack] on texts; also the model of the ORM's
    [target__contains] lookup, which matches a literal substring. *)
Fixpoint contains (needle hay : string) : bool :=
  String.prefix needle hay ||
  match hay with
  | String _ hay' => contains needle hay'
  | EmptyString => false
  end.

(** [s.replace(old, new)] for a non-empty [old]: scan from the left, at a
    match emit [new] and skip the matched characters. *)
Fixpoint replace_from (old new : string) (skip : nat) (s : string) : string :=
  match s with
  | EmptyString => EmptyString
  | String c s' =>
      match skip with
      | S k => replace_from old new k s'
      | O =>
          if String.prefix old s
          then new +:+ replace_from old new (String.length old - 1) s'
          else String c (replace_from old new 0 s')
      end
  end.

(** [s.replace("", new)]: [new] before every character and at the end. *)
Fixpoint interleave (new : string) (s : string) : string :=
  match s with
  | EmptyString => new
  | String c s' => new +:+ String c (interleave new s')
  end.

Definition replace (old new s : string) : string :=
  match old with
  | EmptyString => interleave new s
  | _ => replace_from old new 0 s
  end.

(** Clamp a slice bound the way [list.__getitem__] does for a list of
    length [n]. *)
Definition clamp (n i : Z) : Z :=
  if i <? 0 then Z.max 0 (i + n) else Z.min i n.

(** [l[start:stop]]. *)
Definition slice {A} (l : list A) (start stop : Z) : list A :=
  let n := Z.of_nat (length l) in
  let a := clamp n start in
  let b := clamp n stop in
  take (Z.to_nat (b - a)) (drop (Z.to_nat a) l).

(** [l[i]] for [0 <= i]; the views never index with a negative number. *)
Definition getitem {A} (l : list A) (i : Z) : option A :=
  if i <? 0 then None else l !! Z.to_nat i.

(** [l.index(x)]. *)
Fixpoint index `{EqDecision A} (x : A) (l : list A) : option Z :=
  match l with
  | [] => None
  | y :: l' => if decide (x = y) then Some 0 else Z.succ <$> index x l'
  end.

(** [sep.join(l)]. *)
Fixpoint join (sep : string) (l : list string) : string :=
  match l with
  | [] => ""
  | [x] => x
  | x :: l' => x +:+ sep +:+ join sep l'
  end.

End Py.

(** ** Data model *)

(** The model objects the views read.  Only the attributes the two view
    modules touch are kept. *)

Record Project := mkProject { project_slug : string }.

Record SubProject := mkSubProject {
  subproject_slug : string;
  subproject_project : Project;
  subproject_locked : bool             (* [subproject.locked] *)
}.

Record Translation := mkTranslation {
  translation_id : Z;
  translation_subproject : SubProject;
  translation_language : string;       (* language code *)
  translate_url : string;              (* [get_translate_url()] *)
  commit_message : string;
  is_template : bool                   (* [is_template()] *)
}.

Record User := mkUser {
  username : string;
  is_authenticated : bool
}.

(** A translatable string ([weblate.trans.models.Unit]). *)
Record Unit := mkUnit {
  unit_id : Z;
  id_hash : Z;
  target : string;
  fuzzy : bool;
  unit_translation : Translation
}.

Inductive Action :=
  | ACTION_CHANGE | ACTION_REVERT | ACTION_REPLACE | ACTION_OTHER (code : Z).

Record Dictionary := mkDictionary {
  dictionary_project : Project;
  dictionary_language : string
}.

(** An entry of the change log ([weblate.trans.models.Change]). *)
Record Change := mkChange {
  change_timestamp : Z;
  change_action : Action;
  change_user : option User;
  change_unit : option Z;              (* primary key of the unit *)
  change_translation : option Translation;
  change_dictionary : option Dictionary;
  change_target : string
}.

Record Suggestion := mkSuggestion {
  suggestion_id : Z;
  suggestion_target : string;
  suggestion_user : option User
}.

#[global] Instance Project_eq_dec : EqDecision Project.
Proof. solve_decision. Defined.
#[global] Instance SubProject_eq_dec : EqDecision SubProject.
Proof. solve_decision. Defined.
#[global] Instance Translation_eq_dec : EqDecision Translation.
Proof. solve_decision. Defined.
#[global] Instance User_eq_dec : EqDecision User.
Proof. solve_decision. Defined.
#[global] Instance Unit_eq_dec : EqDecision Unit.
Proof. solve_decision. Defined.
#[global] Instance Action_eq_dec : EqDecision Action.
Proof. solve_decision. Defined.

(** [request.GET] and [request.POST]: a key is present or not, and a
    present key reads as one text. *)
Abbreviation QueryDict := (gmap string string).

Inductive Method := GET_ | POST_.
#[global] Instance Method_eq_dec : EqDecision Method.
Proof. solve_decision. Defined.

Record Request := mkRequest {
  method : Method;
  GET : QueryDict;
  POST : QueryDict;
  user : User
}.

(** The form object a search result carries: [SearchForm(params)] is bound
    to data, [SearchForm()] is not. *)
Inductive SearchFormObj := BoundForm (data : QueryDict) | UnboundForm.

(** The dictionary [search] stores in the session under [search_<id>].
    ['params'] may be missing ([search] tests for it), every other key is
    always written. *)
Record SearchEntry := mkSearchEntry {
  params : option QueryDict;
  query : option string;
  name : string;
  ids : list Z;
  search_id : string;
  ttl : Z;
  offset : Z
}.

(** A value of the session storage: a dictionary shaped as above, or
    anything else ([isinstance(value, dict)] is false). *)
Inductive SessionValue := SearchDict (e : SearchEntry) | NotADict.

Abbreviation Session := (gmap string SessionValue).

(** [copy.copy] of a session entry with the ['form'] key added. *)
Record SearchResult := mkSearchResult {
  entry : SearchEntry;
  form : SearchFormObj
}.

(** [django.contrib.messages] levels and the queue of a request. *)
Inductive Level := INFO | SUCCESS | WARNING | ERROR.
#[global] Instance Level_eq_dec : EqDecision Level.
Proof. solve_decision. Defined.

Abbreviation Message := (Level * string)%type.

(** Everything a view can read or change: the unit table keyed by primary
    key, the change log in insertion order, the session, the queued
    messages, [request.user.profile.translated], the active locale, and the
    tables [E] of the models this file does not describe. *)
Record World (E : Type) := mkWorld {
  db_units : gmap Z Unit;
  db_changes : list Change;
  session : Session;
  messages : list Message;
  profile_translated : Z;
  locale : string;
  ext : E
}.
Arguments mkWorld {E}.
Arguments db_units {E}.
Arguments db_changes {E}.
Arguments session {E}.
Arguments messages {E}.
Arguments profile_translated {E}.
Arguments locale {E}.
Arguments ext {E}.

Section WorldUpdates.
Context {E : Type}.
Implicit Type w : World E.

Definition set_units (f : gmap Z Unit -> gmap Z Unit) w : World E :=
  mkWorld (f (db_units w)) (db_changes w) (session w) (messages w)
          (profile_translated w) (locale w) (ext w).
Definition set_changes (f : list Change -> list Change) w : World E :=
  mkWorld (db_units w) (f (db_changes w)) (session w) (messages w)
          (profile_translated w) (locale w) (ext w).
Definition set_session (f : Session -> Session) w : World E :=
  mkWorld (db_units w) (db_changes w) (f (session w)) (messages w)
          (profile_translated w) (locale w) (ext w).
Definition set_translated (f : Z -> Z) w : World E :=
  mkWorld (db_units w) (db_changes w) (session w) (messages w)
          (f (profile_translated w)) (locale w) (ext w).
(** [translation.activate(lang)] *)
Definition activate (lang : string) w : World E :=
  mkWorld (db_units w) (db_changes w) (session w) (messages w)
          (profile_translated w) lang (ext w).
Definition set_ext (f : E -> E) w : World E :=
  mkWorld (db_units w) (db_changes w) (session w) (messages w)
          (profile_translated w) (locale w) (f (ext w)).
(** [messages.add_message(request, level, text)] *)
Definition add_message (l : Level) (text : string) w : World E :=
  mkWorld (db_units w) (db_changes w) (session w) (messages w ++ [(l, text)])
          (profile_translated w) (locale w) (ext w).
End WorldUpdates.

(** What a view returns. *)
Inductive Obj :=
  | OProject (p : Project) | OSubProject (s : SubProject)
  | OTranslation (t : Translation).

(** Template context of [translate.html]; the entries computed from the
    offset and the search result. *)
Record TranslateContext := mkTranslateContext {
  ctx_unit : Unit;
  ctx_offset : Z;
  ctx_this_unit_url : string;
  ctx_next_unit_url : string;
  ctx_prev_unit_url : string;
  ctx_first_unit_url : string;
  ctx_last_unit_url : string;
  ctx_search_id : string;
  ctx_filter_name : string;
  ctx_filter_count : Z;
  ctx_filter_pos : Z;
  ctx_locked : bool
}.

(** Template context of [zen.html]. *)
Record ZenContext := mkZenContext {
  zen_unitdata : list (Unit * Z);      (* unit and its offset *)
  zen_filter_count : Z;
  zen_last_section : bool;
  zen_search_id : string;
  zen_offset : Z
}.

Inductive Response :=
  | HttpResponseRedirect (url : string)
  | redirect (o : Obj)
  | render_translate (ctx : TranslateContext)
  | render_zen (ctx : ZenContext)
  | render_zen_response                 (* [zen-response.html], no context *)
  | csv_response (rows : list (list string))
  | redirect_to_login                   (* [login_required], anonymous user *)
  | HttpResponseNotAllowed.             (* [require_POST], other method *)

(** Exceptions that leave a view. *)
Inductive Exn :=
  | PermissionDenied | Http404 | KeyError | IndexError | TypeError
  | DoesNotExist | AttributeError.

(** What a sub-handler of [translate] hands back: a response, [None]
    (a bare [return] or the end of the body), or an exception. *)
Inductive Handled := Respond (r : Response) | Continue | Throw (e : Exn).

(** Result of a view: a response, or an exception propagated to Django. *)
Inductive Result := Returns (r : Response) | Raises (e : Exn).

(** ** Helpers from other Weblate modules *)

(** The scope a capability is asked for: [can_translate(user, translation)]
    or [can_translate(user, project=...)]. *)
Inductive Scope := ScopeTranslation (t : Translation) | ScopeProject (p : Project).

(** [cleaned_data] of a valid [SearchForm]. *)
Record SearchData := mkSearchData {
  search_q : string;
  search_type : string
}.

(** [cleaned_data] of a valid [TranslationForm]; ['target'] is the list of
    plural forms, which always has a first element. *)
Record TranslationData := mkTranslationData {
  form_unit : Unit;
  form_target : string * list string;
  form_fuzzy : bool
}.

(** What a request reads from outside the database: the two readings of
    [int(time.time())] in [cleanup_session] and [search], the value of
    [uuid.uuid1()], and the clock of the change log. *)
Record Ambient := mkAmbient {
  now_cleanup : Z;
  now_store : Z;
  uuid1 : string;
  now_save : Z                         (* time stamp of new log entries *)
}.

(** The functions the views import from [weblate.permissions.helpers],
    [weblate.trans.forms], [weblate.trans.models] and friends.  Queries take
    the state they read, operations return the state they leave. *)
Class Backend := {
  Ext : Type;
  (* weblate.permissions.helpers *)
  can_translate : User -> Scope -> bool;
  can_suggest : User -> Translation -> bool;
  can_accept_suggestion : User -> Translation -> bool;
  can_delete_suggestion : User -> Translation -> Suggestion -> bool;
  can_vote_suggestion : User -> Translation -> bool;
  can_download_changes : User -> option Project -> bool;
  (* weblate.trans.views.helper; [None] is [Http404] *)
  get_translation : Request -> string -> string -> string -> option Translation;
  get_subproject : Request -> string -> string -> option SubProject;
  get_project : Request -> string -> option Project;
  get_project_translation :
    Request -> option string -> option string -> option string ->
    option (option Project * option SubProject * option Translation);
  (* weblate.trans.forms: [Some] cleaned data when [is_valid()] *)
  AntispamForm_is_valid : QueryDict -> bool;
  TranslationForm_clean : Translation -> QueryDict -> World Ext -> option TranslationData;
  MergeForm_clean : Translation -> QueryDict -> World Ext -> option (Unit * Z);
  RevertForm_clean : Translation -> QueryDict -> World Ext -> option (Unit * Z);
  ReplaceForm_clean : QueryDict -> option (string * string);
  SearchForm_clean : QueryDict -> option SearchData;
  SearchForm_errors : QueryDict -> list string;
  SearchForm_get_name : SearchData -> string;
  ReviewForm_clean : QueryDict -> option Z;
  ReviewForm_errors : QueryDict -> list string;
  date_format : Z -> string;
  (* weblate.trans.models *)
  is_user_locked : Translation -> User -> bool;
  check_sync : Translation -> World Ext -> World Ext;
  commit_pending : Translation -> Request -> World Ext -> World Ext;
  translation_save : Translation -> World Ext -> World Ext;
  unit_set_review : Translation -> Z -> User -> World Ext -> list Unit;
  unit_set_search : Translation -> SearchData -> World Ext -> list Unit;
  active_checks : Unit -> World Ext -> gset string;
  unit_translate :
    Unit -> Request -> string * list string -> bool -> World Ext ->
    bool * Unit * World Ext;
  content_changes_by_users_exist : Translation -> World Ext -> bool;
  Suggestion_add : Unit -> string -> Request -> bool -> World Ext -> bool * World Ext;
  Suggestion_get : Z -> Project -> string -> World Ext -> option Suggestion;
  suggestion_accept : Suggestion -> Translation -> Request -> World Ext -> World Ext;
  suggestion_delete_log : Suggestion -> Translation -> Request -> World Ext -> World Ext;
  suggestion_add_vote : Suggestion -> Translation -> Request -> bool -> World Ext -> World Ext;
  last_changes : User -> World Ext -> list Change;
  Language_get : string -> World Ext -> option string;
  User_get : string -> World Ext -> option User;
  get_action_display : string -> Action -> string;  (* in the given locale *)
  isoformat : Z -> string;
  change_absolute_url : Change -> string;
  (* weblate.trans.autofixes, checks, util, weblate.utils.hash *)
  fix_target : string * list string -> Unit -> (string * list string) * list string;
  check_name : string -> string;
  join_plural : string * list string -> string;
  checksum_to_hash : string -> option Z     (* [None] is [ValueError] *)
}.

(** ** weblate/trans/views/edit.py *)

Section Edit.
Context `{Backend}.
Implicit Type w : World Ext.

(** One turn of the loop of [cleanup_session]. The key comes from
    [session.keys()], so [session[key]] is always there. *)
Definition cleanup_key (now : Z) (s : Session) (key : string) : Session :=
  if negb (String.prefix "search_" key) then s
  else match s !! key with
       | Some (SearchDict e) => if ttl e <? now then delete key s else s
       | Some NotADict => delete key s
       | None => s
       end.

(** Delete old search results from session storage. *)
Definition cleanup_session (now : Z) (s : Session) : Session :=
  foldl (cleanup_key now) s (map_to_list s).*1.

(** [show_form_errors]: every error of the form is queued as a message. *)
Definition show_form_errors (errors : list string) w : World Ext :=
  foldl (fun w e => add_message ERROR e w) w errors.

(** [translation.unit_set.all()] *)
Definition unit_set (t : Translation) w : list Unit :=
  filter (fun u => unit_translation u = t) (map_to_list (db_units w)).*2.

(** [translation.unit_set.get(pk=...)]; [None] is [Unit.DoesNotExist]. *)
Definition unit_set_get (t : Translation) (pk : Z) w : option Unit :=
  match db_units w !! pk with
  | Some u => if decide (unit_translation u = t) then Some u else None
  | None => None
  end.

Inductive SearchOutcome :=
  | Found (r : SearchResult)
  | Redirected (r : Response)
  | Failed (e : Exn).

(** The units and the labels of a new search. *)
Definition search_units (translation : Translation) (request : Request) w
  : list Unit * option string * string * World Ext :=
  if decide (is_Some (GET request !! "date")) then
    match ReviewForm_clean (GET request) with
    | Some date =>
        (unit_set_review translation date (user request) w, None,
         "Review of translations since " +:+ date_format date, w)
    | None =>
        (unit_set translation w, None, "All strings",
         show_form_errors (ReviewForm_errors (GET request)) w)
    end
  else
    match SearchForm_clean (GET request) with
    | Some data =>
        let allunits := unit_set_search translation data w in
        (if decide (search_type data = "random") then take 25 allunits
         else allunits,
         Some (search_q data), SearchForm_get_name data, w)
    | None =>
        (unit_set translation w, None, "All strings",
         show_form_errors (SearchForm_errors (GET request)) w)
    end.

(** The offset of the unit named by the [checksum] parameter; [None]
    when one of [IndexError], [ValueError] is caught. *)
Definition checksum_offset (allunits : list Unit) (checksum : string) : option Z :=
  match checksum_to_hash checksum with
  | None => None
  | Some h =>
      match filter (fun u => id_hash u = h) allunits with
      | [] => None
      | u :: _ => Py.index (unit_id u) (unit_id <$> allunits)
      end
  end.

(** Perform search or returns cached search results. *)
Definition search (amb : Ambient) (translation : Translation)
    (request : Request) w : SearchOutcome * World Ext :=
  match GET request !! "sid" with
  | Some sid =>
      let key := "search_" +:+ sid in
      match session w !! key with
      | None =>
          (Redirected (redirect (OTranslation translation)),
           add_message ERROR "Invalid search string!" w)
      | Some (SearchDict e) =>
          (Found (mkSearchResult e
                    match params e with
                    | Some p => BoundForm p
                    | None => UnboundForm
                    end), w)
      | Some NotADict => (Failed TypeError, w)
      end
  | None =>
      let '(allunits, search_query, name, w1) :=
        search_units translation request w in
      let unit_ids := unit_id <$> allunits in
      let no_match :=
        (Redirected (redirect (OTranslation translation)),
         add_message WARNING "No string matched your search!" w1) in
      if decide (length unit_ids = 0%nat) then no_match
      else
        let found offset :=
          let w2 := set_session (cleanup_session (now_cleanup amb)) w1 in
          let e := mkSearchEntry (Some (GET request)) search_query name
                     unit_ids (uuid1 amb) (now_store amb + 86400) offset in
          (Found (mkSearchResult e (BoundForm (GET request))),
           set_session (insert ("search_" +:+ uuid1 amb) (SearchDict e)) w2) in
        match GET request !! "checksum" with
        | None => found 0
        | Some checksum =>
            match checksum_offset allunits checksum with
            | Some offset => found offset
            | None => no_match
            end
        end
  end.

(** Modelled from the spec: [Unit.save_backend] is defined in
    [weblate.trans.models], outside the two view modules.  The data model
    says a unit is "mutated by translate/merge/revert/replace operations;
    each mutation that changes persisted state appends a Change", and the
    callers read its result as "there was change".  So: when the stored
    row already has this target and fuzzy flag nothing is written and the
    result is [false]; otherwise the row is replaced, one log entry with
    the given action (a plain change when none is given) is appended, and
    the result is [true]. *)
Definition save_backend (amb : Ambient) (unit : Unit) (request : Request)
    (change_action : option Action) w : bool * World Ext :=
  let persist :=
    let c := mkChange (now_save amb) (default ACTION_CHANGE change_action)
               (Some (user request)) (Some (unit_id unit))
               (Some (unit_translation unit)) None (target unit) in
    (true, set_changes (fun l => (l ++ [c])%list)
             (set_units (insert (unit_id unit) unit) w)) in
  match db_units w !! unit_id unit with
  | Some old =>
      if decide (target old = target unit /\ fuzzy old = fuzzy unit)
      then (false, w) else persist
  | None => persist
  end.

(** [Change.objects.get(pk=...)]: log entries are numbered from 1 in
    insertion order; [None] is [Change.DoesNotExist]. *)
Definition Change_get (pk : Z) w : option Change :=
  if pk <? 1 then None else db_changes w !! Z.to_nat (pk - 1).

Definition set_target (t : string) (u : Unit) : Unit :=
  mkUnit (unit_id u) (id_hash u) t (fuzzy u) (unit_translation u).
Definition set_fuzzy (f : bool) (u : Unit) : Unit :=
  mkUnit (unit_id u) (id_hash u) (target u) f (unit_translation u).
Definition set_commit_message (m : string) (t : Translation) : Translation :=
  mkTranslation (translation_id t) (translation_subproject t)
    (translation_language t) (translate_url t) m (is_template t).
Definition set_unit_translation (t : Translation) (u : Unit) : Unit :=
  mkUnit (unit_id u) (id_hash u) (target u) (fuzzy u) t.

(** Handle suggesion saving. *)
Definition perform_suggestion (unit : Unit) (frm : TranslationData)
    (request : Request) w : bool * World Ext :=
  if decide ((form_target frm).1 = "") then
    (false, add_message ERROR "Your suggestion is empty!" w)
  else if negb (can_suggest (user request) (unit_translation unit)) then
    (false, add_message ERROR "You don't have privileges to add suggestions!" w)
  else
    let w1 :=
      if negb (content_changes_by_users_exist (unit_translation unit) w)
      then add_message INFO
             ("There is currently no active translator for this " +:+
              "translation, please consider becoming a translator " +:+
              "as your suggestion might otherwise remain unreviewed.") w
      else w in
    let '(result, w2) :=
      Suggestion_add unit (join_plural (form_target frm)) request
        (can_vote_suggestion (user request) (unit_translation unit)) w1 in
    if result then (true, w2)
    else (false, add_message ERROR "Your suggestion already exists!" w2).

(** Handle translation and stores it to a backend.  [newchecks > oldchecks]
    on Python sets is the proper-superset test. *)
Definition perform_translation (unit : Unit) (frm : TranslationData)
    (request : Request) w : bool * World Ext :=
  let oldchecks := active_checks unit w in
  let '(new_target, fixups) :=
    if negb (is_template (unit_translation unit))
    then fix_target (form_target frm) unit
    else (form_target frm, []) in
  let '(saved, unit', w1) :=
    unit_translate unit request new_target (form_fuzzy frm) w in
  let w2 :=
    if decide (0 < length fixups)%nat
    then add_message INFO
           ("Following fixups were applied to translation: " +:+
            Py.join ", " fixups) w1
    else w1 in
  let newchecks := active_checks unit' w2 in
  if saved && bool_decide (oldchecks ⊂ newchecks) then
    (false,
     add_message ERROR
       ("Some checks have failed on your translation: " +:+
        Py.join ", " (check_name <$> elements newchecks)) w2)
  else (true, w2).

(** Save translation or suggestion to database and backend. *)
Definition handle_translate (translation : Translation) (request : Request)
    (user_locked : bool) (this_unit_url next_unit_url : string) w
  : Handled * World Ext :=
  if negb (AntispamForm_is_valid (POST request)) then
    (Respond (HttpResponseRedirect next_unit_url), w)
  else
    let w1 := check_sync translation w in
    match TranslationForm_clean translation (POST request) w1 with
    | None => (Continue, w1)
    | Some frm =>
        let unit := form_unit frm in
        let '(go_next, w2) :=
          if decide (is_Some (POST request !! "suggest")) then
            perform_suggestion unit frm request w1
          else if negb (can_translate (user request)
                          (ScopeTranslation (unit_translation unit))) then
            (true,
             add_message ERROR
               "You don't have privileges to save translations!" w1)
          else if negb user_locked then
            match POST request !! "commit_message" with
            | Some message =>
                if decide (message <> commit_message (unit_translation unit))
                then
                  let t' := set_commit_message message (unit_translation unit) in
                  perform_translation (set_unit_translation t' unit) frm request
                    (translation_save t'
                       (commit_pending (unit_translation unit) request w1))
                else perform_translation unit frm request w1
            | None => perform_translation unit frm request w1
            end
          else (true, w1) in
        (Respond (HttpResponseRedirect
                    (if go_next then next_unit_url else this_unit_url)), w2)
    end.

(** Handle unit merging. *)
Definition handle_merge (amb : Ambient) (translation : Translation)
    (request : Request) (next_unit_url : string) w : Handled * World Ext :=
  if negb (can_translate (user request) (ScopeTranslation translation)) then
    (Continue,
     add_message ERROR "You don't have privileges to save translations!" w)
  else
    match MergeForm_clean translation (GET request) w with
    | None => (Continue, add_message ERROR "Invalid merge request!" w)
    | Some (unit, merge) =>
        match db_units w !! merge with
        | None => (Throw DoesNotExist, w)
        | Some merged =>
            if decide (id_hash unit <> id_hash merged) then
              (Continue,
               add_message ERROR "Can not merge different messages!" w)
            else
              let unit' := set_fuzzy (fuzzy merged)
                             (set_target (target merged) unit) in
              let '(saved, w1) := save_backend amb unit' request None w in
              let w2 := if saved then set_translated (fun n => n + 1) w1
                        else w1 in
              (Respond (HttpResponseRedirect next_unit_url), w2)
        end
    end.

(** [change.unit.id_hash]: the unit the log entry points to. *)
Definition change_unit_id_hash (change : Change) w : Exn + Z :=
  match change_unit change with
  | None => inl AttributeError
  | Some pk =>
      match db_units w !! pk with
      | Some u => inr (id_hash u)
      | None => inl DoesNotExist
      end
  end.

Definition handle_revert (amb : Ambient) (translation : Translation)
    (request : Request) (next_unit_url : string) w : Handled * World Ext :=
  if negb (can_translate (user request) (ScopeTranslation translation)) then
    (Continue,
     add_message ERROR "You don't have privileges to save translations!" w)
  else
    match RevertForm_clean translation (GET request) w with
    | None => (Continue, w)
    | Some (unit, revert) =>
        match Change_get revert w with
        | None => (Throw DoesNotExist, w)
        | Some change =>
            match change_unit_id_hash change w with
            | inl e => (Throw e, w)
            | inr h =>
                if decide (id_hash unit <> h) then
                  (Continue,
                   add_message ERROR "Can not revert to different unit!" w)
                else if decide (change_target change = "") then
                  (Continue,
                   add_message ERROR "Can not revert to empty translation!" w)
                else
                  let unit' := set_target (change_target change) unit in
                  let '(_, w1) :=
                    save_backend amb unit' request (Some ACTION_REVERT) w in
                  (Respond (HttpResponseRedirect next_unit_url), w1)
            end
        end
    end.

(** The POST parameters that name a suggestion, in the order of the
    [params] tuple. *)
Inductive Mode := accept | accept_edit | delete_ | upvote | downvote.

Definition param (m : Mode) : string :=
  match m with
  | accept => "accept"
  | accept_edit => "accept_edit"
  | delete_ => "delete"
  | upvote => "upvote"
  | downvote => "downvote"
  end.

Definition suggestion_params : list Mode :=
  [accept; accept_edit; delete_; upvote; downvote].

Definition in_POST (request : Request) (key : string) : bool :=
  bool_decide (is_Some (POST request !! key)).

(** Check permission for suggestion handling. *)
Definition check_suggest_permissions (request : Request) (mode : option Mode)
    (translation : Translation) (suggestion : Suggestion) w
  : bool * World Ext :=
  match mode with
  | Some accept | Some accept_edit =>
      if negb (can_accept_suggestion (user request) translation) then
        (false,
         add_message ERROR "You do not have privilege to accept suggestions!" w)
      else (true, w)
  | Some delete_ =>
      if negb (can_delete_suggestion (user request) translation suggestion) then
        (false,
         add_message ERROR "You do not have privilege to delete suggestions!" w)
      else (true, w)
  | Some upvote | Some downvote =>
      if negb (can_vote_suggestion (user request) translation) then
        (false,
         add_message ERROR
           "You do not have privilege to vote for suggestions!" w)
      else (true, w)
  | None => (true, w)
  end.

(** The loop "Parse suggestion ID": the first parameter of the tuple that
    is in the POST data, with its value. *)
Definition parse_suggestion (request : Request) : string * option Mode :=
  match List.find (fun m => in_POST request (param m)) suggestion_params with
  | Some m => (default "" (POST request !! param m), Some m)
  | None => ("", None)
  end.

(** Handle suggestion deleting/accepting. *)
Definition handle_suggestions (translation : Translation) (request : Request)
    (this_unit_url next_unit_url : string) w : Handled * World Ext :=
  let '(sugid, mode) := parse_suggestion request in
  let invalid :=
    (Respond (HttpResponseRedirect this_unit_url),
     add_message ERROR "Invalid suggestion!" w) in
  match Py.int sugid with
  | None => invalid
  | Some pk =>
      match Suggestion_get pk
              (subproject_project (translation_subproject translation))
              (translation_language translation) w with
      | None => invalid
      | Some suggestion =>
          let '(allowed, w1) :=
            check_suggest_permissions request mode translation suggestion w in
          if negb allowed then
            (Respond (HttpResponseRedirect this_unit_url), w1)
          else if in_POST request "accept" || in_POST request "accept_edit" then
            (Respond (HttpResponseRedirect
                        (if in_POST request "accept" then next_unit_url
                         else this_unit_url)),
             suggestion_accept suggestion translation request w1)
          else if in_POST request "delete" then
            (Respond (HttpResponseRedirect this_unit_url),
             suggestion_delete_log suggestion translation request w1)
          else if in_POST request "upvote" then
            (Respond (HttpResponseRedirect this_unit_url),
             suggestion_add_vote suggestion translation request true w1)
          else if in_POST request "downvote" then
            (Respond (HttpResponseRedirect this_unit_url),
             suggestion_add_vote suggestion translation request false w1)
          else (Respond (HttpResponseRedirect this_unit_url), w1)
      end
  end.

(** The "Search offset" step of [translate]: the [offset] parameter when
    it is given, else the offset stored with the search; [ValueError] of
    [int()] gives 0. *)
Definition translate_offset (request : Request) (search_result : SearchResult) : Z :=
  match GET request !! "offset" with
  | Some s => default 0 (Py.int s)
  | None => offset (entry search_result)
  end.

Definition in_GET (request : Request) (key : string) : bool :=
  bool_decide (is_Some (GET request !! key)).

(** The form dispatch of [translate]. *)
Definition translate_dispatch (amb : Ambient) (translation : Translation)
    (request : Request) (user_locked project_locked : bool)
    (this_unit_url next_unit_url : string) w : Handled * World Ext :=
  let locked := project_locked || user_locked in
  if bool_decide (method request = POST_) && negb project_locked then
    if negb (in_POST request "accept") && negb (in_POST request "accept_edit")
       && negb (in_POST request "delete") && negb (in_POST request "upvote")
       && negb (in_POST request "downvote")
    then handle_translate translation request user_locked
           this_unit_url next_unit_url w
    else if negb locked
    then handle_suggestions translation request this_unit_url next_unit_url w
    else (Continue, w)
  else if in_GET request "merge" && negb locked then
    handle_merge amb translation request next_unit_url w
  else if in_GET request "revert" && negb locked then
    handle_revert amb translation request this_unit_url w
  else (Continue, w).

(** The body of [translate] below the boundary check, from "Some URLs we
    will most likely use" on: dispatch the submitted form, then show the
    unit at [offset].  The context keeps the entries computed here; the
    read-only queries for secondary languages, other translations and the
    glossary are left out. *)
Definition translate_unit (amb : Ambient) (translation : Translation)
    (request : Request) (user_locked project_locked : bool)
    (search_result : SearchResult) (offset : Z) w : Result * World Ext :=
  let e := entry search_result in
  let num_results := Z.of_nat (length (ids e)) in
  let base_unit_url :=
    translate_url translation +:+ "?sid=" +:+ search_id e +:+ "&offset=" in
  let this_unit_url := base_unit_url +:+ Py.str offset in
  let next_unit_url := base_unit_url +:+ Py.str (offset + 1) in
  match translate_dispatch amb translation request user_locked
          project_locked this_unit_url next_unit_url w with
  | (Respond r, w2) => (Returns r, w2)
  | (Throw x, w2) => (Raises x, w2)
  | (Continue, w2) =>
      match Py.getitem (ids e) offset with
      | None => (Raises IndexError, w2)
      | Some pk =>
          match unit_set_get translation pk w2 with
          | None =>
              (Returns (redirect (OTranslation translation)),
               add_message ERROR "Invalid search string!" w2)
          | Some unit =>
              (Returns (render_translate
                 (mkTranslateContext unit offset this_unit_url
                    next_unit_url
                    (base_unit_url +:+ Py.str (offset - 1))
                    (base_unit_url +:+ "0")
                    (base_unit_url +:+ Py.str (num_results - 1))
                    (search_id e) (name e) num_results (offset + 1)
                    (project_locked || user_locked))), w2)
          end
      end
  end.

(** The "Check boundaries" step of [translate] with what follows it. *)
Definition translate_at (amb : Ambient) (translation : Translation)
    (request : Request) (user_locked project_locked : bool)
    (search_result : SearchResult) (offset : Z) w : Result * World Ext :=
  let e := entry search_result in
  let num_results := Z.of_nat (length (ids e)) in
  if negb ((0 <=? offset) && (offset <? num_results)) then
    let w2 := add_message INFO "You have reached end of translating." w in
    let key := "search_" +:+ search_id e in
    match session w2 !! key with
    | None => (Raises KeyError, w2)
    | Some _ =>
        (Returns (redirect (OTranslation translation)),
         set_session (delete key) w2)
    end
  else
    translate_unit amb translation request user_locked project_locked
      search_result offset w.

(** Generic entry point for translating, suggesting and searching. *)
Definition translate (amb : Ambient) (request : Request)
    (project subproject lang : string) w : Result * World Ext :=
  match get_translation request project subproject lang with
  | None => (Raises Http404, w)
  | Some translation =>
      let user_locked := is_user_locked translation (user request) in
      let project_locked :=
        subproject_locked (translation_subproject translation) in
      match search amb translation request w with
      | (Redirected r, w1) => (Returns r, w1)
      | (Failed e, w1) => (Raises e, w1)
      | (Found search_result, w1) =>
          translate_at amb translation request user_locked project_locked
            search_result (translate_offset request search_result) w1
      end
  end.

(** The "Search offset" step of [get_zen_unitdata]. *)
Definition zen_offset_of (request : Request) : Z :=
  match GET request !! "offset" with
  | Some s => default 0 (Py.int s)
  | None => 0
  end.

Definition set_offset (o : Z) (e : SearchEntry) : SearchEntry :=
  mkSearchEntry (params e) (query e) (name e) (ids e) (search_id e) (ttl e) o.

(** The [unitdata] list of [get_zen_unitdata]: the units of the
    translation whose key is in [ids[offset:offset + 20]], each with its
    offset. *)
Definition zen_units (translation : Translation) (ids : list Z) (offset : Z) w
  : list (Unit * Z) :=
  let window := Py.slice ids offset (offset + 20) in
  let units :=
    filter (fun u => unit_id u ∈ window) (unit_set translation w) in
  imap (fun pos u => (u, offset + Z.of_nat pos)) units.

(** Load unit data for zen mode: the search result with ['offset'] set on
    the copy, ['last_section'], and the units with their offsets. *)
Definition get_zen_unitdata (amb : Ambient) (translation : Translation)
    (request : Request) w
  : (Exn + Response + SearchResult * bool * list (Unit * Z)) * World Ext :=
  let '(search_result, w1) := search amb translation request w in
  let offset := zen_offset_of request in
  match search_result with
  | Failed e => (inl (inl e), w1)
  | Redirected r => (inl (inr r), w1)
  | Found sr =>
      let e := entry sr in
      let last_section :=
        bool_decide (Z.of_nat (length (ids e)) <= offset + 20) in
      (inr (mkSearchResult (set_offset offset e) (form sr), last_section,
            zen_units translation (ids e) offset w1), w1)
  end.

(** Generic entry point for translating, suggesting and searching. *)
Definition zen (amb : Ambient) (request : Request)
    (project subproject lang : string) w : Result * World Ext :=
  match get_translation request project subproject lang with
  | None => (Raises Http404, w)
  | Some translation =>
      match get_zen_unitdata amb translation request w with
      | (inl (inl e), w1) => (Raises e, w1)
      | (inl (inr r), w1) => (Returns r, w1)
      | (inr (sr, last_section, unitdata), w1) =>
          (Returns (render_zen
             (mkZenContext unitdata (Z.of_nat (length (ids (entry sr))))
                last_section (search_id (entry sr)) (offset (entry sr)))),
           w1)
      end
  end.

(** Modelled from the spec: [import_message] is defined in
    [weblate.trans.views.helper], outside the two view modules; the spec
    has the "count of updates reported back".  The first text is queued
    as a warning when the count is 0, else the text for the count, with
    the count put in, as a success message. *)
Definition import_message (count : Z) (message_none : string)
    (message_ok : Z -> string) w : World Ext :=
  if decide (count = 0) then add_message WARNING message_none w
  else add_message SUCCESS (message_ok count) w.

(** The units of the scope of [search_replace]. *)
Definition scope_units (o : Obj) w : list Unit :=
  match o with
  | OProject p =>
      filter (fun u => subproject_project
                         (translation_subproject (unit_translation u)) = p)
        (map_to_list (db_units w)).*2
  | OSubProject s =>
      filter (fun u => translation_subproject (unit_translation u) = s)
        (map_to_list (db_units w)).*2
  | OTranslation t => unit_set t w
  end.

Definition replace_message (updated : Z) : string :=
  if decide (updated = 1)
  then "Search and replace completed, " +:+ Py.str updated +:+
       " string was updated."
  else "Search and replace completed, " +:+ Py.str updated +:+
       " strings were updated.".

(** The loop of [search_replace] over [matching.iterator()]. *)
Definition replace_all (amb : Ambient) (request : Request)
    (search_text replacement : string) (matching : list Unit) w : World Ext :=
  foldl (fun w unit =>
           (save_backend amb
              (set_target (Py.replace search_text replacement (target unit)) unit)
              request (Some ACTION_REPLACE) w).2)
    w matching.

(** The object, the scope of the capability and (through [scope_units]) the
    units [search_replace] works on, by the parts of the URL that are given;
    [None] is [Http404]. *)
Definition replace_scope (request : Request) (project : string)
    (subproject lang : option string) : option (Obj * Scope) :=
  match subproject, lang with
  | None, _ =>
      (fun p => (OProject p, ScopeProject p)) <$> get_project request project
  | Some sp, None =>
      (fun s => (OSubProject s, ScopeProject (subproject_project s)))
        <$> get_subproject request project sp
  | Some sp, Some l =>
      (fun t => (OTranslation t, ScopeTranslation t))
        <$> get_translation request project sp l
  end.

(** [@login_required @require_POST def search_replace] *)
Definition search_replace (amb : Ambient) (request : Request)
    (project : string) (subproject lang : option string) w
  : Result * World Ext :=
  if negb (is_authenticated (user request)) then (Returns redirect_to_login, w)
  else if negb (bool_decide (method request = POST_)) then
    (Returns HttpResponseNotAllowed, w)
  else
    match replace_scope request project subproject lang with
    | None => (Raises Http404, w)
    | Some (obj, perms) =>
        if negb (can_translate (user request) perms) then
          (Raises PermissionDenied, w)
        else
          match ReplaceForm_clean (POST request) with
          | None =>
              (Returns (redirect obj),
               add_message ERROR "Failed to process form!" w)
          | Some (search_text, replacement) =>
              let matching :=
                filter (fun u => Py.contains search_text (target u) = true)
                  (scope_units obj w) in
              let updated := Z.of_nat (length matching) in
              let w1 := replace_all amb request search_text replacement
                          matching w in
              (Returns (redirect obj),
               import_message updated
                 "Search and replace completed, no strings were updated."
                 replace_message w1)
          end
    end.

(** The capability [check_suggest_permissions] asks for in each mode. *)
Definition suggestion_capability (request : Request) (translation : Translation)
    (suggestion : Suggestion) (mode : Mode) : bool :=
  match mode with
  | accept | accept_edit => can_accept_suggestion (user request) translation
  | delete_ => can_delete_suggestion (user request) translation suggestion
  | upvote | downvote => can_vote_suggestion (user request) translation
  end.

End Edit.

(** ** weblate/trans/views/changes.py *)

Section Changes.
Context `{Backend}.
Implicit Type w : World Ext.

(** The attributes [ChangesView.__init__] sets on the view. *)
Record ChangesView := mkChangesView {
  view_project : option Project;
  view_subproject : option SubProject;
  view_translation : option Translation;
  view_language : option string;
  view_user : option User;
  view_glossary : bool
}.

Definition ChangesView_init : ChangesView :=
  mkChangesView None None None None None false.

(** Filtering by translation/project. *)
Definition _get_queryset_project (request : Request) (self : ChangesView) w
  : ChangesView * World Ext :=
  if in_GET request "project" then
    match get_project_translation request (GET request !! "project")
            (GET request !! "subproject") (GET request !! "lang") with
    | Some (p, s, t) =>
        (mkChangesView p s t (view_language self) (view_user self)
           (view_glossary self), w)
    | None =>
        (self, add_message ERROR "Failed to find matching project!" w)
    end
  else (self, w).

(** Filtering by language *)
Definition _get_queryset_language (request : Request) (self : ChangesView) w
  : ChangesView * World Ext :=
  match view_translation self, GET request !! "lang" with
  | None, Some code =>
      match Language_get code w with
      | Some l =>
          (mkChangesView (view_project self) (view_subproject self)
             (view_translation self) (Some l) (view_user self)
             (view_glossary self), w)
      | None =>
          (self, add_message ERROR "Failed to find matching language!" w)
      end
  | _, _ => (self, w)
  end.

(** Filtering by user *)
Definition _get_queryset_user (request : Request) (self : ChangesView) w
  : ChangesView * World Ext :=
  match GET request !! "user" with
  | Some n =>
      match User_get n w with
      | Some u =>
          (mkChangesView (view_project self) (view_subproject self)
             (view_translation self) (view_language self) (Some u)
             (view_glossary self), w)
      | None => (self, add_message ERROR "Failed to find matching user!" w)
      end
  | None => (self, w)
  end.

Definition change_project (c : Change) : option Project :=
  (fun t => subproject_project (translation_subproject t))
    <$> change_translation c.

(** The scope filter of [get_queryset]. *)
Definition in_scope (self : ChangesView) (c : Change) : bool :=
  match view_translation self, view_subproject self, view_project self with
  | Some t, _, _ => bool_decide (change_translation c = Some t)
  | None, Some s, _ =>
      bool_decide (translation_subproject <$> change_translation c = Some s)
  | None, None, Some p =>
      bool_decide (change_project c = Some p) ||
      bool_decide (dictionary_project <$> change_dictionary c = Some p)
  | None, None, None => true
  end.

Definition in_language (self : ChangesView) (c : Change) : bool :=
  match view_language self with
  | Some l =>
      bool_decide (translation_language <$> change_translation c = Some l) ||
      bool_decide (dictionary_language <$> change_dictionary c = Some l)
  | None => true
  end.

Definition in_glossary (self : ChangesView) (c : Change) : bool :=
  if view_glossary self then bool_decide (is_Some (change_dictionary c))
  else true.

Definition by_user (self : ChangesView) (c : Change) : bool :=
  match view_user self with
  | Some u => bool_decide (change_user c = Some u)
  | None => true
  end.

(** Return list of changes to browse. *)
Definition get_queryset (request : Request) (self : ChangesView) w
  : ChangesView * list Change * World Ext :=
  let '(self1, w1) := _get_queryset_project request self w in
  let '(self2, w2) := _get_queryset_language request self1 w1 in
  let '(self3, w3) := _get_queryset_user request self2 w2 in
  let self4 :=
    mkChangesView (view_project self3) (view_subproject self3)
      (view_translation self3) (view_language self3) (view_user self3)
      (in_GET request "glossary") in
  let result :=
    filter (fun c => in_scope self4 c && in_language self4 c &&
                     in_glossary self4 c && by_user self4 c = true)
      (last_changes (user request) w3) in
  (self4, result, w3).

(** One line of the export for a change, in the active locale. *)
Definition csv_row (w : World Ext) (change : Change) : list string :=
  [ isoformat (change_timestamp change);
    get_action_display (locale w) (change_action change);
    match change_user change with Some u => username u | None => "" end;
    change_absolute_url change ].

Definition csv_header : list string := ["timestamp"; "action"; "user"; "url"].

(** [ChangesCSVView.get] *)
Definition ChangesCSVView_get (request : Request) w : Result * World Ext :=
  let '(self, object_list, w1) := get_queryset request ChangesView_init w in
  if negb (can_download_changes (user request) (view_project self)) then
    (Raises PermissionDenied, w1)
  else
    let w2 := activate "en" w1 in
    (Returns (csv_response
                (csv_header :: (csv_row w2 <$> Py.slice object_list 0 2000))),
     w2).

End Changes.

(** ** A small installation

    One implementation of [Backend], used to run the views on concrete
    requests: a single project "hello" with the component "weblate" and the
    Czech translation, suggestions kept in a list, and one switch [allow]
    that every permission predicate returns. *)

Module Demo.

Definition project : Project := mkProject "hello".
Definition component : SubProject := mkSubProject "weblate" project false.
Definition cs : Translation :=
  mkTranslation 1 component "cs" "/translate/hello/weblate/cs/" "" false.
Definition alice : User := mkUser "alice" true.

Abbreviation W := (World (list Suggestion)).

Definition lookup_unit (t : Translation) (q : QueryDict) (w : W) : option Unit :=
  pk ← q !! "checksum" ≫= Py.int;
  u ← db_units w !! pk;
  if decide (unit_translation u = t) then Some u else None.

Definition units_of (t : Translation) (w : W) : list Unit :=
  filter (fun u => unit_translation u = t) (map_to_list (db_units w)).*2.

(** Failing checks of a target text: two spaces in a row, and a missing
    full stop. *)
Definition checks_of (text : string) : gset string :=
  (if Py.contains "  " text then {["multiple_spaces"]} else ∅) ∪
  (if Py.contains "." text then ∅ else {["end_stop"]}).

Definition store (u : Unit) (request : Request) (w : W) : bool * W :=
  let c := mkChange 0 ACTION_CHANGE (Some (user request)) (Some (unit_id u))
             (Some (unit_translation u)) None (target u) in
  match db_units w !! unit_id u with
  | Some old =>
      if decide (target old = target u /\ fuzzy old = fuzzy u) then (false, w)
      else (true, set_changes (fun l => (l ++ [c])%list)
                    (set_units (insert (unit_id u) u) w))
  | None => (true, set_changes (fun l => (l ++ [c])%list)
                     (set_units (insert (unit_id u) u) w))
  end.

Definition plural (t : string * list string) : string :=
  Py.join "|" (t.1 :: t.2).

Definition action_name (lang : string) (a : Action) : string :=
  if decide (lang = "en") then
    match a with
    | ACTION_CHANGE => "Translation changed"
    | ACTION_REVERT => "Translation reverted"
    | ACTION_REPLACE => "Search and replace"
    | ACTION_OTHER _ => "Other"
    end
  else "?".

Definition backend (allow : bool) : Backend := {|
  Ext := list Suggestion;
  can_translate _ _ := allow;
  can_suggest _ _ := allow;
  can_accept_suggestion _ _ := allow;
  can_delete_suggestion _ _ _ := allow;
  can_vote_suggestion _ _ := allow;
  can_download_changes _ _ := allow;
  get_translation _ p s l :=
    if decide (p = "hello" /\ s = "weblate" /\ l = "cs") then Some cs else None;
  get_subproject _ p s :=
    if decide (p = "hello" /\ s = "weblate") then Some component else None;
  get_project _ p := if decide (p = "hello") then Some project else None;
  get_project_translation _ p s l :=
    if decide (p = Some "hello") then Some (Some project, None, None) else None;
  AntispamForm_is_valid post := bool_decide (post !! "content" = None);
  TranslationForm_clean t post w :=
    u ← lookup_unit t post w;
    text ← post !! "target";
    Some (mkTranslationData u (text, []) (bool_decide (is_Some (post !! "fuzzy"))));
  MergeForm_clean t get w :=
    u ← lookup_unit t get w; m ← get !! "merge" ≫= Py.int; Some (u, m);
  RevertForm_clean t get w :=
    u ← lookup_unit t get w; r ← get !! "revert" ≫= Py.int; Some (u, r);
  ReplaceForm_clean post :=
    a ← post !! "search"; b ← post !! "replacement"; Some (a, b);
  SearchForm_clean get :=
    Some (mkSearchData (default "" (get !! "q")) (default "all" (get !! "type")));
  SearchForm_errors _ := [];
  SearchForm_get_name d := "Search for " +:+ search_q d;
  ReviewForm_clean get := get !! "date" ≫= Py.int;
  ReviewForm_errors _ := ["Enter a valid date."];
  date_format := Py.str;
  is_user_locked _ _ := false;
  check_sync _ w := w;
  commit_pending _ _ w := w;
  translation_save _ w := w;
  unit_set_review t _ _ w := units_of t w;
  unit_set_search t d w :=
    filter (fun u => Py.contains (search_q d) (target u) = true) (units_of t w);
  active_checks u _ := checks_of (target u);
  unit_translate u request text fz w :=
    let u' := mkUnit (unit_id u) (id_hash u) (plural text) fz (unit_translation u) in
    let '(saved, w') := store u' request w in (saved, u', w');
  content_changes_by_users_exist _ w := bool_decide (db_changes w <> []);
  Suggestion_add u text request _ w :=
    if decide (text ∈ suggestion_target <$> ext w) then (false, w)
    else (true,
          set_ext (fun l => (l ++ [mkSuggestion (Z.of_nat (length l) + 1) text
                                     (Some (user request))])%list) w);
  Suggestion_get pk _ _ w :=
    List.find (fun s => bool_decide (suggestion_id s = pk)) (ext w);
  suggestion_accept s _ _ w :=
    set_ext (filter (fun s' => suggestion_id s' <> suggestion_id s)) w;
  suggestion_delete_log s _ _ w :=
    set_ext (filter (fun s' => suggestion_id s' <> suggestion_id s)) w;
  suggestion_add_vote _ _ _ _ w := w;
  last_changes _ w := reverse (db_changes w);
  Language_get code _ := if decide (code = "cs") then Some code else None;
  User_get n _ := if decide (n = "alice") then Some alice else None;
  get_action_display := action_name;
  isoformat := Py.str;
  change_absolute_url _ := "/translate/hello/weblate/cs/";
  fix_target text _ := (text, []);
  check_name c := c;
  join_plural := plural;
  checksum_to_hash := Py.int
|}.

Definition hello : Unit := mkUnit 1 11 "Ahoj  svete." false cs.
Definition thanks : Unit := mkUnit 2 22 "Dekuji." false cs.
Definition bye : Unit := mkUnit 3 11 "Nashledanou." true cs.

Definition amb : Ambient := mkAmbient 200000 200000 "fresh" 200000.

(** A search stored long ago (its time to live ended at 100) and one
    stored just now. *)
Definition old_search : SearchEntry :=
  mkSearchEntry (Some ∅) (Some "") "All strings" [1; 2; 3] "old" 100 0.
Definition new_search : SearchEntry :=
  mkSearchEntry (Some ∅) (Some "") "All strings" [1; 2; 3] "new" 286400 1.

Definition world : W :=
  mkWorld (list_to_map [(1, hello); (2, thanks); (3, bye)])
    [mkChange 5 ACTION_CHANGE (Some alice) (Some 1) (Some cs) None "Ahoj.";
     mkChange 6 ACTION_CHANGE (Some alice) (Some 2) (Some cs) None ""]
    (list_to_map [("search_old", SearchDict old_search);
                  ("search_new", SearchDict new_search);
                  ("_auth_user_id", NotADict)])
    [] 7 "cs" [mkSuggestion 1 "Ahoj svete." (Some alice)].

Definition get (q : list (string * string)) : Request :=
  mkRequest GET_ (list_to_map q) ∅ alice.
Definition post (q p : list (string * string)) : Request :=
  mkRequest POST_ (list_to_map q) (list_to_map p) alice.

End Demo.

(** ** Vocabulary of the statements *)

(** The values [cleanup_session] deletes under a [search_] key. *)
Definition expired (now : Z) (v : SessionValue) : bool :=
  match v with
  | SearchDict e => ttl e <? now
  | NotADict => true
  end.

Definition swept (now : Z) (key : string) (v : SessionValue) : bool :=
  String.prefix "search_" key && expired now v.

(** What is left under a key after the sweep. *)
Definition kept (now : Z) (s : Session) (k : string) : option SessionValue :=
  match s !! k with
  | Some v => if swept now k v then None else Some v
  | None => None
  end.

(** Every search dictionary of the session sits under the key made from its
    own id, the way [search] stores it. *)
Definition session_wf (s : Session) : Prop :=
  map_Forall (fun k v => match v with
                         | SearchDict e => k = "search_" +:+ search_id e
                         | NotADict => True
                         end) s.

(** A sub-handler answers with a redirect to a URL, or not at all. *)
Definition redirects_only (h : Handled) : Prop :=
  match h with
  | Respond (HttpResponseRedirect _) | Continue | Throw _ => True
  | Respond _ => False
  end.

(** Saving [u] changes the persisted state: the table has no row under the
    key of [u], or the row has another target or fuzzy flag. *)
Definition changes_row {E} (w : World E) (u : Unit) : bool :=
  match db_units w !! unit_id u with
  | Some old => negb (bool_decide (target old = target u /\ fuzzy old = fuzzy u))
  | None => true
  end.

(** The log entry written for a save of [u]. *)
Definition log_entry (amb : Ambient) (request : Request) (a : Action)
    (u : Unit) : Change :=
  mkChange (now_save amb) a (Some (user request)) (Some (unit_id u))
    (Some (unit_translation u)) None (target u).

(** Every row of the unit table sits under its own primary key. *)
Definition units_wf (m : gmap Z Unit) : Prop :=
  map_Forall (fun k u => unit_id u = k) m.

(** The unit after [search_replace] has rewritten its target. *)
Definition replaced (search_text replacement : string) (u : Unit) : Unit :=
  set_target (Py.replace search_text replacement (target u)) u.

(** ** The other views of edit.py and the context of the changes browser *)

(** A translation comment ([weblate.trans.models.Comment]). *)
Record Comment := mkComment {
  comment_id : Z;
  comment_project : Project;
  comment_language : option string;
  comment_text : string
}.

(** [cleaned_data] of a valid [AutoForm]. *)
Record AutoData := mkAutoData {
  auto_subproject : string;
  auto_inconsistent : bool;
  auto_overwrite : bool
}.

(** [cleaned_data] of a valid [CommentForm]. *)
Record CommentData := mkCommentData {
  comment_scope : string;
  comment_body : string
}.

(** Responses of the views below that [Response] has no name for. *)
Inductive ViewResponse :=
  | plain (r : Response)
  | render_zen_units (unitdata : list (Unit * Z)) (search_query : option string)
      (search_id : string) (last_section : bool)     (* [zen-units.html] *)
  | redirect_unit (u : Unit)                         (* [redirect(unit)] *)
  | redirect_to (target : string).                   (* [redirect(text)] *)

Inductive ViewResult := Responds (r : ViewResponse) | Fails (e : Exn).

(** The helpers these views import on top of those of [Backend]. *)
Class Helpers `{Backend} := {
  can_automatic_translation : User -> Project -> bool;
  can_add_comment : User -> Project -> bool;
  can_delete_comment : User -> Project -> bool;
  (* [check_access]: [Some] is the exception it raises *)
  check_access : Request -> Project -> option Exn;
  AutoForm_clean : Translation -> User -> QueryDict -> World Ext -> option AutoData;
  auto_translate :
    User -> Translation -> string -> bool -> bool -> World Ext -> Z * World Ext;
  CommentForm_clean : QueryDict -> option CommentData;
  Comment_add : Unit -> User -> option string -> string -> World Ext -> World Ext;
  Comment_get : Z -> World Ext -> option Comment;
  comment_delete : Comment -> World Ext -> World Ext;
  get_related_units : Comment -> World Ext -> list Unit;
  unit_absolute_url : Unit -> string;
  project_absolute_url : Project -> string;
  (* django.core.urlresolvers, urllib, text of model objects *)
  reverse : string -> gmap string string -> string;
  urlencode : gmap string string -> string;
  first_name : User -> string;
  translation_str : Translation -> string;
  subproject_str : SubProject -> string;
  project_str : Project -> string;
  language_str : string -> string
}.

Section OtherViews.
Context `{Helpers}.
Implicit Type w : World Ext.

Definition auto_message (updated : Z) : string :=
  if decide (updated = 1)
  then "Automatic translation completed, " +:+ Py.str updated +:+
       " string was updated."
  else "Automatic translation completed, " +:+ Py.str updated +:+
       " strings were updated.".

(** [@require_POST @login_required def auto_translation] *)
Definition auto_translation (request : Request)
    (project subproject lang : string) w : Result * World Ext :=
  if negb (bool_decide (method request = POST_)) then
    (Returns HttpResponseNotAllowed, w)
  else if negb (is_authenticated (user request)) then
    (Returns redirect_to_login, w)
  else
    match get_translation request project subproject lang with
    | None => (Raises Http404, w)
    | Some translation =>
        let project := subproject_project (translation_subproject translation) in
        if negb (can_automatic_translation (user request) project) then
          (Raises PermissionDenied, w)
        else
          match
            (if subproject_locked (translation_subproject translation)
             then None
             else AutoForm_clean translation (user request) (POST request) w)
          with
          | None =>
              (Returns (redirect (OTranslation translation)),
               add_message ERROR "Failed to process form!" w)
          | Some data =>
              let '(updated, w1) :=
                auto_translate (user request) translation
                  (auto_subproject data) (auto_inconsistent data)
                  (auto_overwrite data) w in
              (Returns (redirect (OTranslation translation)),
               import_message updated
                 "Automatic translation completed, no strings were updated."
                 auto_message w1)
          end
    end.

(** [request.POST.get('next', fallback)] as the target of [redirect]. *)
Definition redirect_next (request : Request) (fallback : ViewResponse)
  : ViewResponse :=
  match POST request !! "next" with
  | Some target => redirect_to target
  | None => fallback
  end.

(** Add new comment. *)
Definition comment (request : Request) (pk : Z) w : ViewResult * World Ext :=
  if negb (is_authenticated (user request)) then
    (Responds (plain redirect_to_login), w)
  else
    match db_units w !! pk with
    | None => (Fails Http404, w)
    | Some unit =>
        let project :=
          subproject_project (translation_subproject (unit_translation unit)) in
        match check_access request project with
        | Some e => (Fails e, w)
        | None =>
            if negb (can_add_comment (user request) project) then
              (Fails PermissionDenied, w)
            else
              let w1 :=
                match CommentForm_clean (POST request) with
                | Some data =>
                    let lang :=
                      if decide (comment_scope data = "global") then None
                      else Some (translation_language (unit_translation unit)) in
                    add_message SUCCESS "Posted new comment"
                      (Comment_add unit (user request) lang (comment_body data) w)
                | None => add_message ERROR "Failed to add comment!" w
                end in
              (Responds (redirect_next request (redirect_unit unit)), w1)
        end
    end.

(** Delete comment. *)
Definition delete_comment (request : Request) (pk : Z) w
  : ViewResult * World Ext :=
  if negb (is_authenticated (user request)) then
    (Responds (plain redirect_to_login), w)
  else if negb (bool_decide (method request = POST_)) then
    (Responds (plain HttpResponseNotAllowed), w)
  else
    match Comment_get pk w with
    | None => (Fails Http404, w)
    | Some comment_obj =>
        match check_access request (comment_project comment_obj) with
        | Some e => (Fails e, w)
        | None =>
            if negb (can_delete_comment (user request)
                       (comment_project comment_obj)) then
              (Fails PermissionDenied, w)
            else
              let fallback_url :=
                match get_related_units comment_obj w with
                | u :: _ => unit_absolute_url u
                | [] => project_absolute_url (comment_project comment_obj)
                end in
              (Responds (redirect_next request (redirect_to fallback_url)),
               add_message INFO "Translation comment has been deleted."
                 (comment_delete comment_obj w))
        end
    end.

(** Load additional units for zen editor. *)
Definition load_zen (amb : Ambient) (request : Request)
    (project subproject lang : string) w : ViewResult * World Ext :=
  match get_translation request project subproject lang with
  | None => (Fails Http404, w)
  | Some translation =>
      match get_zen_unitdata amb translation request w with
      | (inl (inl e), w1) => (Fails e, w1)
      | (inl (inr r), w1) => (Responds (plain r), w1)
      | (inr (sr, last_section, unitdata), w1) =>
          (Responds (render_zen_units unitdata (query (entry sr))
                       (search_id (entry sr)) last_section), w1)
      end
  end.

(** Save handler for zen mode. *)
Definition save_zen (request : Request) (project subproject lang : string) w
  : Result * World Ext :=
  if negb (is_authenticated (user request)) then (Returns redirect_to_login, w)
  else if negb (bool_decide (method request = POST_)) then
    (Returns HttpResponseNotAllowed, w)
  else
    match get_translation request project subproject lang with
    | None => (Raises Http404, w)
    | Some translation =>
        let user_locked := is_user_locked translation (user request) in
        let w1 :=
          if negb (can_translate (user request) (ScopeTranslation translation))
          then add_message ERROR
                 "You don't have privileges to save translations!" w
          else
            match TranslationForm_clean translation (POST request) w with
            | None => add_message ERROR "Failed to save translation!" w
            | Some frm =>
                if negb user_locked
                then (perform_translation (form_unit frm) frm request w).2
                else w
            end in
        (Returns render_zen_response, w1)
    end.

(** The entries [ChangesView.get_context_data] adds to the context. *)
Record ChangesContext := mkChangesContext {
  context_project : option Project;
  context_subproject : option SubProject;
  context_translation : option Translation;
  context_language : option string;
  context_changes_user : option User;
  context_changes_rss : option string;
  context_title : option string;
  context_url : gmap string string;     (* the dictionary [url] *)
  context_query_string : string
}.

(** The scope part of [get_context_data]: project, subproject and
    translation of the context, the feed, the title and [url]. *)
Definition context_scope (self : ChangesView)
  : option Project * option SubProject * option Translation *
    option string * option string * gmap string string :=
  match view_translation self, view_subproject self, view_project self with
  | Some t, _, _ =>
      let url : gmap string string :=
        <["project" := project_slug (subproject_project (translation_subproject t))]>
          (<["subproject" := subproject_slug (translation_subproject t)]>
             (<["lang" := translation_language t]> ∅)) in
      (Some (subproject_project (translation_subproject t)),
       Some (translation_subproject t), Some t,
       Some (reverse "rss-translation" url),
       Some ("Changes in " +:+ translation_str t), url)
  | None, Some s, _ =>
      let url : gmap string string :=
        <["project" := project_slug (subproject_project s)]>
          (<["subproject" := subproject_slug s]> ∅) in
      (Some (subproject_project s), Some s, None,
       Some (reverse "rss-subproject" url),
       Some ("Changes in " +:+ subproject_str s), url)
  | None, None, Some p =>
      let url : gmap string string := <["project" := project_slug p]> ∅ in
      (Some p, None, None, Some (reverse "rss-project" url),
       Some ("Changes in " +:+ project_str p), url)
  | None, None, None => (None, None, None, None, None, ∅)
  end.

(** Create context for rendering page. *)
Definition get_context_data (self : ChangesView) : ChangesContext :=
  let '(project, subproject, translation, rss, title, url) :=
    context_scope self in
  let '(language, rss, title, url) :=
    match view_language self with
    | Some l =>
        let url := <["lang" := l]> url in
        (Some l,
         match rss with Some r => Some r | None => Some (reverse "rss-language" url) end,
         match title with
         | Some t => Some t
         | None => Some ("Changes in " +:+ language_str l)
         end, url)
    | None => (None, rss, title, url)
    end in
  let '(changes_user, title, url) :=
    match view_user self with
    | Some u =>
        (Some u,
         match title with
         | Some t => Some t
         | None => Some ("Changes by " +:+ first_name u)
         end, <["user" := username u]> url)
    | None => (None, title, url)
    end in
  let url := if view_glossary self then <["glossary" := "1"]> url else url in
  let rss := if decide (size url = 0%nat) then Some (reverse "rss" ∅) else rss in
  mkChangesContext project subproject translation language changes_user rss
    title url (urlencode url).

End OtherViews.

(** The rest of the small installation: one implementation of [Helpers]
    over [Demo.backend], with a single comment and no comment table. *)

Module Demo2.

Definition note : Comment := mkComment 1 Demo.project None "Typo?".

Definition auto_form (post : QueryDict) : option AutoData :=
  sp ← post !! "subproject";
  Some (mkAutoData sp (bool_decide (is_Some (post !! "inconsistent")))
          (bool_decide (is_Some (post !! "overwrite")))).

Definition comment_form (post : QueryDict) : option CommentData :=
  body ← post !! "comment";
  Some (mkCommentData (default "translation" (post !! "scope")) body).

Definition encode (url : gmap string string) : string :=
  Py.join "&" ((fun kv => kv.1 +:+ "=" +:+ kv.2) <$> map_to_list url).

(** The fields in the order of the class. *)
Definition helpers (allow : bool) : @Helpers (Demo.backend allow) :=
  @Build_Helpers (Demo.backend allow)
    (fun _ _ => allow)                          (* can_automatic_translation *)
    (fun _ _ => allow)                          (* can_add_comment *)
    (fun _ _ => allow)                          (* can_delete_comment *)
    (fun _ _ => None)                           (* check_access *)
    (fun _ _ post (_ : Demo.W) => auto_form post)
    (fun _ _ _ _ _ (w : Demo.W) => (0, w))      (* auto_translate *)
    comment_form
    (fun _ _ _ _ (w : Demo.W) => w)             (* Comment_add *)
    (fun pk (_ : Demo.W) => if decide (pk = 1) then Some note else None)
    (fun _ (w : Demo.W) => w)                   (* comment_delete *)
    (fun _ (w : Demo.W) => Demo.units_of Demo.cs w)
    (fun u => "/translate/hello/weblate/cs/?checksum=" +:+ Py.str (unit_id u))
    (fun p => "/projects/" +:+ project_slug p +:+ "/")
    (fun view _ => "/exports/" +:+ view +:+ "/") (* reverse *)
    encode
    username                                    (* first_name *)
    translation_language
    subproject_slug
    project_slug
    (fun l => l).

End Demo2.

(** ** More vocabulary *)

(** The operation [handle_suggestions] runs in each mode. *)
Definition suggestion_operation `{Backend} (mode : Mode) (suggestion : Suggestion)
    (translation : Translation) (request : Request) (w : World Ext)
  : World Ext :=
  match mode with
  | accept | accept_edit => suggestion_accept suggestion translation request w
  | delete_ => suggestion_delete_log suggestion translation request w
  | upvote => suggestion_add_vote suggestion translation request true w
  | downvote => suggestion_add_vote suggestion translation request false w
  end.

(** The request with the [offset] parameter set to a text. *)
Definition with_offset (text : string) (request : Request) : Request :=
  mkRequest (method request) (<["offset" := text]> (GET request))
    (POST request) (user request).

(** From [w] to [w'] the change log only grew, by entries of the user of
    the request, and session, locale and the other tables stayed. *)
Definition log_grows {E} (request : Request) (w w' : World E) : Prop :=
  (exists new,
      db_changes w' = (db_changes w ++ new)%list /\
      Forall (fun c => change_user c = Some (user request)) new) /\
  session w' = session w /\ locale w' = locale w /\ ext w' = ext w.

(** The same installation with the component locked. *)

Module Locked.

Definition component : SubProject := mkSubProject "weblate" Demo.project true.
Definition cs : Translation :=
  mkTranslation 1 component "cs" "/translate/hello/weblate/cs/" "" false.

Definition base : Backend := Demo.backend true.

(** [Demo.backend true] but for [get_translation], which finds the
    translation of the locked component. *)
Definition backend : Backend :=
  @Build_Backend (list Suggestion)
    (@can_translate base) (@can_suggest base) (@can_accept_suggestion base)
    (@can_delete_suggestion base) (@can_vote_suggestion base)
    (@can_download_changes base)
    (fun _ p s l =>
       if decide (p = "hello" /\ s = "weblate" /\ l = "cs") then Some cs
       else None)
    (@get_subproject base) (@get_project base) (@get_project_translation base)
    (@AntispamForm_is_valid base) (@TranslationForm_clean base)
    (@MergeForm_clean base) (@RevertForm_clean base) (@ReplaceForm_clean base)
    (@SearchForm_clean base) (@SearchForm_errors base)
    (@SearchForm_get_name base) (@ReviewForm_clean base)
    (@ReviewForm_errors base) (@date_format base) (@is_user_locked base)
    (@check_sync base) (@commit_pending base) (@translation_save base)
    (@unit_set_review base) (@unit_set_search base) (@active_checks base)
    (@unit_translate base) (@content_changes_by_users_exist base)
    (@Suggestion_add base) (@Suggestion_get base) (@suggestion_accept base)
    (@suggestion_delete_log base) (@suggestion_add_vote base)
    (@last_changes base) (@Language_get base) (@User_get base)
    (@get_action_display base) (@isoformat base) (@change_absolute_url base)
    (@fix_target base) (@check_name base) (@join_plural base)
    (@checksum_to_hash base).

Definition world : Demo.W :=
  mkWorld (list_to_map [(1, mkUnit 1 11 "Ahoj." false cs);
                        (2, mkUnit 2 22 "Dekuji." false cs)])
    []
    (list_to_map
       [("search_new",
         SearchDict (mkSearchEntry (Some ∅) (Some "") "All strings" [1; 2]
                       "new" 286400 0))])
    [] 0 "cs" [].

End Locked.

(** ** The Python helpers on examples *)

Example py_int_ok : Py.int " -12 " = Some (-12).
Proof. reflexivity. Qed.
Example py_int_bad : Py.int "1x" = None.
Proof. reflexivity. Qed.
Example py_int_empty : Py.int "" = None.
Proof. reflexivity. Qed.
Example py_str_ok : Py.str 12 = "12" /\ Py.str 0 = "0" /\ Py.str (-3) = "-3".
Proof. repeat split; reflexivity. Qed.
Example py_replace_ok : Py.replace "ab" "x" "cababab" = "cxxx".
Proof. reflexivity. Qed.
Example py_replace_overlap : Py.replace "aa" "b" "aaa" = "ba".
Proof. reflexivity. Qed.
Example py_replace_empty : Py.replace "" "-" "abc" = "-a-b-c-".
Proof. reflexivity. Qed.
Example py_slice_ok :
  Py.slice [1; 2; 3; 4; 5] 1 3 = [2; 3] /\ Py.slice [1; 2; 3; 4; 5] (-2) 18 = [4; 5].
Proof. split; reflexivity. Qed.

(** ** The search cache: expiry *)

Section SearchCache.
Context `{Backend}.
Implicit Type w : World Ext.

Lemma cleanup_key_same now (s : Session) k :
  cleanup_key now s k !! k = kept now s k.
Proof.
  unfold cleanup_key, kept, swept.
  destruct (String.prefix "search_" k); simpl.
  - destruct (s !! k) as [[e|]|] eqn:E; simpl.
    + destruct (ttl e <? now); [apply lookup_delete_eq | exact E].
    + apply lookup_delete_eq.
    + exact E.
  - destruct (s !! k); reflexivity.
Qed.

Lemma cleanup_key_other now (s : Session) key k :
  k <> key -> cleanup_key now s key !! k = s !! k.
Proof.
  intros Hne. unfold cleanup_key.
  destruct (String.prefix "search_" key); simpl; [|reflexivity].
  destruct (s !! key) as [[e|]|]; [destruct (ttl e <? now)| |];
    try reflexivity; apply lookup_delete_ne; congruence.
Qed.

Lemma kept_ext now (s s' : Session) k :
  s !! k = s' !! k -> kept now s k = kept now s' k.
Proof. unfold kept. intros ->. reflexivity. Qed.

Lemma sweep_lookup now (keys : list string) : forall (s : Session) k,
  NoDup keys ->
  foldl (cleanup_key now) s keys !! k =
    if decide (k ∈ keys) then kept now s k else s !! k.
Proof.
  induction keys as [|a keys IH]; intros s k Hnd; simpl.
  - destruct (decide (k ∈ [])) as [Hin|]; [inversion Hin | reflexivity].
  - apply NoDup_cons in Hnd as [Ha Hnd].
    rewrite IH by assumption.
    destruct (decide (k = a)) as [->|Hne].
    + destruct (decide (a ∈ keys)); [contradiction|].
      destruct (decide (a ∈ a :: keys)) as [|Hn]; [|exfalso; apply Hn; left].
      apply cleanup_key_same.
    + destruct (decide (k ∈ keys)) as [Hin|Hin].
      * destruct (decide (k ∈ a :: keys)) as [|Hn];
          [|exfalso; apply Hn; right; assumption].
        apply kept_ext, cleanup_key_other, Hne.
      * destruct (decide (k ∈ a :: keys)) as [Hin'|].
        -- apply elem_of_cons in Hin' as [?|?]; contradiction.
        -- apply cleanup_key_other, Hne.
Qed.

(** After the sweep a key holds what it held before, unless it is a
    [search_] key whose value is expired or is no dictionary. *)
Lemma cleanup_session_lookup now (s : Session) k :
  cleanup_session now s !! k = kept now s k.
Proof.
  unfold cleanup_session.
  rewrite sweep_lookup by apply NoDup_fst_map_to_list.
  destruct (decide (k ∈ (map_to_list s).*1)) as [|Hn]; [reflexivity|].
  unfold kept. destruct (s !! k) as [v|] eqn:E; [|reflexivity].
  exfalso. apply Hn. apply list_elem_of_fmap. exists (k, v). split; [reflexivity|].
  apply elem_of_map_to_list. exact E.
Qed.

Lemma show_form_errors_session errors w :
  session (show_form_errors errors w) = session w.
Proof.
  revert w. induction errors as [|e errors IH]; intros w; simpl; [reflexivity|].
  unfold show_form_errors in *. simpl. rewrite IH. reflexivity.
Qed.

Lemma search_units_session t req w :
  session (search_units t req w).2 = session w.
Proof.
  unfold search_units.
  destruct (decide (is_Some (GET req !! "date"))).
  - destruct (ReviewForm_clean (GET req)); simpl;
      [reflexivity | apply show_form_errors_session].
  - destruct (SearchForm_clean (GET req)); simpl;
      [reflexivity | apply show_form_errors_session].
Qed.

(** C1 (as amended). The sweep of [cleanup_session] leaves no [search_] key
    whose value is expired ([ttl < now]) or is no dictionary, and leaves
    every other key alone.  [search] runs the sweep only on the way to
    storing a new search: the session it leaves is then the swept session
    with the new entry added.  A lookup by [sid] does not sweep and does not
    read [ttl]: it returns the entry stored under [search_<sid>] and leaves
    the session as it is; the "Invalid search string!" redirect is taken
    exactly when nothing is stored under that key. *)
Theorem C1_sweep_only_on_new_search amb t req w :
  (forall now k, cleanup_session now (session w) !! k = kept now (session w) k) /\
  match GET req !! "sid" with
  | Some sid =>
      search amb t req w =
        match session w !! ("search_" +:+ sid) with
        | Some (SearchDict e) =>
            (Found (mkSearchResult e
                      match params e with
                      | Some p => BoundForm p
                      | None => UnboundForm
                      end), w)
        | Some NotADict => (Failed TypeError, w)
        | None =>
            (Redirected (redirect (OTranslation t)),
             add_message ERROR "Invalid search string!" w)
        end
  | None =>
      match search amb t req w with
      | (Found r, w') =>
          session w' =
            <["search_" +:+ uuid1 amb := SearchDict (entry r)]>
              (cleanup_session (now_cleanup amb) (session w))
      | (_, w') => session w' = session w
      end
  end.
Proof.
  split; [intros; apply cleanup_session_lookup|].
  unfold search.
  destruct (GET req !! "sid") as [sid|] eqn:Hsid.
  - destruct (session w !! ("search_" +:+ sid)) as [[e|]|]; reflexivity.
  - pose proof (search_units_session t req w) as Hs.
    destruct (search_units t req w) as [[[allunits q] nm] w1]. simpl in Hs.
    destruct (decide (length (unit_id <$> allunits) = 0%nat)); [exact Hs|].
    destruct (GET req !! "checksum") as [c|].
    + destruct (checksum_offset allunits c); simpl; [rewrite Hs; reflexivity | exact Hs].
    + simpl. rewrite Hs. reflexivity.
Qed.

End SearchCache.

(** C1 (as stated) fails: the search stored under [search_old] ran out at
    100, the request comes at 200000 and names it by [sid], and [search]
    hands that entry back with the session untouched. *)
Lemma C1_expired_entry_is_returned :
  ttl Demo.old_search < now_cleanup Demo.amb /\
  search (H := Demo.backend true) Demo.amb Demo.cs
    (Demo.get [("sid", "old")]) Demo.world =
  (Found (mkSearchResult Demo.old_search (BoundForm ∅)), Demo.world).
Proof. split; [reflexivity | vm_compute; reflexivity]. Qed.

(** ** Capability checks of the mutating transitions *)

Section Capabilities.
Context `{Backend}.
Implicit Type w : World Ext.

Lemma check_suggest_permissions_denied req t sug mode w :
  suggestion_capability req t sug mode = false ->
  exists text,
    check_suggest_permissions req (Some mode) t sug w =
      (false, add_message ERROR text w).
Proof.
  intros Hcap. unfold check_suggest_permissions.
  destruct mode; simpl in Hcap; rewrite Hcap; simpl; eauto.
Qed.

Lemma check_suggest_permissions_allowed req t sug mode w :
  suggestion_capability req t sug mode = true ->
  check_suggest_permissions req (Some mode) t sug w = (true, w).
Proof.
  intros Hcap. unfold check_suggest_permissions.
  destruct mode; simpl in Hcap; rewrite Hcap; reflexivity.
Qed.

(** C2 (as amended). When the capability check of a transition fails:
    suggest, accept/delete/vote, merge and revert queue an error message,
    write nothing and stay on the current offset (suggest and the
    suggestion actions redirect to the URL of this offset, merge and revert
    return no response, so the page of this offset is shown);
    search-replace raises [PermissionDenied] with the state untouched and no
    message; saving a translation queues the error message and writes
    nothing.  "Writes nothing" is: the state is the one [check_sync] left
    (for the POST handlers, which run it first), plus the message. *)
Theorem C2_denied_transitions :
  (forall t req ul this next w frm,
      AntispamForm_is_valid (POST req) = true ->
      TranslationForm_clean t (POST req) (check_sync t w) = Some frm ->
      is_Some (POST req !! "suggest") ->
      can_suggest (user req) (unit_translation (form_unit frm)) = false ->
      exists text,
        handle_translate t req ul this next w =
          (Respond (HttpResponseRedirect this),
           add_message ERROR text (check_sync t w))) /\
  (forall t req this next w sugid mode pk sug,
      parse_suggestion req = (sugid, Some mode) ->
      Py.int sugid = Some pk ->
      Suggestion_get pk (subproject_project (translation_subproject t))
        (translation_language t) w = Some sug ->
      suggestion_capability req t sug mode = false ->
      exists text,
        handle_suggestions t req this next w =
          (Respond (HttpResponseRedirect this), add_message ERROR text w)) /\
  (forall amb t req next w,
      can_translate (user req) (ScopeTranslation t) = false ->
      handle_merge amb t req next w =
        (Continue,
         add_message ERROR "You don't have privileges to save translations!" w) /\
      handle_revert amb t req next w =
        (Continue,
         add_message ERROR "You don't have privileges to save translations!" w)) /\
  (forall amb req project subproject lang w obj perms,
      is_authenticated (user req) = true ->
      method req = POST_ ->
      replace_scope req project subproject lang = Some (obj, perms) ->
      can_translate (user req) perms = false ->
      search_replace amb req project subproject lang w =
        (Raises PermissionDenied, w)) /\
  (forall t req ul this next w frm,
      AntispamForm_is_valid (POST req) = true ->
      TranslationForm_clean t (POST req) (check_sync t w) = Some frm ->
      POST req !! "suggest" = None ->
      can_translate (user req)
        (ScopeTranslation (unit_translation (form_unit frm))) = false ->
      (handle_translate t req ul this next w).2 =
        add_message ERROR "You don't have privileges to save translations!"
          (check_sync t w)).
Proof.
  repeat apply conj.
  - intros t req ul this next w frm Hspam Hform Hsug Hcap.
    unfold handle_translate. rewrite Hspam, Hform. simpl.
    destruct (decide (is_Some (POST req !! "suggest"))); [|contradiction].
    unfold perform_suggestion. rewrite Hcap. simpl.
    destruct (decide ((form_target frm).1 = "")); eauto.
  - intros t req this next w sugid mode pk sug Hparse Hint Hget Hcap.
    unfold handle_suggestions. rewrite Hparse, Hint, Hget.
    destruct (check_suggest_permissions_denied req t sug mode w Hcap) as [text ->].
    simpl. eauto.
  - intros amb t req next w Hcap. unfold handle_merge, handle_revert.
    rewrite Hcap. split; reflexivity.
  - intros amb req project subproject lang w obj perms Hauth Hpost Hscope Hcap.
    unfold search_replace. rewrite Hauth, Hscope, Hcap. simpl.
    rewrite bool_decide_eq_true_2 by assumption. reflexivity.
  - intros t req ul this next w frm Hspam Hform Hsug Hcap.
    unfold handle_translate. rewrite Hspam, Hform. simpl.
    destruct (decide (is_Some (POST req !! "suggest"))) as [[x Hx]|_];
      [congruence|].
    rewrite Hcap. reflexivity.
Qed.

End Capabilities.

Lemma C2_denied_transitions_witness :
  let D := Demo.backend false in
  let suggest := Demo.post [] [("checksum", "1"); ("target", "Ahoj."); ("suggest", "1")] in
  let remove := Demo.post [] [("delete", "1")] in
  let save := Demo.post [] [("checksum", "1"); ("target", "Ahoj.")] in
  let replace := Demo.post [] [("search", "Ahoj"); ("replacement", "Cau")] in
  (exists text,
     handle_translate (H := D) Demo.cs suggest false "this" "next" Demo.world =
       (Respond (HttpResponseRedirect "this"),
        add_message ERROR text (check_sync (Backend := D) Demo.cs Demo.world))) /\
  (exists text,
     handle_suggestions (H := D) Demo.cs remove "this" "next" Demo.world =
       (Respond (HttpResponseRedirect "this"),
        add_message ERROR text Demo.world)) /\
  (handle_merge (H := D) Demo.amb Demo.cs
     (Demo.get [("checksum", "1"); ("merge", "3")]) "next" Demo.world =
     (Continue,
      add_message ERROR "You don't have privileges to save translations!"
        Demo.world) /\
   handle_revert (H := D) Demo.amb Demo.cs
     (Demo.get [("checksum", "1"); ("merge", "3")]) "next" Demo.world =
     (Continue,
      add_message ERROR "You don't have privileges to save translations!"
        Demo.world)) /\
  search_replace (H := D) Demo.amb replace "hello" None None Demo.world =
    (Raises PermissionDenied, Demo.world) /\
  (handle_translate (H := D) Demo.cs save false "this" "next" Demo.world).2 =
    add_message ERROR "You don't have privileges to save translations!"
      (check_sync (Backend := D) Demo.cs Demo.world).
Proof.
  intros D suggest remove save replace.
  destruct (C2_denied_transitions (H := D)) as (Hsuggest & Hsug & Hmerge & Hreplace & Hsave).
  repeat apply conj.
  - exact (Hsuggest Demo.cs suggest false "this" "next" Demo.world
             (mkTranslationData Demo.hello ("Ahoj.", []) false)
             eq_refl eq_refl (ex_intro _ "1" eq_refl) eq_refl).
  - exact (Hsug Demo.cs remove "this" "next" Demo.world "1" delete_ 1
             (mkSuggestion 1 "Ahoj svete." (Some Demo.alice))
             eq_refl eq_refl eq_refl eq_refl).
  - apply (proj1 (Hmerge Demo.amb Demo.cs
             (Demo.get [("checksum", "1"); ("merge", "3")]) "next" Demo.world
             eq_refl)).
  - apply (proj2 (Hmerge Demo.amb Demo.cs
             (Demo.get [("checksum", "1"); ("merge", "3")]) "next" Demo.world
             eq_refl)).
  - exact (Hreplace Demo.amb replace "hello" None None Demo.world
             (OProject Demo.project) (ScopeProject Demo.project)
             eq_refl eq_refl eq_refl eq_refl).
  - exact (Hsave Demo.cs save false "this" "next" Demo.world
             (mkTranslationData Demo.hello ("Ahoj.", []) false)
             eq_refl eq_refl eq_refl eq_refl).
Defined.

(** C2 (as stated) fails twice.  A user without the capability to
    translate posts a translation for offset 0 of a cached search: the
    error is queued and the response redirects to offset 1, the next one.
    The same user posts a search-replace: [PermissionDenied] is raised and
    no message is queued. *)
Lemma C2_denied_save_goes_to_next :
  let D := Demo.backend false in
  let r := translate (H := D) Demo.amb
             (Demo.post [("sid", "new"); ("offset", "0")]
                        [("checksum", "1"); ("target", "Ahoj.")])
             "hello" "weblate" "cs" Demo.world in
  r.1 = Returns (HttpResponseRedirect
                   "/translate/hello/weblate/cs/?sid=new&offset=1") /\
  messages r.2 = [(ERROR, "You don't have privileges to save translations!")] /\
  db_units r.2 = db_units Demo.world /\
  search_replace (H := D) Demo.amb
    (Demo.post [] [("search", "Ahoj"); ("replacement", "Cau")])
    "hello" None None Demo.world = (Raises PermissionDenied, Demo.world) /\
  messages Demo.world = [].
Proof. repeat apply conj; vm_compute; reflexivity. Qed.

(** ** New check failures after a save *)

(** C3, at a failing input.  The stored target "Ahoj  svete." fails the
    check [multiple_spaces]; the user saves "Ahoj svete", which fails
    [end_stop] instead.  A check that was absent before the edit now fails,
    yet [newchecks > oldchecks] is false (the new set is no superset of the
    old one): the save is kept, nothing is reported, [perform_translation]
    returns [True] and [handle_translate] redirects to the next unit. *)
Lemma C3_new_failure_not_reported :
  let B := Demo.backend true in
  let frm := mkTranslationData Demo.hello ("Ahoj svete", []) false in
  let req := Demo.post [] [("checksum", "1"); ("target", "Ahoj svete")] in
  let saved := mkUnit 1 11 "Ahoj svete" false Demo.cs in
  let r := perform_translation (H := B) Demo.hello frm req Demo.world in
  active_checks (Backend := B) Demo.hello Demo.world = {["multiple_spaces"]} /\
  active_checks (Backend := B) saved r.2 = {["end_stop"]} /\
  db_units r.2 !! 1 = Some saved /\
  r.1 = true /\
  messages r.2 = [] /\
  (handle_translate (H := B) Demo.cs req false "this" "next" Demo.world).1 =
    Respond (HttpResponseRedirect "next").
Proof. repeat apply conj; vm_compute; reflexivity. Qed.

(** ** The CSV export of changes *)

Lemma py_slice_take {A} (l : list A) (n : Z) :
  0 <= n -> Py.slice l 0 n = take (Z.to_nat n) l.
Proof.
  intros Hn. unfold Py.slice, Py.clamp.
  destruct (0 <? 0) eqn:E0; [discriminate|].
  destruct (n <? 0) eqn:En; [apply Z.ltb_lt in En; lia|].
  rewrite (Z.min_l 0) by lia. rewrite Z.sub_0_r. simpl. rewrite drop_0.
  destruct (Z.le_ge_cases n (Z.of_nat (length l))) as [Hle|Hge].
  - rewrite (Z.min_l n) by lia. reflexivity.
  - rewrite (Z.min_r n) by lia. rewrite Nat2Z.id.
    rewrite !take_ge by lia. reflexivity.
Qed.

Section ChangesExport.
Context `{Backend}.
Implicit Type w : World Ext.

(** C5. [ChangesCSVView.get] first builds the queryset.  If the viewer may
    not download changes it raises [PermissionDenied] and builds no
    response.  Otherwise it activates the locale "en" and answers with the
    header line followed by one line for each of the first 2000 changes of
    the queryset, formatted in that locale: at most 2000 data rows, however
    many changes match. *)
Theorem C5_csv_export req w :
  let '(self, object_list, w1) := get_queryset req ChangesView_init w in
  if can_download_changes (user req) (view_project self) then
    exists data,
      ChangesCSVView_get req w =
        (Returns (csv_response (csv_header :: data)), activate "en" w1) /\
      data = csv_row (activate "en" w1) <$> take 2000 object_list /\
      locale (activate "en" w1) = "en" /\
      length data = Nat.min 2000 (length object_list) /\
      (length data <= 2000)%nat
  else ChangesCSVView_get req w = (Raises PermissionDenied, w1).
Proof.
  unfold ChangesCSVView_get.
  destruct (get_queryset req ChangesView_init w) as [[self object_list] w1].
  destruct (can_download_changes (user req) (view_project self)); simpl;
    [|reflexivity].
  eexists. split; [reflexivity|].
  rewrite py_slice_take by lia. change (Z.to_nat 2000) with 2000%nat.
  split; [reflexivity|]. split; [reflexivity|].
  rewrite length_fmap, length_take. split; [reflexivity|].
  apply Nat.le_min_l.
Qed.

End ChangesExport.

(** ** Accepting, deleting and voting for suggestions *)

Section Suggestions.
Context `{Backend}.
Implicit Type w : World Ext.

(** The mode found by the parsing loop fixes which of the five parameters
    the "Perform operation" chain sees. *)
Lemma parse_suggestion_mode req sugid mode :
  parse_suggestion req = (sugid, Some mode) ->
  match mode with
  | accept => in_POST req "accept" = true
  | accept_edit =>
      in_POST req "accept" = false /\ in_POST req "accept_edit" = true
  | delete_ =>
      in_POST req "accept" = false /\ in_POST req "accept_edit" = false /\
      in_POST req "delete" = true
  | upvote =>
      in_POST req "accept" = false /\ in_POST req "accept_edit" = false /\
      in_POST req "delete" = false /\ in_POST req "upvote" = true
  | downvote =>
      in_POST req "accept" = false /\ in_POST req "accept_edit" = false /\
      in_POST req "delete" = false /\ in_POST req "upvote" = false /\
      in_POST req "downvote" = true
  end.
Proof.
  unfold parse_suggestion, suggestion_params. simpl.
  destruct (in_POST req "accept") eqn:E1;
    [intros [= _ <-]; reflexivity|].
  destruct (in_POST req "accept_edit") eqn:E2;
    [intros [= _ <-]; auto|].
  destruct (in_POST req "delete") eqn:E3;
    [intros [= _ <-]; auto|].
  destruct (in_POST req "upvote") eqn:E4;
    [intros [= _ <-]; auto|].
  destruct (in_POST req "downvote") eqn:E5;
    [intros [= _ <-]; auto 6|].
  discriminate.
Qed.

(** C10. With the suggestion found and the capability of the mode granted:
    [accept_edit] runs the same [suggestion.accept] as [accept] and
    redirects to the current unit, [accept] redirects to the next one,
    [delete], [upvote] and [downvote] do their operation and redirect to
    the current unit.  And whatever the request, the handler answers with a
    redirect to the current unit unless the mode is [accept]. *)
Theorem C10_only_accept_advances t req this next w :
  (forall sugid mode pk sug,
      parse_suggestion req = (sugid, Some mode) ->
      Py.int sugid = Some pk ->
      Suggestion_get pk (subproject_project (translation_subproject t))
        (translation_language t) w = Some sug ->
      suggestion_capability req t sug mode = true ->
      handle_suggestions t req this next w =
        match mode with
        | accept =>
            (Respond (HttpResponseRedirect next), suggestion_accept sug t req w)
        | accept_edit =>
            (Respond (HttpResponseRedirect this), suggestion_accept sug t req w)
        | delete_ =>
            (Respond (HttpResponseRedirect this),
             suggestion_delete_log sug t req w)
        | upvote =>
            (Respond (HttpResponseRedirect this),
             suggestion_add_vote sug t req true w)
        | downvote =>
            (Respond (HttpResponseRedirect this),
             suggestion_add_vote sug t req false w)
        end) /\
  exists url,
    (handle_suggestions t req this next w).1 =
      Respond (HttpResponseRedirect url) /\
    (url = this \/ (url = next /\ (parse_suggestion req).2 = Some accept)).
Proof.
  split.
  - intros sugid mode pk sug Hparse Hint Hget Hcap.
    pose proof (parse_suggestion_mode req sugid mode Hparse) as Hmode.
    unfold handle_suggestions. rewrite Hparse, Hint, Hget.
    rewrite (check_suggest_permissions_allowed req t sug mode w Hcap). simpl.
    destruct mode; simpl in Hmode.
    + rewrite Hmode. reflexivity.
    + destruct Hmode as (-> & ->). reflexivity.
    + destruct Hmode as (-> & -> & ->). reflexivity.
    + destruct Hmode as (-> & -> & -> & ->). reflexivity.
    + destruct Hmode as (-> & -> & -> & -> & ->). reflexivity.
  - unfold handle_suggestions.
    destruct (parse_suggestion req) as [sugid mode] eqn:Hparse.
    destruct (Py.int sugid) as [pk|]; [|simpl; eauto].
    destruct (Suggestion_get pk _ _ w) as [sug|]; [|simpl; eauto].
    destruct (check_suggest_permissions req mode t sug w) as [allowed w1].
    destruct allowed; [|simpl; eauto].
    simpl.
    destruct (in_POST req "accept") eqn:E1.
    + simpl. exists next. split; [reflexivity|]. right. split; [reflexivity|].
      revert Hparse. unfold parse_suggestion, suggestion_params. simpl.
      rewrite E1. intros [= _ <-]. reflexivity.
    + simpl. destruct (in_POST req "accept_edit"); simpl; [eauto|].
      destruct (in_POST req "delete"); [simpl; eauto|].
      destruct (in_POST req "upvote"); [simpl; eauto|].
      destruct (in_POST req "downvote"); simpl; eauto.
Qed.

End Suggestions.

Lemma C10_only_accept_advances_witness :
  let B := Demo.backend true in
  let req := Demo.post [] [("accept_edit", "1")] in
  let sug := mkSuggestion 1 "Ahoj svete." (Some Demo.alice) in
  handle_suggestions (H := B) Demo.cs req "this" "next" Demo.world =
    (Respond (HttpResponseRedirect "this"),
     suggestion_accept (Backend := B) sug Demo.cs req Demo.world).
Proof.
  intros B req sug.
  apply (proj1 (C10_only_accept_advances (H := B) Demo.cs req "this" "next"
                  Demo.world) "1" accept_edit 1 sug);
    vm_compute; reflexivity.
Defined.

(** ** Offsets into a cached search *)

Section Offsets.
Context `{Backend}.
Implicit Type w : World Ext.

(** A search that [search] hands back is in the session under its own id:
    it was found there under [search_<sid>], or it has just been stored. *)
Lemma search_found_cached amb t req w sr w1 :
  session_wf (session w) ->
  search amb t req w = (Found sr, w1) ->
  session w1 !! ("search_" +:+ search_id (entry sr)) =
    Some (SearchDict (entry sr)).
Proof.
  intros Hwf. unfold search.
  destruct (GET req !! "sid") as [sid|].
  - destruct (session w !! ("search_" +:+ sid)) as [[e|]|] eqn:E;
      intros [= <- <-]; simpl.
    rewrite <- (Hwf _ _ E). exact E.
  - destruct (search_units t req w) as [[[allunits q] nm] w0].
    destruct (decide (length (unit_id <$> allunits) = 0%nat)); [discriminate|].
    destruct (GET req !! "checksum") as [c|];
      [destruct (checksum_offset allunits c); [|discriminate]|];
      intros [= <- <-]; simpl; apply lookup_insert_eq.
Qed.

Lemma getitem_in_range {A} (l : list A) (k : Z) :
  0 <= k < Z.of_nat (length l) ->
  exists x, l !! Z.to_nat k = Some x /\ Py.getitem l k = Some x.
Proof.
  intros Hk. destruct (lookup_lt_is_Some_2 l (Z.to_nat k)) as [x Hx]; [lia|].
  exists x. split; [exact Hx|]. unfold Py.getitem.
  destruct (k <? 0) eqn:E; [apply Z.ltb_lt in E; lia | exact Hx].
Qed.

Lemma translate_dispatch_plain amb t req ul pl this next w :
  method req = GET_ ->
  GET req !! "merge" = None ->
  GET req !! "revert" = None ->
  translate_dispatch amb t req ul pl this next w = (Continue, w).
Proof.
  intros Hm Hmerge Hrevert. unfold translate_dispatch, in_GET.
  rewrite Hm, Hmerge, Hrevert.
  rewrite bool_decide_eq_false_2 by discriminate. reflexivity.
Qed.

Ltac split_cases :=
  repeat (simpl; try exact I;
          match goal with
          | |- context [match ?x with _ => _ end] => destruct x eqn:?
          | |- context [if ?x then _ else _] => destruct x eqn:?
          end).

Lemma handle_translate_redirects t req ul this next w :
  redirects_only (handle_translate t req ul this next w).1.
Proof. unfold handle_translate. split_cases. Qed.

Lemma handle_suggestions_redirects t req this next w :
  redirects_only (handle_suggestions t req this next w).1.
Proof. unfold handle_suggestions. split_cases. Qed.

Lemma handle_merge_redirects amb t req next w :
  redirects_only (handle_merge amb t req next w).1.
Proof. unfold handle_merge. split_cases. Qed.

Lemma handle_revert_redirects amb t req next w :
  redirects_only (handle_revert amb t req next w).1.
Proof. unfold handle_revert. split_cases. Qed.

Lemma translate_dispatch_redirects amb t req ul pl this next w :
  redirects_only (translate_dispatch amb t req ul pl this next w).1.
Proof.
  unfold translate_dispatch.
  repeat match goal with
         | |- context [if ?x then _ else _] => destruct x
         end;
    auto using handle_translate_redirects, handle_suggestions_redirects,
      handle_merge_redirects, handle_revert_redirects.
  all: exact I.
Qed.

(** C4. Take a request whose search is in the cache (found by [sid], or
    just stored), with identifier list [ids] of length N, and let [k] be the
    requested offset.  If [0 <= k < N], the only unit the view looks up and
    shows is [ids[k]]: whenever it renders the page, the page is for offset
    [k] with the unit of key [ids[k]], and a plain GET (no form, no merge,
    no revert) renders exactly that unit when the translation has it.
    Otherwise the view queues "You have reached end of translating.",
    deletes the entry from the session and redirects to the translation. *)
Theorem C4_offset_navigation amb req project subproject lang w t sr w1 :
  get_translation req project subproject lang = Some t ->
  session_wf (session w) ->
  search amb t req w = (Found sr, w1) ->
  let e := entry sr in
  let k := translate_offset req sr in
  let view := translate amb req project subproject lang w in
  if bool_decide (0 <= k < Z.of_nat (length (ids e))) then
    exists pk,
      ids e !! Z.to_nat k = Some pk /\
      (forall ctx w',
          view = (Returns (render_translate ctx), w') ->
          ctx_offset ctx = k /\ unit_set_get t pk w' = Some (ctx_unit ctx)) /\
      (method req = GET_ ->
       GET req !! "merge" = None ->
       GET req !! "revert" = None ->
       match unit_set_get t pk w1 with
       | Some u =>
           exists ctx,
             view = (Returns (render_translate ctx), w1) /\
             ctx_unit ctx = u /\ ctx_offset ctx = k
       | None =>
           view = (Returns (redirect (OTranslation t)),
                   add_message ERROR "Invalid search string!" w1)
       end)
  else
    view =
      (Returns (redirect (OTranslation t)),
       set_session (delete ("search_" +:+ search_id e))
         (add_message INFO "You have reached end of translating." w1)).
Proof.
  intros Hget Hwf Hsearch e k view.
  pose proof (search_found_cached amb t req w sr w1 Hwf Hsearch) as Hcached.
  subst view. unfold translate. rewrite Hget, Hsearch. unfold translate_at.
  fold e k.
  destruct (bool_decide (0 <= k < Z.of_nat (length (ids e)))) eqn:Hk.
  - apply bool_decide_eq_true in Hk.
    replace ((0 <=? k) && (k <? Z.of_nat (length (ids e)))) with true
      by (symmetry; apply andb_true_intro; split;
          [apply Z.leb_le | apply Z.ltb_lt]; lia).
    simpl.
    destruct (getitem_in_range (ids e) k Hk) as (pk & Hpk & Hitem).
    exists pk. split; [exact Hpk|]. split.
    + intros ctx w'. unfold translate_unit. fold e. rewrite Hitem.
      match goal with
      | |- context [translate_dispatch ?a ?b ?c ?d ?e ?f ?g ?h] =>
          pose proof (translate_dispatch_redirects a b c d e f g h) as Hred
      end.
      destruct (translate_dispatch _ _ _ _ _ _ _ _) as [[r|  |x] w2];
        [destruct r; try contradiction; discriminate| |discriminate].
      destruct (unit_set_get t pk w2) as [u|] eqn:Hu; [|discriminate].
      intros [= <- <-]. simpl. split; [reflexivity | exact Hu].
    + intros Hm Hmerge Hrevert. unfold translate_unit. fold e.
      rewrite translate_dispatch_plain by assumption. rewrite Hitem.
      destruct (unit_set_get t pk w1) as [u|]; [|reflexivity].
      eexists. split; [reflexivity|]. split; reflexivity.
  - apply bool_decide_eq_false in Hk.
    replace ((0 <=? k) && (k <? Z.of_nat (length (ids e)))) with false.
    + simpl. fold e in Hcached. rewrite Hcached. reflexivity.
    + symmetry. apply andb_false_iff.
      destruct (Z.le_gt_cases 0 k);
        [right; apply Z.ltb_ge; lia | left; apply Z.leb_gt; lia].
Qed.

(** C9. An [offset] parameter that [int()] rejects counts as 0 in both
    views and queues no message: [translate] goes on from the search as it
    does for offset 0, and [zen] shows the window that starts at 0, in the
    state the search left.  Without the parameter [translate] takes the
    offset stored with the search. *)
Theorem C9_malformed_offset amb req project subproject lang w t :
  get_translation req project subproject lang = Some t ->
  let ul := is_user_locked t (user req) in
  let pl := subproject_locked (translation_subproject t) in
  (forall s,
      GET req !! "offset" = Some s ->
      Py.int s = None ->
      (forall sr, translate_offset req sr = 0) /\
      zen_offset_of req = 0 /\
      translate amb req project subproject lang w =
        match search amb t req w with
        | (Found sr, w1) => translate_at amb t req ul pl sr 0 w1
        | (Redirected r, w1) => (Returns r, w1)
        | (Failed x, w1) => (Raises x, w1)
        end /\
      zen amb req project subproject lang w =
        match search amb t req w with
        | (Found sr, w1) =>
            let n := Z.of_nat (length (ids (entry sr))) in
            (Returns (render_zen
               (mkZenContext (zen_units t (ids (entry sr)) 0 w1) n
                  (bool_decide (n <= 20)) (search_id (entry sr)) 0)), w1)
        | (Redirected r, w1) => (Returns r, w1)
        | (Failed x, w1) => (Raises x, w1)
        end) /\
  (GET req !! "offset" = None ->
   translate amb req project subproject lang w =
     match search amb t req w with
     | (Found sr, w1) => translate_at amb t req ul pl sr (offset (entry sr)) w1
     | (Redirected r, w1) => (Returns r, w1)
     | (Failed x, w1) => (Raises x, w1)
     end).
Proof.
  intros Hget ul pl. split.
  - intros s Hs Hint.
    assert (Ht : forall sr, translate_offset req sr = 0)
      by (intros sr; unfold translate_offset; rewrite Hs, Hint; reflexivity).
    assert (Hz : zen_offset_of req = 0)
      by (unfold zen_offset_of; rewrite Hs, Hint; reflexivity).
    repeat split; [exact Ht | exact Hz | |].
    + unfold translate. rewrite Hget.
      destruct (search amb t req w) as [[sr|r|x] w1]; try reflexivity.
      rewrite Ht. reflexivity.
    + unfold zen, get_zen_unitdata. rewrite Hget, Hz.
      destruct (search amb t req w) as [[sr|r|x] w1]; reflexivity.
  - intros Hnone. unfold translate. rewrite Hget.
    destruct (search amb t req w) as [[sr|r|x] w1]; try reflexivity.
    unfold translate_offset. rewrite Hnone. reflexivity.
Qed.

End Offsets.

Lemma demo_session_wf : session_wf (session Demo.world).
Proof.
  unfold session_wf. simpl.
  repeat (apply map_Forall_insert_2; [try reflexivity; exact I|]).
  apply map_Forall_empty.
Defined.

Lemma C4_offset_navigation_witness :
  let B := Demo.backend true in
  let view q := translate (H := B) Demo.amb (Demo.get q)
                  "hello" "weblate" "cs" Demo.world in
  (exists ctx,
     view [("sid", "new"); ("offset", "2")] =
       (Returns (render_translate ctx), Demo.world) /\
     ctx_unit ctx = Demo.bye /\ ctx_offset ctx = 2) /\
  view [("sid", "new"); ("offset", "3")] =
    (Returns (redirect (OTranslation Demo.cs)),
     set_session (delete "search_new")
       (add_message INFO "You have reached end of translating." Demo.world)).
Proof.
  intros B view. split.
  - pose proof (C4_offset_navigation (H := B) Demo.amb
                  (Demo.get [("sid", "new"); ("offset", "2")])
                  "hello" "weblate" "cs" Demo.world Demo.cs
                  (mkSearchResult Demo.new_search (BoundForm ∅)) Demo.world
                  eq_refl demo_session_wf eq_refl) as HC.
    destruct HC as (pk & Hpk & _ & Hplain).
    injection Hpk as <-.
    exact (Hplain eq_refl eq_refl eq_refl).
  - exact (C4_offset_navigation (H := B) Demo.amb
             (Demo.get [("sid", "new"); ("offset", "3")])
             "hello" "weblate" "cs" Demo.world Demo.cs
             (mkSearchResult Demo.new_search (BoundForm ∅)) Demo.world
             eq_refl demo_session_wf eq_refl).
Defined.

Lemma C9_malformed_offset_witness :
  let B := Demo.backend true in
  let found := mkSearchResult Demo.new_search (BoundForm ∅) in
  let bad := Demo.get [("sid", "new"); ("offset", "x1")] in
  let none := Demo.get [("sid", "new")] in
  (zen_offset_of bad = 0 /\
   translate (H := B) Demo.amb bad "hello" "weblate" "cs" Demo.world =
     translate_at (H := B) Demo.amb Demo.cs bad false false found 0 Demo.world) /\
  translate (H := B) Demo.amb none "hello" "weblate" "cs" Demo.world =
    translate_at (H := B) Demo.amb Demo.cs none false false found 1 Demo.world.
Proof.
  intros B found bad none. split.
  - destruct (C9_malformed_offset (H := B) Demo.amb bad "hello" "weblate" "cs"
                Demo.world Demo.cs eq_refl) as [Hbad _].
    destruct (Hbad "x1" eq_refl eq_refl) as (_ & Hz & Htr & _).
    split; [exact Hz | exact Htr].
  - destruct (C9_malformed_offset (H := B) Demo.amb none "hello" "weblate" "cs"
                Demo.world Demo.cs eq_refl) as [_ Hnone].
    exact (Hnone eq_refl).
Defined.

(** ** Merge and revert *)

Section MergeRevert.
Context `{Backend}.
Implicit Type w : World Ext.

(** [save_backend] by cases on [changes_row]. *)
Lemma save_backend_eq amb u req a w :
  save_backend amb u req a w =
    if changes_row w u
    then (true,
          set_changes (fun l => (l ++ [log_entry amb req (default ACTION_CHANGE a) u])%list)
            (set_units (insert (unit_id u) u) w))
    else (false, w).
Proof.
  unfold save_backend, changes_row, log_entry.
  destruct (db_units w !! unit_id u) as [old|]; [|reflexivity].
  destruct (decide (target old = target u /\ fuzzy old = fuzzy u)) as [Hd|Hd].
  - rewrite bool_decide_eq_true_2 by assumption. reflexivity.
  - rewrite bool_decide_eq_false_2 by assumption. reflexivity.
Qed.

(** After a save the row under the key of [u] has the target and the fuzzy
    flag of [u]. *)
Lemma save_backend_row amb u req a w :
  exists u',
    db_units (save_backend amb u req a w).2 !! unit_id u = Some u' /\
    target u' = target u /\ fuzzy u' = fuzzy u.
Proof.
  rewrite save_backend_eq. unfold changes_row.
  destruct (db_units w !! unit_id u) as [old|] eqn:E.
  - destruct (decide (target old = target u /\ fuzzy old = fuzzy u)) as [Hd|Hd].
    + rewrite bool_decide_eq_true_2 by assumption. simpl.
      exists old. rewrite E. tauto.
    + rewrite bool_decide_eq_false_2 by assumption. simpl.
      exists u. rewrite lookup_insert_eq. tauto.
  - simpl. exists u. rewrite lookup_insert_eq. tauto.
Qed.

(** C6. With the capability granted, a valid merge form and the merged unit
    found: if the two identity hashes differ, "Can not merge different
    messages!" is queued, nothing else changes and no response is returned;
    if they agree, the handler redirects to the next unit, the row of the
    unit has the target and the fuzzy flag of the merged unit, and when the
    save changed the row one log entry is written and the translated count
    of the user grows by exactly one (and stays as it is when the row
    already had that state). *)
Theorem C6_merge_same_identity amb t req next w unit merge merged :
  can_translate (user req) (ScopeTranslation t) = true ->
  MergeForm_clean t (GET req) w = Some (unit, merge) ->
  db_units w !! merge = Some merged ->
  let r := handle_merge amb t req next w in
  let unit' := set_fuzzy (fuzzy merged) (set_target (target merged) unit) in
  if decide (id_hash unit = id_hash merged) then
    r.1 = Respond (HttpResponseRedirect next) /\
    (exists u',
        db_units r.2 !! unit_id unit = Some u' /\
        target u' = target merged /\ fuzzy u' = fuzzy merged) /\
    (if changes_row w unit'
     then profile_translated r.2 = profile_translated w + 1 /\
          db_changes r.2 =
            (db_changes w ++ [log_entry amb req ACTION_CHANGE unit'])%list
     else r.2 = w)
  else
    r = (Continue, add_message ERROR "Can not merge different messages!" w).
Proof.
  intros Hcap Hform Hmerged r unit'. subst r.
  unfold handle_merge. rewrite Hcap, Hform, Hmerged. simpl.
  destruct (decide (id_hash unit = id_hash merged)) as [Heq|Hne].
  - destruct (decide (id_hash unit <> id_hash merged)); [contradiction|].
    fold unit'.
    pose proof (save_backend_row amb unit' req None w) as (u' & Hu' & Ht & Hf).
    rewrite save_backend_eq in *.
    destruct (changes_row w unit'); simpl in *.
    + split; [reflexivity|]. split; [|split; reflexivity].
      exists u'. auto.
    + split; [reflexivity|]. split; [|reflexivity].
      exists u'. auto.
  - destruct (decide (id_hash unit <> id_hash merged)); [|contradiction].
    reflexivity.
Qed.

(** C7. With the capability granted, a valid revert form and the change
    found: the target is restored only if the unit of the change has the
    identity hash of the unit and the recorded target is not empty.  Then
    the handler redirects, the row of the unit has the recorded target, and
    a save that changed the row is logged as a revert.  Otherwise an error
    is queued, nothing else changes and no response is returned. *)
Theorem C7_revert_gated amb t req next w unit revert change h :
  can_translate (user req) (ScopeTranslation t) = true ->
  RevertForm_clean t (GET req) w = Some (unit, revert) ->
  Change_get revert w = Some change ->
  change_unit_id_hash change w = inr h ->
  let r := handle_revert amb t req next w in
  let unit' := set_target (change_target change) unit in
  if decide (id_hash unit = h /\ change_target change <> "") then
    r.1 = Respond (HttpResponseRedirect next) /\
    (exists u',
        db_units r.2 !! unit_id unit = Some u' /\
        target u' = change_target change) /\
    (if changes_row w unit'
     then db_changes r.2 =
            (db_changes w ++ [log_entry amb req ACTION_REVERT unit'])%list
     else r.2 = w)
  else
    exists text, r = (Continue, add_message ERROR text w).
Proof.
  intros Hcap Hform Hchange Hhash r unit'. subst r.
  unfold handle_revert. rewrite Hcap, Hform, Hchange, Hhash. simpl.
  destruct (decide (id_hash unit = h /\ change_target change <> ""))
    as [[Heq Hne]|Hno].
  - destruct (decide (id_hash unit <> h)); [contradiction|].
    destruct (decide (change_target change = "")); [contradiction|].
    fold unit'.
    pose proof (save_backend_row amb unit' req (Some ACTION_REVERT) w)
      as (u' & Hu' & Ht & _).
    rewrite save_backend_eq in *.
    destruct (changes_row w unit'); simpl in *;
      (split; [reflexivity|]; split; [exists u'; auto | reflexivity]).
  - destruct (decide (id_hash unit <> h)); [eauto|].
    destruct (decide (change_target change = "")); [eauto|].
    exfalso. apply Hno. split; [|assumption].
    destruct (decide (id_hash unit = h)); [assumption | contradiction].
Qed.

End MergeRevert.

Lemma C6_merge_same_identity_witness :
  let B := Demo.backend true in
  let same := handle_merge (H := B) Demo.amb Demo.cs
                (Demo.get [("checksum", "1"); ("merge", "3")]) "next" Demo.world in
  let other := handle_merge (H := B) Demo.amb Demo.cs
                 (Demo.get [("checksum", "1"); ("merge", "2")]) "next" Demo.world in
  (same.1 = Respond (HttpResponseRedirect "next") /\
   profile_translated same.2 = profile_translated Demo.world + 1) /\
  other =
    (Continue, add_message ERROR "Can not merge different messages!" Demo.world).
Proof.
  intros B same other. split.
  - pose proof (C6_merge_same_identity (H := B) Demo.amb Demo.cs
                  (Demo.get [("checksum", "1"); ("merge", "3")]) "next"
                  Demo.world Demo.hello 3 Demo.bye eq_refl eq_refl eq_refl) as HC.
    destruct (HC : same.1 = Respond (HttpResponseRedirect "next") /\
                   (exists u',
                       db_units same.2 !! 1 = Some u' /\
                       target u' = "Nashledanou." /\ fuzzy u' = true) /\
                   (profile_translated same.2 = profile_translated Demo.world + 1 /\
                    db_changes same.2 =
                      (db_changes Demo.world ++
                       [log_entry Demo.amb
                          (Demo.get [("checksum", "1"); ("merge", "3")])
                          ACTION_CHANGE
                          (mkUnit 1 11 "Nashledanou." true Demo.cs)])%list))
      as (H1 & _ & H3 & _).
    split; assumption.
  - exact (C6_merge_same_identity (H := B) Demo.amb Demo.cs
             (Demo.get [("checksum", "1"); ("merge", "2")]) "next"
             Demo.world Demo.hello 2 Demo.thanks eq_refl eq_refl eq_refl).
Defined.

Lemma C7_revert_gated_witness :
  let B := Demo.backend true in
  let back := handle_revert (H := B) Demo.amb Demo.cs
                (Demo.get [("checksum", "1"); ("revert", "1")]) "this" Demo.world in
  let empty := handle_revert (H := B) Demo.amb Demo.cs
                 (Demo.get [("checksum", "2"); ("revert", "2")]) "this" Demo.world in
  (back.1 = Respond (HttpResponseRedirect "this") /\
   exists u', db_units back.2 !! 1 = Some u' /\ target u' = "Ahoj.") /\
  exists text, empty = (Continue, add_message ERROR text Demo.world).
Proof.
  intros B back empty. split.
  - pose proof (C7_revert_gated (H := B) Demo.amb Demo.cs
                  (Demo.get [("checksum", "1"); ("revert", "1")]) "this"
                  Demo.world Demo.hello 1
                  (mkChange 5 ACTION_CHANGE (Some Demo.alice) (Some 1)
                     (Some Demo.cs) None "Ahoj.")
                  11 eq_refl eq_refl eq_refl eq_refl) as HC.
    destruct (HC : back.1 = Respond (HttpResponseRedirect "this") /\
                   (exists u',
                       db_units back.2 !! 1 = Some u' /\ target u' = "Ahoj.") /\
                   db_changes back.2 =
                     (db_changes Demo.world ++
                      [log_entry Demo.amb
                         (Demo.get [("checksum", "1"); ("revert", "1")])
                         ACTION_REVERT
                         (mkUnit 1 11 "Ahoj." false Demo.cs)])%list)
      as (H1 & H2 & _).
    split; assumption.
  - exact (C7_revert_gated (H := B) Demo.amb Demo.cs
             (Demo.get [("checksum", "2"); ("revert", "2")]) "this"
             Demo.world Demo.thanks 2
             (mkChange 6 ACTION_CHANGE (Some Demo.alice) (Some 2)
                (Some Demo.cs) None "")
             22 eq_refl eq_refl eq_refl eq_refl).
Defined.

(** ** Literal replacement on texts *)

Lemma length_append (a b : string) :
  String.length (a +:+ b) = (String.length a + String.length b)%nat.
Proof. induction a as [|c a IH]; simpl; [reflexivity | rewrite IH; reflexivity]. Qed.

Lemma prefix_append (a s : string) :
  String.prefix a s = true -> exists r, s = a +:+ r.
Proof.
  revert s. induction a as [|c a IH]; intros s Hp.
  - exists s. reflexivity.
  - destruct s as [|d s]; simpl in Hp; [discriminate|].
    destruct (ascii_dec c d) as [->|]; [|discriminate].
    destruct (IH s Hp) as [r ->]. exists r. reflexivity.
Qed.

Lemma prefix_of_append (a r : string) : String.prefix a (a +:+ r) = true.
Proof.
  induction a as [|c a IH]; simpl; [destruct r; reflexivity|].
  destruct (ascii_dec c c); [exact IH | contradiction].
Qed.

Lemma append_same_length (a b x y : string) :
  String.length a = String.length b -> a +:+ x = b +:+ y -> a = b.
Proof.
  revert b. induction a as [|c a IH]; intros [|d b] Hl Heq;
    simpl in *; try discriminate; [reflexivity|].
  injection Heq as -> Heq. f_equal. apply IH; [lia | exact Heq].
Qed.

Lemma replace_from_skip (old new p r : string) :
  Py.replace_from old new (String.length p) (p +:+ r) =
    Py.replace_from old new 0 r.
Proof. induction p as [|c p IH]; simpl; [reflexivity | exact IH]. Qed.

(** At a match the scan emits [new] and goes on behind the match. *)
Lemma replace_from_match (c : ascii) (old' new rest : string) :
  Py.replace_from (String c old') new 0 (String c old' +:+ rest) =
    new +:+ Py.replace_from (String c old') new 0 rest.
Proof.
  change (String c old' +:+ rest) with (String c (old' +:+ rest)).
  cbn [Py.replace_from].
  change (String c (old' +:+ rest)) with (String c old' +:+ rest).
  rewrite prefix_of_append.
  change (String.length (String c old') - 1)%nat with (String.length old' - 0)%nat.
  rewrite Nat.sub_0_r. rewrite replace_from_skip. reflexivity.
Qed.

Lemma replace_from_no_match (old new : string) (c : ascii) (s : string) :
  String.prefix old (String c s) = false ->
  Py.replace_from old new 0 (String c s) =
    String c (Py.replace_from old new 0 s).
Proof. intros Hp. cbn [Py.replace_from]. rewrite Hp. reflexivity. Qed.

(** The scan by cases, for a text of bounded length. *)
Lemma replace_from_cases (c : ascii) (old' new s : string) :
  s = "" \/
  (exists rest, s = String c old' +:+ rest /\
     Py.replace_from (String c old') new 0 s =
       new +:+ Py.replace_from (String c old') new 0 rest) \/
  (exists d s', s = String d s' /\ String.prefix (String c old') s = false /\
     Py.replace_from (String c old') new 0 s =
       String d (Py.replace_from (String c old') new 0 s')).
Proof.
  destruct s as [|d s']; [left; reflexivity | right].
  destruct (String.prefix (String c old') (String d s')) eqn:Hp.
  - left. destruct (prefix_append _ _ Hp) as [rest Hrest]. exists rest.
    split; [exact Hrest|]. rewrite Hrest. apply replace_from_match.
  - right. exists d, s'. split; [reflexivity|]. split; [reflexivity|].
    apply replace_from_no_match, Hp.
Qed.

Lemma replace_from_same (c : ascii) (old' : string) : forall n s,
  (String.length s <= n)%nat ->
  Py.replace_from (String c old') (String c old') 0 s = s.
Proof.
  induction n as [|n IH]; intros s Hn.
  - destruct s; [reflexivity | simpl in Hn; lia].
  - destruct (replace_from_cases c old' (String c old') s)
      as [->|[(rest & Hs & ->)|(d & s' & Hs & _ & ->)]].
    + reflexivity.
    + rewrite IH; [symmetry; exact Hs|].
      rewrite Hs, length_append in Hn. simpl in Hn. lia.
    + rewrite IH; [symmetry; exact Hs|].
      rewrite Hs in Hn. simpl in Hn. lia.
Qed.

(** The length of the result: [k] matches were replaced. *)
Lemma replace_from_length (c : ascii) (old' new : string) : forall n s,
  (String.length s <= n)%nat ->
  exists k : nat,
    (String.length (Py.replace_from (String c old') new 0 s)
       + k * String.length (String c old') =
     String.length s + k * String.length new)%nat.
Proof.
  induction n as [|n IH]; intros s Hn.
  - destruct s; [exists 0%nat; reflexivity | simpl in Hn; lia].
  - destruct (replace_from_cases c old' new s)
      as [->|[(rest & Hs & ->)|(d & s' & Hs & _ & ->)]].
    + exists 0%nat. reflexivity.
    + destruct (IH rest) as [k Hk].
      { rewrite Hs, length_append in Hn. simpl in Hn. lia. }
      exists (S k). rewrite Hs, !length_append. lia.
    + destruct (IH s') as [k Hk].
      { rewrite Hs in Hn. simpl in Hn. lia. }
      exists k. rewrite Hs. simpl in *. lia.
Qed.

Lemma replace_from_changes (c : ascii) (old' new : string) : forall s,
  Py.contains (String c old') s = true ->
  String c old' <> new ->
  Py.replace_from (String c old') new 0 s <> s.
Proof.
  induction s as [|d s IH]; intros Hc Hne.
  - simpl in Hc. discriminate.
  - destruct (replace_from_cases c old' new (String d s))
      as [Hs|[(rest & Hs & ->)|(d' & s' & Hs & Hp & ->)]].
    + discriminate.
    + intros Heq. rewrite Hs in Heq.
      destruct (replace_from_length c old' new (String.length rest) rest)
        as [k Hk]; [lia|].
      assert (Hl : String.length new = String.length (String c old')).
      { apply (f_equal String.length) in Heq. rewrite !length_append in Heq.
        nia. }
      apply Hne. symmetry. eapply append_same_length; eassumption.
    + injection Hs as <- <-. intros [= Heq]. revert Heq. apply IH; [|exact Hne].
      cbn [Py.contains] in Hc. rewrite Hp in Hc. exact Hc.
Qed.

Lemma interleave_length (new s : string) :
  String.length (Py.interleave new s) =
    (String.length s + (String.length s + 1) * String.length new)%nat.
Proof.
  induction s as [|c s IH]; simpl; [lia|].
  rewrite length_append. simpl. rewrite IH. lia.
Qed.

Lemma interleave_empty (s : string) : Py.interleave "" s = s.
Proof. induction s as [|c s IH]; simpl; [reflexivity | rewrite IH; reflexivity]. Qed.

(** [replace] with the text it looks for changes nothing. *)
Lemma replace_same (old s : string) : Py.replace old old s = s.
Proof.
  destruct old as [|c old']; simpl; [apply interleave_empty|].
  apply (replace_from_same c old' (String.length s)). lia.
Qed.

(** [replace] with another text changes every text that has a match. *)
Lemma replace_changes (old new s : string) :
  Py.contains old s = true -> old <> new -> Py.replace old new s <> s.
Proof.
  intros Hc Hne. destruct old as [|c old'].
  - simpl. intros Heq. apply (f_equal String.length) in Heq.
    rewrite interleave_length in Heq.
    destruct new as [|d new]; [contradiction | simpl in Heq; nia].
  - apply replace_from_changes; assumption.
Qed.

(** ** Search and replace *)

Lemma set_target_same (u : Unit) : set_target (target u) u = u.
Proof. destruct u. reflexivity. Qed.

Lemma NoDup_fmap_filter {A B} (f : A -> B) (P : A -> Prop)
    `{forall x, Decision (P x)} (l : list A) :
  NoDup (f <$> l) -> NoDup (f <$> filter P l).
Proof.
  induction l as [|a l IH]; simpl; [auto|].
  intros Hnd. apply NoDup_cons in Hnd as [Ha Hnd].
  rewrite filter_cons. destruct (decide (P a)); [|auto].
  simpl. apply NoDup_cons. split; [|auto].
  intros Hin. apply Ha. apply list_elem_of_fmap in Hin as (x & -> & Hx).
  apply list_elem_of_fmap. exists x. split; [reflexivity|].
  apply list_elem_of_filter in Hx. tauto.
Qed.

Lemma table_row (m : gmap Z Unit) (u : Unit) :
  units_wf m -> u ∈ (map_to_list m).*2 -> m !! unit_id u = Some u.
Proof.
  intros Hwf Hin. apply list_elem_of_fmap in Hin as ([k u'] & -> & Hin).
  apply elem_of_map_to_list in Hin. simpl.
  rewrite (Hwf k u' Hin). exact Hin.
Qed.

Lemma table_ids_NoDup (m : gmap Z Unit) :
  units_wf m -> NoDup (unit_id <$> (map_to_list m).*2).
Proof.
  intros Hwf.
  assert (Heq : unit_id <$> (map_to_list m).*2 = (map_to_list m).*1).
  { assert (Hall : Forall (fun p => unit_id p.2 = p.1) (map_to_list m)).
    { apply Forall_forall. intros [k u] Hin.
      apply elem_of_map_to_list in Hin. exact (Hwf k u Hin). }
    induction Hall as [|p l Hp _ IH]; csimpl; [reflexivity|].
    f_equal; [exact Hp | exact IH]. }
  rewrite Heq. apply NoDup_fst_map_to_list.
Qed.

Section Replace.
Context `{Backend}.
Implicit Type w : World Ext.

Lemma scope_units_row obj w u :
  units_wf (db_units w) -> u ∈ scope_units obj w ->
  db_units w !! unit_id u = Some u.
Proof.
  intros Hwf Hin. apply table_row; [exact Hwf|].
  destruct obj; simpl in Hin; unfold unit_set in Hin;
    apply list_elem_of_filter in Hin; tauto.
Qed.

Lemma scope_units_NoDup obj w :
  units_wf (db_units w) -> NoDup (unit_id <$> scope_units obj w).
Proof.
  intros Hwf. destruct obj; simpl; unfold unit_set;
    apply NoDup_fmap_filter, table_ids_NoDup, Hwf.
Qed.

(** The loop of [search_replace] over units that sit in the table under
    distinct keys: every one of them gets its new target, no other row is
    touched, and the log grows by one [replace] entry for each unit whose
    target the replacement changes. *)
Lemma replace_all_spec amb req s r : forall (l : list Unit) w,
  NoDup (unit_id <$> l) ->
  (forall u, u ∈ l -> db_units w !! unit_id u = Some u) ->
  let w' := replace_all amb req s r l w in
  (forall u, u ∈ l -> db_units w' !! unit_id u = Some (replaced s r u)) /\
  (forall k, k ∉ unit_id <$> l -> db_units w' !! k = db_units w !! k) /\
  db_changes w' =
    (db_changes w ++
     (log_entry amb req ACTION_REPLACE <$>
        (replaced s r <$>
           filter (fun u => Py.replace s r (target u) <> target u) l)))%list /\
  messages w' = messages w.
Proof.
  induction l as [|a l IH]; intros w Hnd Hrows; simpl.
  - repeat split; [intros u Hu; inversion Hu | rewrite app_nil_r; reflexivity].
  - apply NoDup_cons in Hnd as [Ha Hnd].
    set (w1 := (save_backend amb
                  (set_target (Py.replace s r (target a)) a) req
                  (Some ACTION_REPLACE) w).2).
    assert (Hsame : db_units w !! unit_id a = Some a)
      by (apply Hrows; left).
    assert (Hw1 :
      db_units w1 !! unit_id a = Some (replaced s r a) /\
      (forall k, k <> unit_id a -> db_units w1 !! k = db_units w !! k) /\
      db_changes w1 =
        (db_changes w ++
         (if decide (Py.replace s r (target a) <> target a)
          then [log_entry amb req ACTION_REPLACE (replaced s r a)]
          else []))%list /\
      messages w1 = messages w).
    { subst w1. rewrite save_backend_eq. unfold changes_row. simpl.
      rewrite Hsame. fold (replaced s r a).
      destruct (decide (Py.replace s r (target a) <> target a)) as [Hch|Hsm].
      - rewrite bool_decide_eq_false_2 by (intros [E _]; apply Hch; symmetry; exact E).
        simpl. split; [apply lookup_insert_eq|].
        split; [intros k Hk; apply lookup_insert_ne; congruence|].
        split; reflexivity.
      - apply dec_stable in Hsm.
        rewrite bool_decide_eq_true_2 by (split; [symmetry; exact Hsm | reflexivity]).
        simpl. unfold replaced. rewrite Hsm, set_target_same.
        split; [exact Hsame|]. split; [reflexivity|].
        split; [rewrite app_nil_r|]; reflexivity. }
    destruct Hw1 as (Hrow1 & Hother1 & Hlog1 & Hmsg1).
    destruct (IH w1 Hnd) as (Hrows' & Hother' & Hlog' & Hmsg').
    { intros u Hu. rewrite Hother1; [apply Hrows; right; exact Hu|].
      intros Heq. apply Ha. rewrite <- Heq.
      apply list_elem_of_fmap. exists u. split; [reflexivity | exact Hu]. }
    fold (replace_all amb req s r l w1).
    repeat split.
    + intros u Hu. apply elem_of_cons in Hu as [->|Hu]; [|apply Hrows'; exact Hu].
      rewrite Hother' by exact Ha. exact Hrow1.
    + intros k Hk. rewrite Hother'.
      * apply Hother1. intros ->. apply Hk. left.
      * intros Hin. apply Hk. right. exact Hin.
    + rewrite Hlog', Hlog1. rewrite filter_cons.
      destruct (decide (Py.replace s r (target a) <> target a));
        simpl; rewrite <- app_assoc; reflexivity.
    + rewrite Hmsg'. exact Hmsg1.
Qed.

End Replace.

Lemma filter_all {A} (P : A -> Prop) `{forall x, Decision (P x)} (l : list A) :
  (forall x, x ∈ l -> P x) -> filter P l = l.
Proof.
  induction l as [|a l IH]; intros Hall; [reflexivity|].
  rewrite filter_cons. destruct (decide (P a)) as [|Hn].
  - f_equal. apply IH. intros x Hx. apply Hall. right. exact Hx.
  - exfalso. apply Hn, Hall. left.
Qed.

Lemma filter_none {A} (P : A -> Prop) `{forall x, Decision (P x)} (l : list A) :
  (forall x, x ∈ l -> ~ P x) -> filter P l = [].
Proof.
  induction l as [|a l IH]; intros Hall; [reflexivity|].
  rewrite filter_cons. destruct (decide (P a)) as [Hp|].
  - exfalso. exact (Hall a (list_elem_of_here a l) Hp).
  - apply IH. intros x Hx. apply Hall. right. exact Hx.
Qed.

Section ReplaceView.
Context `{Backend}.
Implicit Type w : World Ext.

(** C8 (as amended). For a signed-in user with the capability, a POST with
    a valid form and a unit table keyed by primary key: with N the number
    of units of the scope whose target contains the search text, the view
    redirects to the object of the scope and reports N; exactly those N
    units get their target rewritten by literal replacement and no other
    row changes; each unit whose target the replacement really changes is
    saved with one log entry of action [replace].  So the log grows by
    exactly N such entries when the replacement differs from the search
    text, and by none when the two are equal. *)
Theorem C8_search_replace amb req project subproject lang w obj perms
    search_text replacement :
  is_authenticated (user req) = true ->
  method req = POST_ ->
  replace_scope req project subproject lang = Some (obj, perms) ->
  can_translate (user req) perms = true ->
  ReplaceForm_clean (POST req) = Some (search_text, replacement) ->
  units_wf (db_units w) ->
  let matching :=
    filter (fun u => Py.contains search_text (target u) = true)
      (scope_units obj w) in
  let n := Z.of_nat (length matching) in
  let r := search_replace amb req project subproject lang w in
  r.1 = Returns (redirect obj) /\
  messages r.2 =
    (messages w ++
     [if decide (n = 0)
      then (WARNING, "Search and replace completed, no strings were updated.")
      else (SUCCESS, replace_message n)])%list /\
  (forall u, u ∈ matching ->
     db_units r.2 !! unit_id u = Some (replaced search_text replacement u)) /\
  (forall k, k ∉ unit_id <$> matching -> db_units r.2 !! k = db_units w !! k) /\
  db_changes r.2 =
    (db_changes w ++
     if decide (search_text = replacement) then []
     else log_entry amb req ACTION_REPLACE <$>
            (replaced search_text replacement <$> matching))%list.
Proof.
  intros Hauth Hpost Hscope Hcap Hform Hwf matching n r. subst r.
  unfold search_replace.
  rewrite Hauth, Hscope, Hcap, Hform. simpl.
  rewrite bool_decide_eq_true_2 by assumption. simpl.
  fold matching. fold n.
  destruct (replace_all_spec amb req search_text replacement matching w)
    as (Hrows & Hother & Hlog & Hmsg).
  { apply NoDup_fmap_filter, scope_units_NoDup, Hwf. }
  { intros u Hu. apply list_elem_of_filter in Hu as [_ Hu].
    eapply scope_units_row; eassumption. }
  assert (Hfilter :
    filter (fun u => Py.replace search_text replacement (target u) <> target u)
      matching =
    if decide (search_text = replacement) then [] else matching).
  { destruct (decide (search_text = replacement)) as [->|Hne].
    - apply filter_none. intros u _ Hch. apply Hch, replace_same.
    - apply filter_all. intros u Hu.
      apply list_elem_of_filter in Hu as [Hc _].
      apply replace_changes; assumption. }
  rewrite Hfilter in Hlog.
  split; [reflexivity|].
  unfold import_message.
  destruct (decide (n = 0)); simpl; rewrite Hmsg;
    (split; [reflexivity|]; split; [exact Hrows|]; split; [exact Hother|]);
    rewrite Hlog; destruct (decide (search_text = replacement)); reflexivity.
Qed.

End ReplaceView.

Lemma demo_units_wf : units_wf (db_units Demo.world).
Proof.
  unfold units_wf. simpl.
  repeat (apply map_Forall_insert_2; [reflexivity|]).
  apply map_Forall_empty.
Defined.

Lemma C8_search_replace_witness :
  let B := Demo.backend true in
  let req := Demo.post [] [("search", "e"); ("replacement", "E")] in
  let r := search_replace (H := B) Demo.amb req "hello" None None Demo.world in
  r.1 = Returns (redirect (OProject Demo.project)) /\
  messages r.2 =
    [(SUCCESS, "Search and replace completed, 3 strings were updated.")] /\
  length (db_changes r.2) = (length (db_changes Demo.world) + 3)%nat.
Proof.
  intros B req r.
  destruct (C8_search_replace (H := B) Demo.amb req "hello" None None
              Demo.world (OProject Demo.project) (ScopeProject Demo.project)
              "e" "E" eq_refl eq_refl eq_refl eq_refl eq_refl demo_units_wf)
    as (Hresp & Hmsg & _ & _ & Hlog).
  split; [exact Hresp|]. split; [exact Hmsg|].
  fold r in Hlog. rewrite Hlog. reflexivity.
Defined.

(** C8 (as stated) fails when the replacement is the search text.  Three
    targets contain "e"; replacing "e" by "e" leaves every row as it was, no
    change is saved and the log gets no entry, while three updated strings
    are reported. *)
Lemma C8_same_text_logs_nothing :
  let B := Demo.backend true in
  let req := Demo.post [] [("search", "e"); ("replacement", "e")] in
  let r := search_replace (H := B) Demo.amb req "hello" None None Demo.world in
  length (filter (fun u => Py.contains "e" (target u) = true)
            (scope_units (H := B) (OProject Demo.project) Demo.world)) = 3%nat /\
  messages r.2 =
    [(SUCCESS, "Search and replace completed, 3 strings were updated.")] /\
  db_changes r.2 = db_changes Demo.world /\
  db_units r.2 = db_units Demo.world.
Proof. repeat apply conj; vm_compute; reflexivity. Qed.

(** ** More on the search cache *)

Lemma expired_mono (a b : Z) (v : SessionValue) :
  a <= b -> expired a v = true -> expired b v = true.
Proof.
  intros Hab. destruct v as [e|]; simpl; [|reflexivity].
  rewrite !Z.ltb_lt. lia.
Qed.

(** X1. Two sweeps in a row are one sweep at the later time (so a sweep
    done twice is the sweep done once). *)
Theorem X1_sweeps_compose (a b : Z) (s : Session) :
  cleanup_session a (cleanup_session b s) = cleanup_session (Z.max a b) s.
Proof.
  apply map_eq. intros k.
  rewrite !cleanup_session_lookup. unfold kept.
  rewrite cleanup_session_lookup. unfold kept, swept.
  destruct (s !! k) as [v|]; [|reflexivity].
  destruct (String.prefix "search_" k); simpl; [|reflexivity].
  destruct (expired b v) eqn:Eb.
  - rewrite (expired_mono b (Z.max a b) v) by (lia || assumption). reflexivity.
  - destruct (expired a v) eqn:Ea.
    + rewrite (expired_mono a (Z.max a b) v) by (lia || assumption). reflexivity.
    + destruct (expired (Z.max a b) v) eqn:Em; [|reflexivity].
      destruct (Z.max_spec a b) as [[_ E]|[_ E]]; rewrite E in Em; congruence.
Qed.

Lemma py_index_range `{EqDecision A} (x : A) (l : list A) (i : Z) :
  Py.index x l = Some i -> 0 <= i < Z.of_nat (length l).
Proof.
  revert i. induction l as [|y l IH]; intros i; simpl; [discriminate|].
  destruct (decide (x = y)); [intros [= <-]; lia|].
  destruct (Py.index x l) as [j|]; [|discriminate].
  intros [= <-]. specialize (IH j eq_refl). lia.
Qed.

Section SearchCacheMore.
Context `{Backend}.
Implicit Type w : World Ext.

(** What a new search (no [sid]) stores and returns. *)
Lemma search_new_found amb t req w r w1 :
  GET req !! "sid" = None ->
  search amb t req w = (Found r, w1) ->
  exists q nm l o,
    r = mkSearchResult
          (mkSearchEntry (Some (GET req)) q nm l (uuid1 amb)
             (now_store amb + 86400) o)
          (BoundForm (GET req)) /\
    l <> [] /\ 0 <= o < Z.of_nat (length l) /\
    session w1 =
      <["search_" +:+ uuid1 amb := SearchDict (entry r)]>
        (cleanup_session (now_cleanup amb) (session w)).
Proof.
  intros Hsid. unfold search. rewrite Hsid.
  pose proof (search_units_session t req w) as Hs.
  destruct (search_units t req w) as [[[allunits q] nm] w0]. simpl in Hs.
  destruct (decide (length (unit_id <$> allunits) = 0%nat)) as [|Hlen];
    [discriminate|].
  assert (Hne : unit_id <$> allunits <> [])
    by (intros E; rewrite E in Hlen; contradiction).
  destruct (GET req !! "checksum") as [c|].
  - destruct (checksum_offset allunits c) as [o|] eqn:Ho; [|discriminate].
    intros [= <- <-]. exists q, nm, (unit_id <$> allunits), o.
    split; [reflexivity|]. split; [exact Hne|]. split.
    + unfold checksum_offset in Ho.
      destruct (checksum_to_hash c); [|discriminate].
      destruct (filter _ allunits); [discriminate|].
      eapply py_index_range, Ho.
    + simpl. rewrite Hs. reflexivity.
  - intros [= <- <-]. exists q, nm, (unit_id <$> allunits), 0.
    split; [reflexivity|]. split; [exact Hne|]. split.
    + destruct (unit_id <$> allunits); [contradiction | simpl; lia].
    + simpl. rewrite Hs. reflexivity.
Qed.

(** X2. A search that has just been stored is found again by its id: the
    next request that names it by [sid] gets the same result, for whatever
    translation it is made, and leaves the session as it is. *)
Theorem X2_stored_search_is_found amb t req w r w1 amb' t' req' :
  GET req !! "sid" = None ->
  search amb t req w = (Found r, w1) ->
  GET req' !! "sid" = Some (search_id (entry r)) ->
  search amb' t' req' w1 = (Found r, w1).
Proof.
  intros Hsid Hsearch Hsid'.
  destruct (search_new_found amb t req w r w1 Hsid Hsearch)
    as (q & nm & l & o & -> & _ & _ & Hsession).
  unfold search. rewrite Hsid'. simpl in *.
  rewrite Hsession, lookup_insert_eq. reflexivity.
Qed.

(** X3. A new search is never stored with an empty list or with an offset
    outside the list; so showing it without an [offset] parameter goes
    straight to the unit at the stored offset and never to "You have
    reached end of translating." *)
Theorem X3_new_search_in_range amb t req project subproject lang w r w1 :
  get_translation req project subproject lang = Some t ->
  GET req !! "sid" = None ->
  search amb t req w = (Found r, w1) ->
  ids (entry r) <> [] /\
  0 <= offset (entry r) < Z.of_nat (length (ids (entry r))) /\
  (GET req !! "offset" = None ->
   translate amb req project subproject lang w =
     translate_unit amb t req (is_user_locked t (user req))
       (subproject_locked (translation_subproject t)) r (offset (entry r)) w1).
Proof.
  intros Hget Hsid Hsearch.
  destruct (search_new_found amb t req w r w1 Hsid Hsearch)
    as (q & nm & l & o & Hr & Hne & Ho & _).
  assert (Hids : ids (entry r) = l) by (rewrite Hr; reflexivity).
  assert (Hoff : offset (entry r) = o) by (rewrite Hr; reflexivity).
  rewrite Hids, Hoff. split; [exact Hne|]. split; [exact Ho|].
  intros Hnone. unfold translate. rewrite Hget, Hsearch.
  unfold translate_at, translate_offset. rewrite Hnone, Hids, Hoff.
  replace ((0 <=? o) && (o <? Z.of_nat (length l))) with true; [reflexivity|].
  symmetry. apply andb_true_intro. split; [apply Z.leb_le | apply Z.ltb_lt]; lia.
Qed.

Lemma cleanup_session_wf now (s : Session) :
  session_wf s -> session_wf (cleanup_session now s).
Proof.
  intros Hwf k v Hk. rewrite cleanup_session_lookup in Hk. unfold kept in Hk.
  destruct (s !! k) as [v'|] eqn:E; [|discriminate].
  destruct (swept now k v'); [discriminate|]. injection Hk as <-.
  exact (Hwf k v' E).
Qed.

(** X4. [search] keeps the session well formed: if every search dictionary
    sits under the key made from its own id before the call, the same holds
    after it, whatever the outcome. *)
Theorem X4_search_keeps_session_wf amb t req w :
  session_wf (session w) -> session_wf (session (search amb t req w).2).
Proof.
  intros Hwf. unfold search.
  destruct (GET req !! "sid") as [sid|].
  - destruct (session w !! ("search_" +:+ sid)) as [[e|]|]; exact Hwf.
  - pose proof (search_units_session t req w) as Hs.
    destruct (search_units t req w) as [[[allunits q] nm] w0]. simpl in Hs.
    assert (Hstore : forall o,
      session_wf
        (<["search_" +:+ uuid1 amb :=
             SearchDict (mkSearchEntry (Some (GET req)) q nm
                           (unit_id <$> allunits) (uuid1 amb)
                           (now_store amb + 86400) o)]>
           (cleanup_session (now_cleanup amb) (session w0)))).
    { intros o. apply map_Forall_insert_2; [reflexivity|].
      apply cleanup_session_wf. rewrite Hs. exact Hwf. }
    destruct (decide (length (unit_id <$> allunits) = 0%nat));
      [simpl; rewrite Hs; exact Hwf|].
    destruct (GET req !! "checksum") as [c|];
      [destruct (checksum_offset allunits c)|]; simpl;
      try apply Hstore; rewrite Hs; exact Hwf.
Qed.

End SearchCacheMore.

Section StaleSid.
Context `{Backend}.
Implicit Type w : World Ext.

(** X5. A request that names a search the session does not hold is not
    processed at all: [translate], [zen] and [load_zen] queue "Invalid
    search string!" and redirect to the translation, whatever the method
    and whatever was posted. *)
Theorem X5_stale_sid amb req project subproject lang w t sid :
  get_translation req project subproject lang = Some t ->
  GET req !! "sid" = Some sid ->
  session w !! ("search_" +:+ sid) = None ->
  let w' := add_message ERROR "Invalid search string!" w in
  translate amb req project subproject lang w =
    (Returns (redirect (OTranslation t)), w') /\
  zen amb req project subproject lang w =
    (Returns (redirect (OTranslation t)), w') /\
  load_zen amb req project subproject lang w =
    (Responds (plain (redirect (OTranslation t))), w').
Proof.
  intros Hget Hsid Hnone w'.
  assert (Hsearch : search amb t req w =
            (Redirected (redirect (OTranslation t)), w'))
    by (unfold search; rewrite Hsid, Hnone; reflexivity).
  unfold translate, zen, load_zen, get_zen_unitdata.
  rewrite Hget, Hsearch. repeat split.
Qed.

End StaleSid.

Lemma X2_stored_search_is_found_witness :
  let B := Demo.backend true in
  let first := search (H := B) Demo.amb Demo.cs (Demo.get [("q", "Ahoj")])
                 Demo.world in
  search (H := B) Demo.amb Demo.cs (Demo.get [("sid", "fresh")]) first.2 = first.
Proof.
  intros B first.
  destruct first as [[r|r|e] w1] eqn:E; try (vm_compute in E; discriminate).
  assert (Hid : search_id (entry r) = "fresh")
    by (vm_compute in E; injection E as <- _; reflexivity).
  apply (X2_stored_search_is_found (H := B) Demo.amb Demo.cs
           (Demo.get [("q", "Ahoj")]) Demo.world r w1);
    [reflexivity | exact E | rewrite Hid; reflexivity].
Defined.

Lemma X3_new_search_in_range_witness :
  let B := Demo.backend true in
  let first := search (H := B) Demo.amb Demo.cs
                 (Demo.get [("q", "e"); ("checksum", "22")]) Demo.world in
  match first.1 with
  | Found r => ids (entry r) = [3; 2; 1] /\ offset (entry r) = 1 /\
               0 <= offset (entry r) < 3
  | _ => False
  end.
Proof.
  intros B first.
  destruct first as [[r|r|e] w1] eqn:E; try (vm_compute in E; discriminate).
  destruct (X3_new_search_in_range (H := B) Demo.amb Demo.cs
              (Demo.get [("q", "e"); ("checksum", "22")])
              "hello" "weblate" "cs" Demo.world r w1 eq_refl eq_refl E)
    as (_ & Hrange & _).
  vm_compute in E. injection E as <- _. simpl in *.
  split; [reflexivity|]. split; [reflexivity | exact Hrange].
Defined.

Lemma X4_search_keeps_session_wf_witness :
  session_wf
    (session (search (H := Demo.backend true) Demo.amb Demo.cs
                (Demo.get [("q", "Ahoj")]) Demo.world).2).
Proof.
  apply (X4_search_keeps_session_wf (H := Demo.backend true)).
  exact demo_session_wf.
Defined.

Lemma X5_stale_sid_witness :
  let B := Demo.backend true in
  translate (H := B) Demo.amb
    (Demo.post [("sid", "gone")] [("checksum", "1"); ("target", "Ahoj.")])
    "hello" "weblate" "cs" Demo.world =
  (Returns (redirect (OTranslation Demo.cs)),
   add_message ERROR "Invalid search string!" Demo.world).
Proof.
  intros B.
  exact (proj1 (X5_stale_sid (H := B) Demo.amb
                  (Demo.post [("sid", "gone")]
                     [("checksum", "1"); ("target", "Ahoj.")])
                  "hello" "weblate" "cs" Demo.world Demo.cs "gone"
                  eq_refl eq_refl eq_refl)).
Defined.

(** ** Offsets in URLs *)

Lemma append_cons (c : ascii) (s t : string) :
  String c s +:+ t = String c (s +:+ t).
Proof. reflexivity. Qed.

Lemma append_nil_r (s : string) : s +:+ "" = s.
Proof.
  induction s as [|c s IH]; [reflexivity|]. rewrite append_cons, IH. reflexivity.
Qed.

Lemma append_assoc (a b c : string) : (a +:+ b) +:+ c = a +:+ (b +:+ c).
Proof.
  induction a as [|x a IH]; [reflexivity|]. rewrite !append_cons, IH. reflexivity.
Qed.

Lemma append_inj_l (a x y : string) : a +:+ x = a +:+ y -> x = y.
Proof.
  induction a as [|c a IH]; [auto|]. rewrite !append_cons. intros [= E]. auto.
Qed.

Lemma rev_app_rev_app (a b c : string) :
  String.rev_app (String.rev_app a b) c = String.rev_app b (a +:+ c).
Proof.
  revert b. induction a as [|x a IH]; intros b; simpl; [reflexivity|].
  rewrite IH. reflexivity.
Qed.

Lemma rev_involutive (s : string) : String.rev (String.rev s) = s.
Proof. unfold String.rev. rewrite rev_app_rev_app. simpl. apply append_nil_r. Qed.

Lemma digit_not_space (c : ascii) :
  is_Some (Py.digit c) -> Py.is_space c = false.
Proof.
  intros [d Hd]. destruct (Py.is_space c) eqn:E; [|reflexivity].
  exfalso. revert Hd. unfold Py.is_space in E.
  destruct c as [[] [] [] [] [] [] [] []]; try discriminate E; vm_compute;
    discriminate.
Qed.

Lemma lstrip_head (c : ascii) (r : string) :
  Py.is_space c = false -> Py.lstrip (String c r) = String c r.
Proof. intros E. simpl. rewrite E. reflexivity. Qed.

Lemma digits_indep (s : string) : forall a b,
  is_Some (Py.digits a s) -> is_Some (Py.digits b s).
Proof.
  induction s as [|c s IH]; intros a b; simpl; [eauto|].
  destruct (Py.digit c); [apply IH | auto].
Qed.

Lemma digits_append (a b : string) : forall acc,
  Py.digits acc (a +:+ b) = Py.digits acc a ≫= fun v => Py.digits v b.
Proof.
  induction a as [|c a IH]; intros acc; simpl; [reflexivity|].
  destruct (Py.digit c); [apply IH | reflexivity].
Qed.

Lemma digit_pretty_char (d : N) :
  (d < 10)%N -> Py.digit (pretty_N_char d) = Some (Z.of_N d).
Proof.
  intros Hd.
  assert (Hcases : (d = 0 \/ d = 1 \/ d = 2 \/ d = 3 \/ d = 4 \/ d = 5 \/
                   d = 6 \/ d = 7 \/ d = 8 \/ d = 9)%N) by lia.
  repeat destruct Hcases as [->|Hcases]; try subst d; reflexivity.
Qed.

Lemma pretty_N_go_append (x : N) : forall s,
  pretty_N_go x s = pretty_N_go x "" +:+ s.
Proof.
  induction (N.lt_wf_0 x) as [x _ IH]; intros s.
  destruct (decide (x = 0)%N) as [->|Hx]; [reflexivity|].
  assert (Hlt : (x `div` 10 < x)%N) by (apply N.div_lt; lia).
  rewrite (pretty_N_go_step x s), (pretty_N_go_step x "") by lia.
  rewrite (IH _ Hlt (String (pretty_N_char (x `mod` 10)) s)).
  rewrite (IH _ Hlt (String (pretty_N_char (x `mod` 10)) "")).
  rewrite append_assoc. reflexivity.
Qed.

(** The decimal text of a number reads back as the number. *)
Lemma digits_pretty_N_go (x : N) :
  Py.digits 0 (pretty_N_go x "") = Some (Z.of_N x).
Proof.
  induction (N.lt_wf_0 x) as [x _ IH].
  destruct (decide (x = 0)%N) as [->|Hx]; [reflexivity|].
  assert (Hlt : (x `div` 10 < x)%N) by (apply N.div_lt; lia).
  rewrite pretty_N_go_step by lia. rewrite pretty_N_go_append.
  rewrite digits_append, (IH _ Hlt). simpl.
  rewrite digit_pretty_char by (apply N.mod_lt; lia).
  f_equal. pose proof (N.div_mod x 10). lia.
Qed.

(** Reversing a non-empty text of digits gives a text that starts with a
    digit. *)
Lemma rev_app_head (d : string) : forall b,
  d <> "" -> is_Some (Py.digits 0 d) ->
  exists c r, String.rev_app d b = String c r /\ is_Some (Py.digit c).
Proof.
  induction d as [|x d IH]; intros b Hne Hd; [contradiction|].
  simpl in Hd. destruct (Py.digit x) as [v|] eqn:Ex; [|destruct Hd; discriminate].
  destruct d as [|y d].
  - simpl. exists x, b. split; [reflexivity|]. rewrite Ex. eauto.
  - simpl. apply (IH (String x b)); [discriminate|].
    eapply digits_indep, Hd.
Qed.

(** [strip] leaves alone a text that starts with a character that is no
    white space and ends with digits. *)
Lemma strip_digits_tail (c : ascii) (d : string) :
  Py.is_space c = false -> d <> "" -> is_Some (Py.digits 0 d) ->
  Py.strip (String c d) = String c d.
Proof.
  intros Hc Hne Hd. unfold Py.strip. rewrite (lstrip_head c d Hc).
  unfold String.rev at 2. simpl.
  destruct (rev_app_head d (String c "") Hne Hd) as (x & r & E & Hx).
  rewrite E, lstrip_head by (apply digit_not_space, Hx).
  rewrite <- E. change (String.rev_app d (String c "")) with (String.rev (String c d)).
  apply rev_involutive.
Qed.

Lemma strip_digits (d : string) :
  is_Some (Py.digits 0 d) -> Py.strip d = d.
Proof.
  intros Hd. destruct d as [|c d]; [reflexivity|].
  assert (Hc : is_Some (Py.digit c)).
  { simpl in Hd. destruct (Py.digit c); [eauto | destruct Hd; discriminate]. }
  unfold Py.strip. rewrite (lstrip_head c d) by (apply digit_not_space, Hc).
  destruct (rev_app_head (String c d) "" ltac:(discriminate) Hd)
    as (x & r & E & Hx).
  unfold String.rev at 2. rewrite E, lstrip_head by (apply digit_not_space, Hx).
  rewrite <- E. change (String.rev_app (String c d) "") with (String.rev (String c d)).
  apply rev_involutive.
Qed.

Lemma int_digits (d : string) (n : Z) :
  d <> "" -> Py.digits 0 d = Some n -> Py.int d = Some n.
Proof.
  intros Hne Hd. unfold Py.int. rewrite strip_digits by (rewrite Hd; eauto).
  destruct d as [|c d]; [contradiction|].
  assert (Hc : is_Some (Py.digit c)).
  { simpl in Hd. destruct (Py.digit c); [eauto | discriminate]. }
  assert (Hplus : c <> "+"%char) by (intros ->; destruct Hc; discriminate).
  assert (Hminus : c <> "-"%char) by (intros ->; destruct Hc; discriminate).
  transitivity (Py.unsigned (String c d)); [|exact Hd].
  destruct c as [[] [] [] [] [] [] [] []]; try reflexivity; contradiction.
Qed.

Lemma pretty_positive_digits (p : positive) :
  pretty_N_go (N.pos p) "" <> "" /\
  Py.digits 0 (pretty_N_go (N.pos p) "") = Some (Z.pos p).
Proof.
  pose proof (digits_pretty_N_go (N.pos p)) as Hd. split; [|exact Hd].
  intros E. rewrite E in Hd. discriminate.
Qed.

(** [int(str(k))] is [k]. *)
Lemma int_str (k : Z) : Py.int (Py.str k) = Some k.
Proof.
  unfold Py.str. destruct (decide (k = 0)) as [->|Hk]; [reflexivity|].
  destruct k as [|p|p]; [contradiction| |].
  - destruct (pretty_positive_digits p) as [Hne Hd].
    apply int_digits; assumption.
  - destruct (pretty_positive_digits p) as [Hne Hd].
    change (pretty (Z.neg p))
      with (String "-"%char (pretty_N_go (N.pos p) "")).
    unfold Py.int.
    rewrite strip_digits_tail; [|reflexivity|exact Hne|rewrite Hd; eauto].
    destruct (pretty_N_go (N.pos p) "") as [|c d] eqn:E; [contradiction|].
    unfold Py.unsigned. rewrite Hd. reflexivity.
Qed.

Lemma str_inj (a b : Z) : Py.str a = Py.str b -> a = b.
Proof.
  intros E. apply (f_equal Py.int) in E. rewrite !int_str in E. congruence.
Qed.

Section TranslateView.
Context `{Backend}.
Implicit Type w : World Ext.

(** X8. The offset a view writes into a URL with [str] is the offset it
    reads back with [int]: a request whose [offset] parameter is the text
    of [k] is served at offset [k], in [translate] and in zen mode, for
    negative numbers too. *)
Theorem X8_offset_round_trip req sr k :
  translate_offset (with_offset (Py.str k) req) sr = k /\
  zen_offset_of (with_offset (Py.str k) req) = k.
Proof.
  unfold translate_offset, zen_offset_of, with_offset. simpl.
  rewrite lookup_insert_eq, int_str. split; reflexivity.
Qed.

Lemma search_redirected amb t req w r w1 :
  search amb t req w = (Redirected r, w1) -> r = redirect (OTranslation t).
Proof.
  unfold search.
  destruct (GET req !! "sid") as [sid|].
  - destruct (session w !! ("search_" +:+ sid)) as [[e|]|];
      intros [= <- _]; reflexivity.
  - destruct (search_units t req w) as [[[allunits q] nm] w0].
    destruct (decide (length (unit_id <$> allunits) = 0%nat));
      [intros [= <- _]; reflexivity|].
    destruct (GET req !! "checksum") as [c|];
      [destruct (checksum_offset allunits c)|];
      try discriminate; intros [= <- _]; reflexivity.
Qed.

(** X7. Whatever [translate] renders is consistent: the unit belongs to the
    translation of the request and is in the table, the offset lies inside
    the search ([0 <= offset < filter_count]), the position shown is
    [offset + 1], and the URL of the next unit differs from the URL of this
    one. *)
Theorem X7_rendered_context amb req project subproject lang w ctx w' :
  translate amb req project subproject lang w =
    (Returns (render_translate ctx), w') ->
  exists t,
    get_translation req project subproject lang = Some t /\
    unit_translation (ctx_unit ctx) = t /\
    (exists pk, db_units w' !! pk = Some (ctx_unit ctx)) /\
    0 <= ctx_offset ctx < ctx_filter_count ctx /\
    ctx_filter_pos ctx = ctx_offset ctx + 1 /\
    ctx_this_unit_url ctx <> ctx_next_unit_url ctx.
Proof.
  unfold translate.
  destruct (get_translation req project subproject lang) as [t|];
    [|discriminate].
  destruct (search amb t req w) as [[sr|r|e] w1] eqn:Hsearch;
    [| |discriminate].
  2: { apply search_redirected in Hsearch. subst r. discriminate. }
  unfold translate_at.
  set (k := translate_offset req sr).
  destruct ((0 <=? k) && (k <? Z.of_nat (length (ids (entry sr))))) eqn:Hk;
    simpl.
  2: { destruct (session _ !! _); discriminate. }
  apply andb_prop in Hk as [Hk1 Hk2].
  apply Z.leb_le in Hk1. apply Z.ltb_lt in Hk2.
  unfold translate_unit.
  match goal with
  | |- context [translate_dispatch ?a ?b ?c ?d ?e ?f ?g ?h] =>
      pose proof (translate_dispatch_redirects a b c d e f g h) as Hred
  end.
  destruct (translate_dispatch _ _ _ _ _ _ _ _) as [[r| |x] w2];
    [destruct r; try contradiction; discriminate| |discriminate].
  destruct (Py.getitem (ids (entry sr)) k) as [pk|]; [|discriminate].
  unfold unit_set_get.
  destruct (db_units w2 !! pk) as [u|] eqn:Hu; [|discriminate].
  destruct (decide (unit_translation u = t)) as [Ht|]; [|discriminate].
  intros [= <- <-]. exists t. simpl.
  split; [reflexivity|]. split; [exact Ht|]. split; [eauto|].
  split; [lia|]. split; [reflexivity|].
  intros E. apply append_inj_l, str_inj in E. lia.
Qed.

(** X6. On a locked component no form is processed: with an offset inside
    the search, [translate] shows the unit at that offset, marked as
    locked, and the state is the one the search left - for POSTs, merges
    and reverts as for plain GETs. *)
Theorem X6_locked_component amb req project subproject lang w t sr w1 :
  get_translation req project subproject lang = Some t ->
  subproject_locked (translation_subproject t) = true ->
  search amb t req w = (Found sr, w1) ->
  let k := translate_offset req sr in
  0 <= k < Z.of_nat (length (ids (entry sr))) ->
  exists pk,
    ids (entry sr) !! Z.to_nat k = Some pk /\
    match unit_set_get t pk w1 with
    | Some u =>
        exists ctx,
          translate amb req project subproject lang w =
            (Returns (render_translate ctx), w1) /\
          ctx_unit ctx = u /\ ctx_locked ctx = true
    | None =>
        translate amb req project subproject lang w =
          (Returns (redirect (OTranslation t)),
           add_message ERROR "Invalid search string!" w1)
    end.
Proof.
  intros Hget Hlocked Hsearch k Hk.
  destruct (getitem_in_range (ids (entry sr)) k Hk) as (pk & Hpk & Hitem).
  exists pk. split; [exact Hpk|].
  unfold translate. rewrite Hget, Hsearch. unfold translate_at. fold k.
  replace ((0 <=? k) && (k <? Z.of_nat (length (ids (entry sr))))) with true
    by (symmetry; apply andb_true_intro; split;
        [apply Z.leb_le | apply Z.ltb_lt]; lia).
  simpl. unfold translate_unit, translate_dispatch.
  rewrite Hlocked, Hitem. simpl. rewrite !andb_false_r. simpl.
  destruct (unit_set_get t pk w1) as [u|]; [|reflexivity].
  eexists. split; [reflexivity|]. split; reflexivity.
Qed.

(** X12. A translation the user is locked out of accepts nothing from
    that user but suggestions: for a request without the [suggest]
    parameter the dispatch runs no save, merge, revert or suggestion
    action.  The state it leaves is the state before, or that state after
    [check_sync], or the latter with the missing-privilege error. *)
Theorem X12_user_locked amb t req pl this next w :
  POST req !! "suggest" = None ->
  let r := translate_dispatch amb t req true pl this next w in
  r.2 = w \/ r.2 = check_sync t w \/
  r.2 = add_message ERROR "You don't have privileges to save translations!"
          (check_sync t w).
Proof.
  intros Hsug r. subst r. unfold translate_dispatch.
  rewrite orb_true_r. simpl. rewrite !andb_false_r.
  destruct (bool_decide (method req = POST_) && negb pl); [|auto].
  destruct (negb (in_POST req "accept") && negb (in_POST req "accept_edit") &&
            negb (in_POST req "delete") && negb (in_POST req "upvote") &&
            negb (in_POST req "downvote")); [|auto].
  unfold handle_translate.
  destruct (negb (AntispamForm_is_valid (POST req))); [auto|].
  destruct (TranslationForm_clean t (POST req) (check_sync t w)) as [frm|];
    [|auto].
  destruct (decide (is_Some (POST req !! "suggest"))) as [[x Hx]|_];
    [congruence|].
  destruct (negb (can_translate _ _)); simpl; auto.
Qed.

(** X9. [handle_suggestions] touches a suggestion only after it has found
    it by its id within the project and the language of the translation
    and has been granted the capability of the mode it parsed; the
    operation it then runs is the one of that mode.  In every other case
    it queues one error and changes nothing else. *)
Theorem X9_suggestion_guarded t req this next w :
  let r := handle_suggestions t req this next w in
  (exists text, r.2 = add_message ERROR text w) \/
  (exists mode pk sug,
      (parse_suggestion req).2 = Some mode /\
      Py.int (parse_suggestion req).1 = Some pk /\
      Suggestion_get pk (subproject_project (translation_subproject t))
        (translation_language t) w = Some sug /\
      suggestion_capability req t sug mode = true /\
      r.2 = suggestion_operation mode sug t req w).
Proof.
  intros r. subst r. unfold handle_suggestions.
  destruct (parse_suggestion req) as [sugid mode] eqn:Hparse. simpl.
  destruct (Py.int sugid) as [pk|] eqn:Hint; [|left; eauto].
  destruct (Suggestion_get pk _ _ w) as [sug|] eqn:Hget; [|left; eauto].
  destruct mode as [mode|].
  - destruct (suggestion_capability req t sug mode) eqn:Hcap.
    + right. exists mode, pk, sug. repeat (split; [reflexivity || assumption|]).
      pose proof (parse_suggestion_mode req sugid mode Hparse) as Hmode.
      rewrite (check_suggest_permissions_allowed req t sug mode w Hcap). simpl.
      destruct mode; simpl in Hmode.
      * rewrite Hmode. reflexivity.
      * destruct Hmode as (-> & ->). reflexivity.
      * destruct Hmode as (-> & -> & ->). reflexivity.
      * destruct Hmode as (-> & -> & -> & ->). reflexivity.
      * destruct Hmode as (-> & -> & -> & -> & ->). reflexivity.
    + left.
      destruct (check_suggest_permissions_denied req t sug mode w Hcap)
        as [text ->].
      simpl. eauto.
  - exfalso. revert Hparse Hint. unfold parse_suggestion.
    destruct (List.find _ suggestion_params); [discriminate|].
    intros [= <-]. discriminate.
Qed.


(** X11. [perform_suggestion] reports success only when the target is not
    empty, the user may suggest and [Suggestion.objects.add] stored the
    suggestion; every refusal ends with an error message, and a refusal
    before the call of [add] changes nothing else. *)
Theorem X11_suggestion_outcome unit frm req w :
  let r := perform_suggestion unit frm req w in
  if r.1 then
    (form_target frm).1 <> "" /\
    can_suggest (user req) (unit_translation unit) = true
  else
    (exists text, last (messages r.2) = Some (ERROR, text)) /\
    ((form_target frm).1 = "" \/
     can_suggest (user req) (unit_translation unit) = false ->
     exists text, r.2 = add_message ERROR text w).
Proof.
  intros r. subst r. unfold perform_suggestion.
  destruct (decide ((form_target frm).1 = "")) as [He|Hne]; simpl.
  - split; [eexists; apply last_snoc | eauto].
  - destruct (can_suggest (user req) (unit_translation unit)) eqn:Hcan; simpl.
    + destruct (Suggestion_add _ _ _ _ _) as [[] w2]; simpl.
      * split; [exact Hne | reflexivity].
      * split; [eexists; apply last_snoc|].
        intros [?|?]; [contradiction | discriminate].
    + split; [eexists; apply last_snoc | eauto].
Qed.

End TranslateView.

(** ** More on merge, revert and search-replace *)

Lemma log_grows_refl {E} req (w : World E) : log_grows req w w.
Proof.
  split; [|auto]. exists []. split; [symmetry; apply app_nil_r | constructor].
Qed.

Lemma log_grows_trans {E} req (w1 w2 w3 : World E) :
  log_grows req w1 w2 -> log_grows req w2 w3 -> log_grows req w1 w3.
Proof.
  intros ((n1 & H1 & F1) & S1 & L1 & X1) ((n2 & H2 & F2) & S2 & L2 & X2).
  split; [|repeat split; congruence].
  exists (n1 ++ n2)%list. split; [rewrite H2, H1, app_assoc; reflexivity|].
  apply Forall_app; auto.
Qed.

Lemma log_grows_message {E} req l text (w : World E) :
  log_grows req w (add_message l text w).
Proof.
  split; [|auto]. exists []. split; [symmetry; apply app_nil_r | constructor].
Qed.

Section SavesMore.
Context `{Backend}.
Implicit Type w : World Ext.

Lemma save_backend_log_grows amb u req a w :
  log_grows req w (save_backend amb u req a w).2.
Proof.
  rewrite save_backend_eq. destruct (changes_row w u); simpl;
    [|apply log_grows_refl].
  split; [|auto]. eexists. split; [reflexivity|].
  constructor; [reflexivity | constructor].
Qed.


Lemma replace_all_log_grows amb req s r (l : list Unit) : forall w,
  log_grows req w (replace_all amb req s r l w).
Proof.
  induction l as [|a l IH]; intros w; [apply log_grows_refl|].
  simpl. eapply log_grows_trans; [apply save_backend_log_grows|].
  apply IH.
Qed.


Ltac frame_cases tac :=
  repeat (simpl;
          match goal with
          | |- context [match ?x with _ => _ end] => destruct x eqn:?
          | |- context [if ?x then _ else _] => destruct x eqn:?
          end);
  simpl; tac.

Ltac same_log :=
  split; [exists []; split; [symmetry; apply app_nil_r | constructor] | auto].

Ltac after_save lem :=
  match goal with
  | E : save_backend ?a ?u ?r ?x ?w0 = (_, ?w1) |- _ =>
      let Hs := fresh "Hs" in
      pose proof (lem a u r x w0) as Hs; rewrite E in Hs; simpl in Hs
  end.

(** X13. Merge, revert and search-replace only ever append to the change
    log, and what they append is signed by the user of the request; they
    leave the session, the locale and the other tables alone.  So an entry
    of the log keeps its number: what [Change.objects.get(pk)] found
    before, it finds afterwards. *)
Theorem X13_log_append_only amb t req next project subproject lang w :
  let merged := (handle_merge amb t req next w).2 in
  let reverted := (handle_revert amb t req next w).2 in
  let replaced := (search_replace amb req project subproject lang w).2 in
  (log_grows req w merged /\ log_grows req w reverted /\
   log_grows req w replaced) /\
  forall pk c,
    Change_get pk w = Some c ->
    Change_get pk merged = Some c /\ Change_get pk reverted = Some c /\
    Change_get pk replaced = Some c.
Proof.
  intros merged reverted replaced.
  assert (Hm : log_grows req w merged).
  { subst merged. unfold handle_merge.
    frame_cases ltac:(try same_log).
    all: after_save save_backend_log_grows;
      first [exact Hs | eapply log_grows_trans; [exact Hs | same_log]]. }
  assert (Hr : log_grows req w reverted).
  { subst reverted. unfold handle_revert.
    frame_cases ltac:(try same_log).
    all: after_save save_backend_log_grows; exact Hs. }
  assert (Hp : log_grows req w replaced).
  { subst replaced. unfold search_replace, import_message.
    frame_cases ltac:(try same_log).
    all: eapply log_grows_trans; [apply replace_all_log_grows | same_log]. }
  split; [auto|].
  assert (Hstable : forall w', log_grows req w w' ->
            forall pk c, Change_get pk w = Some c -> Change_get pk w' = Some c).
  { intros w' ((new & Hnew & _) & _) pk c. unfold Change_get.
    destruct (pk <? 1); [discriminate|]. rewrite Hnew. intros Hc.
    apply lookup_app_l_Some. exact Hc. }
  intros pk c Hc. repeat split; eapply Hstable; eassumption.
Qed.


(** X15. Search-replace with nothing to do: when the form is not valid the
    view queues "Failed to process form!", and when no unit of the scope
    contains the search text it queues the warning that no strings were
    updated; in both cases it redirects to the object of the scope and
    changes nothing else. *)
Theorem X15_replace_nothing amb req project subproject lang w obj perms :
  is_authenticated (user req) = true ->
  method req = POST_ ->
  replace_scope req project subproject lang = Some (obj, perms) ->
  can_translate (user req) perms = true ->
  match ReplaceForm_clean (POST req) with
  | None =>
      search_replace amb req project subproject lang w =
        (Returns (redirect obj), add_message ERROR "Failed to process form!" w)
  | Some (search_text, _) =>
      Forall (fun u => Py.contains search_text (target u) = false)
        (scope_units obj w) ->
      search_replace amb req project subproject lang w =
        (Returns (redirect obj),
         add_message WARNING
           "Search and replace completed, no strings were updated." w)
  end.
Proof.
  intros Hauth Hpost Hscope Hcap. unfold search_replace.
  rewrite Hauth, Hscope, Hcap. simpl.
  rewrite bool_decide_eq_true_2 by assumption. simpl.
  destruct (ReplaceForm_clean (POST req)) as [[s r]|]; [|reflexivity].
  intros Hnone.
  rewrite (filter_none (fun u => Py.contains s (target u) = true)).
  - reflexivity.
  - intros u Hu. rewrite Forall_forall in Hnone.
    rewrite (Hnone u Hu). discriminate.
Qed.

(** X16. A merge that is repeated is counted once: after a merge of two
    units with the same identity hash, the same merge request - its form
    now yields the row the first merge left - finds nothing to save.  It
    redirects again, and the table, the log and the translated count of the
    user stay as the first merge left them. *)
Theorem X16_merge_twice amb t req next w unit merge merged unit1 :
  can_translate (user req) (ScopeTranslation t) = true ->
  MergeForm_clean t (GET req) w = Some (unit, merge) ->
  db_units w !! unit_id unit = Some unit ->
  db_units w !! merge = Some merged ->
  id_hash unit = id_hash merged ->
  let w1 := (handle_merge amb t req next w).2 in
  db_units w1 !! unit_id unit = Some unit1 ->
  MergeForm_clean t (GET req) w1 = Some (unit1, merge) ->
  handle_merge amb t req next w1 = (Respond (HttpResponseRedirect next), w1).
Proof.
  intros Hcap Hform Hrow Hmerged Hhash w1 Hrow1 Hform1.
  set (unit' := set_fuzzy (fuzzy merged) (set_target (target merged) unit)).
  assert (Hw1 : db_units w1 =
                  if changes_row w unit' then <[unit_id unit := unit']> (db_units w)
                  else db_units w).
  { subst w1. unfold handle_merge. rewrite Hcap, Hform, Hmerged. simpl.
    destruct (decide (id_hash unit <> id_hash merged)); [contradiction|].
    fold unit'. rewrite save_backend_eq.
    destruct (changes_row w unit'); reflexivity. }
  assert (Hkey : unit_id unit' = unit_id unit) by reflexivity.
  (* the row of the unit after the first merge *)
  assert (Hunit1 : unit_id unit1 = unit_id unit /\
                   id_hash unit1 = id_hash merged /\
                   target unit1 = target merged /\ fuzzy unit1 = fuzzy merged).
  { rewrite Hw1 in Hrow1. unfold changes_row in Hrow1. rewrite Hkey, Hrow in Hrow1.
    destruct (decide (target unit = target unit' /\ fuzzy unit = fuzzy unit'))
      as [[Ht Hf]|Hd].
    - rewrite bool_decide_eq_true_2 in Hrow1 by auto. simpl in Hrow1.
      rewrite Hrow in Hrow1. injection Hrow1 as <-. auto.
    - rewrite bool_decide_eq_false_2 in Hrow1 by assumption. simpl in Hrow1.
      rewrite lookup_insert_eq in Hrow1. injection Hrow1 as <-.
      subst unit'. simpl. auto. }
  destruct Hunit1 as (Hid1 & Hh1 & Ht1 & Hf1).
  (* the row of the merged unit after the first merge *)
  assert (Hmerged1 : exists merged1,
            db_units w1 !! merge = Some merged1 /\
            id_hash merged1 = id_hash merged /\
            target merged1 = target merged /\ fuzzy merged1 = fuzzy merged).
  { destruct (decide (merge = unit_id unit)) as [->|Hne].
    - exists unit1. auto.
    - exists merged. rewrite Hw1.
      destruct (changes_row w unit');
        [rewrite lookup_insert_ne by congruence|]; auto. }
  destruct Hmerged1 as (merged1 & Hm1 & Hhm & Htm & Hfm).
  unfold handle_merge. rewrite Hcap, Hform1, Hm1. simpl.
  destruct (decide (id_hash unit1 <> id_hash merged1)); [congruence|].
  rewrite save_backend_eq. unfold changes_row. simpl.
  rewrite Hid1, Hrow1.
  rewrite bool_decide_eq_true_2 by (split; congruence).
  reflexivity.
Qed.

End SavesMore.

(** ** Zen mode *)

Lemma slice_window (A : Type) (l : list A) (a : Z) :
  (length (Py.slice l a (a + 20)) <= 20)%nat /\
  (Z.of_nat (length l) <= a -> Py.slice l a (a + 20) = []) /\
  (0 <= a -> a + 20 < Z.of_nat (length l) ->
   length (Py.slice l a (a + 20)) = 20%nat) /\
  (0 <= a < Z.of_nat (length l) ->
   Py.slice l a (a + 20) = take 20 (drop (Z.to_nat a) l)).
Proof.
  unfold Py.slice, Py.clamp.
  set (n := Z.of_nat (length l)).
  assert (Hn : 0 <= n) by (subst n; lia).
  repeat split.
  - rewrite length_take.
    destruct (a <? 0) eqn:Ea; destruct (a + 20 <? 0) eqn:Eb;
      rewrite ?Z.ltb_lt, ?Z.ltb_ge in *; lia.
  - intros Ha.
    destruct (a <? 0) eqn:Ea; destruct (a + 20 <? 0) eqn:Eb;
      rewrite ?Z.ltb_lt, ?Z.ltb_ge in *; try lia.
    replace (Z.to_nat (Z.min (a + 20) n - Z.min a n)) with 0%nat by lia.
    reflexivity.
  - intros Ha Hb.
    destruct (a <? 0) eqn:Ea; destruct (a + 20 <? 0) eqn:Eb;
      rewrite ?Z.ltb_lt, ?Z.ltb_ge in *; try lia.
    rewrite length_take, length_drop. subst n. lia.
  - intros Ha.
    destruct (a <? 0) eqn:Ea; destruct (a + 20 <? 0) eqn:Eb;
      rewrite ?Z.ltb_lt, ?Z.ltb_ge in *; try lia.
    replace (Z.min a n) with a by lia.
    destruct (Z.le_gt_cases (a + 20) n).
    + replace (Z.to_nat (Z.min (a + 20) n - a)) with 20%nat by lia. reflexivity.
    + replace (Z.to_nat (Z.min (a + 20) n - a)) with (Z.to_nat (n - a)) by lia.
      rewrite !take_ge; [reflexivity | |]; rewrite length_drop; subst n; lia.
Qed.

Lemma imap_lookup_pair (A B : Type) (f : nat -> A -> B) (l : list A) (i : nat) (y : B) :
  imap f l !! i = Some y -> exists x, l !! i = Some x /\ y = f i x.
Proof.
  rewrite list_lookup_imap. destruct (l !! i) as [x|]; [|discriminate].
  intros [= <-]. eauto.
Qed.

Section Zen.
Context `{Backend}.
Implicit Type w : World Ext.

(** X17. One page of the zen editor: at most 20 units; each of them is a
    row of the table, belongs to the translation and has its key in
    [ids[offset:offset + 20]]; and the offsets handed to the template count
    up from [offset] in the order of the page. *)
Theorem X17_zen_page t (l : list Z) (o : Z) w :
  units_wf (db_units w) ->
  let page := zen_units t l o w in
  (length page <= 20)%nat /\
  forall (i : nat) u k,
    page !! i = Some (u, k) ->
    k = o + Z.of_nat i /\
    unit_translation u = t /\
    unit_id u ∈ Py.slice l o (o + 20) /\
    db_units w !! unit_id u = Some u.
Proof.
  intros Hwf page. subst page. unfold zen_units.
  set (window := Py.slice l o (o + 20)).
  set (units := filter (fun u => unit_id u ∈ window) (unit_set t w)).
  assert (Hin : forall u, u ∈ units ->
            unit_id u ∈ window /\ unit_translation u = t /\
            db_units w !! unit_id u = Some u).
  { intros u Hu. subst units. apply list_elem_of_filter in Hu as [Hw Hu].
    split; [exact Hw|]. unfold unit_set in Hu.
    apply list_elem_of_filter in Hu as [Ht Hu].
    split; [exact Ht|]. apply table_row; assumption. }
  split.
  - rewrite length_imap.
    assert (Hnd : NoDup (unit_id <$> units)).
    { subst units. unfold unit_set.
      do 2 apply NoDup_fmap_filter. apply table_ids_NoDup, Hwf. }
    assert (Hsub : unit_id <$> units ⊆+ window).
    { apply NoDup_submseteq; [exact Hnd|].
      intros k Hk. apply list_elem_of_fmap in Hk as (u & -> & Hu).
      apply Hin, Hu. }
    apply submseteq_length in Hsub. rewrite length_fmap in Hsub.
    pose proof (proj1 (slice_window Z l o)). fold window in H0. lia.
  - intros i u k Hi. apply imap_lookup_pair in Hi as (x & Hx & E).
    injection E as -> ->. split; [reflexivity|].
    destruct (Hin x) as (Hw & Ht & Hrow);
      [eapply list_elem_of_lookup_2, Hx | auto].
Qed.

(** X18. Zen mode checks no boundary: for an offset at or past the end of
    the search the view renders an empty page marked as the last section,
    and it leaves the state as the search left it - the cached search is
    not deleted, as it would be by [translate]. *)
Theorem X18_zen_past_the_end amb req project subproject lang w t sr w1 :
  get_translation req project subproject lang = Some t ->
  search amb t req w = (Found sr, w1) ->
  let n := Z.of_nat (length (ids (entry sr))) in
  n <= zen_offset_of req ->
  zen amb req project subproject lang w =
    (Returns (render_zen
       (mkZenContext [] n true (search_id (entry sr)) (zen_offset_of req))),
     w1).
Proof.
  intros Hget Hsearch n Hn.
  unfold zen, get_zen_unitdata. rewrite Hget, Hsearch. simpl.
  unfold zen_units.
  rewrite (proj1 (proj2 (slice_window Z (ids (entry sr)) (zen_offset_of req))))
    by exact Hn.
  rewrite bool_decide_eq_true_2 by (fold n; lia).
  replace (filter (fun u => unit_id u ∈ []) (unit_set t w1)) with (@nil Unit).
  - reflexivity.
  - symmetry. apply filter_none. intros u _ Hu. inversion Hu.
Qed.

(** X19. When [get_zen_unitdata] does not flag the last section and the
    offset is not negative, the window of the page holds exactly 20
    identifiers, the ones from [ids[offset]] on. *)
Theorem X19_zen_full_window amb t req w sr last page w1 :
  get_zen_unitdata amb t req w = (inr (sr, last, page), w1) ->
  last = false ->
  0 <= offset (entry sr) ->
  let window :=
    Py.slice (ids (entry sr)) (offset (entry sr)) (offset (entry sr) + 20) in
  length window = 20%nat /\
  window = take 20 (drop (Z.to_nat (offset (entry sr))) (ids (entry sr))) /\
  offset (entry sr) = zen_offset_of req.
Proof.
  unfold get_zen_unitdata.
  destruct (search amb t req w) as [[sr0|r|e] w0]; [|discriminate|discriminate].
  intros [= <- <- <- <-] Hlast Ho. simpl in *.
  apply bool_decide_eq_false in Hlast.
  destruct (slice_window Z (ids (entry sr0)) (zen_offset_of req))
    as (_ & _ & Hfull & Htake).
  split; [apply Hfull; lia|]. split; [apply Htake; lia | reflexivity].
Qed.

(** X20. [load_zen] serves what [zen] shows: for the same request and
    state both views leave the same state, fail or redirect alike, and
    otherwise carry the same units, search id and last-section flag. *)
Theorem X20_load_zen_agrees amb req project subproject lang w :
  match zen amb req project subproject lang w with
  | (Returns (render_zen ctx), w1) =>
      exists q,
        load_zen amb req project subproject lang w =
          (Responds (render_zen_units (zen_unitdata ctx) q (zen_search_id ctx)
                       (zen_last_section ctx)), w1)
  | (Returns r, w1) =>
      load_zen amb req project subproject lang w = (Responds (plain r), w1)
  | (Raises e, w1) =>
      load_zen amb req project subproject lang w = (Fails e, w1)
  end.
Proof.
  unfold zen, load_zen.
  destruct (get_translation req project subproject lang) as [t|];
    [|reflexivity].
  pose proof (search_redirected amb t req w) as Hred.
  unfold get_zen_unitdata.
  destruct (search amb t req w) as [[sr|r|e] w1]; simpl.
  - eexists. reflexivity.
  - rewrite (Hred r w1 eq_refl). reflexivity.
  - reflexivity.
Qed.

(** X21. The zen save is the translate save: for a valid form, without the
    [suggest] and [commit_message] parameters, [save_zen] leaves the state
    that [handle_translate] leaves after its [check_sync] - the same save,
    the same missing-privilege error, the same silent drop of the form for
    a user who is locked out.  Its answer is the same empty page in every
    case, so the outcome is told by messages alone. *)
Theorem X21_save_zen req project subproject lang this next w t frm :
  is_authenticated (user req) = true ->
  method req = POST_ ->
  get_translation req project subproject lang = Some t ->
  AntispamForm_is_valid (POST req) = true ->
  POST req !! "suggest" = None ->
  POST req !! "commit_message" = None ->
  let w1 := check_sync t w in
  TranslationForm_clean t (POST req) w1 = Some frm ->
  unit_translation (form_unit frm) = t ->
  let r := save_zen req project subproject lang w1 in
  r.1 = Returns render_zen_response /\
  r.2 = (handle_translate t req (is_user_locked t (user req)) this next w).2 /\
  (can_translate (user req) (ScopeTranslation t) = true ->
   is_user_locked t (user req) = true -> r.2 = w1).
Proof.
  intros Hauth Hpost Hget Hspam Hsug Hmsg w1 Hform Hunit r. subst r.
  unfold save_zen, handle_translate. fold w1.
  rewrite Hauth, Hget, Hspam, Hform, Hsug, Hmsg, Hunit. simpl.
  rewrite bool_decide_eq_true_2 by assumption. simpl.
  split; [reflexivity|].
  destruct (can_translate (user req) (ScopeTranslation t)); simpl.
  - destruct (is_user_locked t (user req)); simpl.
    + split; [reflexivity|]. intros _ _. reflexivity.
    + split; [|intros _ ?; discriminate].
      destruct (perform_translation (form_unit frm) frm req w1). reflexivity.
  - split; [reflexivity|]. intros ?; discriminate.
Qed.

End Zen.

(** ** Views behind decorators and capability checks *)

Section Gates.
Context `{Helpers}.
Implicit Type w : World Ext.

(** X22. The views that are for signed-in POSTs only do nothing for anyone
    else: [save_zen], [search_replace], [auto_translation] and
    [delete_comment] leave the state untouched when the user is anonymous
    or the method is not POST, and [comment] does so for an anonymous user.
    An anonymous GET is sent to the login page by all of them but
    [auto_translation], which checks the method first and answers 405. *)
Theorem X22_decorators amb req project subproject lang sub lng pk w :
  is_authenticated (user req) = false \/ method req <> POST_ ->
  (save_zen req project subproject lang w).2 = w /\
  (search_replace amb req project sub lng w).2 = w /\
  (auto_translation req project subproject lang w).2 = w /\
  (delete_comment req pk w).2 = w /\
  (is_authenticated (user req) = false ->
   comment req pk w = (Responds (plain redirect_to_login), w) /\
   (save_zen req project subproject lang w).1 = Returns redirect_to_login /\
   (search_replace amb req project sub lng w).1 = Returns redirect_to_login /\
   (delete_comment req pk w).1 = Responds (plain redirect_to_login) /\
   (method req <> POST_ ->
    (auto_translation req project subproject lang w).1 =
      Returns HttpResponseNotAllowed)).
Proof.
  intros Hgate.
  unfold save_zen, search_replace, auto_translation, delete_comment, comment.
  destruct (is_authenticated (user req)) eqn:Hauth; simpl.
  - destruct Hgate as [?|Hm]; [discriminate|].
    rewrite bool_decide_eq_false_2 by assumption. simpl.
    repeat split; intros; try reflexivity; discriminate.
  - destruct (bool_decide (method req = POST_)) eqn:Hp; simpl;
      repeat split; intros; try reflexivity.
    apply bool_decide_eq_true in Hp. contradiction.
Qed.

(** X23. [auto_translation] starts the automatic translation only for a
    signed-in POST by a user with the capability, on a component that is
    not locked, with a valid form; it then reports the number of updated
    strings.  In every other case the state stays as it is, but for the
    error "Failed to process form!". *)
Theorem X23_auto_translation_guarded req project subproject lang w :
  let r := auto_translation req project subproject lang w in
  r.2 = w \/
  r.2 = add_message ERROR "Failed to process form!" w \/
  exists t data,
    is_authenticated (user req) = true /\ method req = POST_ /\
    get_translation req project subproject lang = Some t /\
    can_automatic_translation (user req)
      (subproject_project (translation_subproject t)) = true /\
    subproject_locked (translation_subproject t) = false /\
    AutoForm_clean t (user req) (POST req) w = Some data /\
    let done := auto_translate (user req) t (auto_subproject data)
                  (auto_inconsistent data) (auto_overwrite data) w in
    r = (Returns (redirect (OTranslation t)),
         add_message
           (if decide (done.1 = 0) then WARNING else SUCCESS)
           (if decide (done.1 = 0)
            then "Automatic translation completed, no strings were updated."
            else auto_message done.1) done.2).
Proof.
  intros r. subst r. unfold auto_translation.
  destruct (bool_decide (method req = POST_)) eqn:Hp; simpl; [|auto].
  apply bool_decide_eq_true in Hp.
  destruct (is_authenticated (user req)) eqn:Hauth; simpl; [|auto].
  destruct (get_translation req project subproject lang) as [t|] eqn:Hget;
    [|auto].
  destruct (can_automatic_translation _ _) eqn:Hcap; simpl; [|auto].
  destruct (subproject_locked (translation_subproject t)) eqn:Hlock; [auto|].
  destruct (AutoForm_clean t (user req) (POST req) w) as [data|] eqn:Hform;
    [|auto].
  right. right. exists t, data. repeat (split; [assumption || reflexivity|]).
  simpl. destruct (auto_translate _ _ _ _ _ w) as [n w1]. simpl.
  unfold import_message. destruct (decide (n = 0)); reflexivity.
Qed.


End Gates.

(** ** The changes browser *)

Section ChangesMore.
Context `{Helpers}.
Implicit Type w : World Ext.

Lemma show_form_errors_snoc errs e w :
  add_message ERROR e (show_form_errors errs w) =
    show_form_errors (errs ++ [e]) w.
Proof. unfold show_form_errors. rewrite foldl_app. reflexivity. Qed.

(** X25. [get_queryset] only reads and reports: the state it leaves is the
    state it got with at most three error messages added (one for each of
    project, language and user that could not be found); the list it
    returns is a sub-list of [last_changes], in the same order; and every
    change in it passes the filters of what was found, so with a user
    found all of them are by that user. *)
Theorem X25_queryset req w :
  let '(self, result, w') := get_queryset req ChangesView_init w in
  (exists errs, (length errs <= 3)%nat /\ w' = show_form_errors errs w) /\
  result `sublist_of` last_changes (user req) w' /\
  view_glossary self = in_GET req "glossary" /\
  (forall c, c ∈ result ->
     in_scope self c = true /\ in_language self c = true /\
     in_glossary self c = true /\
     forall u, view_user self = Some u -> change_user c = Some u).
Proof.
  unfold get_queryset.
  destruct (_get_queryset_project req ChangesView_init w) as [self1 w1] eqn:E1.
  destruct (_get_queryset_language req self1 w1) as [self2 w2] eqn:E2.
  destruct (_get_queryset_user req self2 w2) as [self3 w3] eqn:E3.
  assert (H1' : exists errs, (length errs <= 1)%nat /\ w1 = show_form_errors errs w).
  { revert E1. unfold _get_queryset_project.
    destruct (in_GET req "project");
      [destruct (get_project_translation _ _ _ _) as [[[p s] t]|]|];
      intros [= _ <-];
      first [exists []; split; [simpl; lia | reflexivity]
            | eexists [_]; split; [simpl; lia | reflexivity]]. }
  assert (H2' : exists errs, (length errs <= 2)%nat /\ w2 = show_form_errors errs w).
  { destruct H1' as (errs & Hl & ->). revert E2. unfold _get_queryset_language.
    destruct (view_translation self1);
      [|destruct (GET req !! "lang") as [code|];
        [destruct (Language_get code _)|]];
      intros [= _ <-];
      first [exists errs; split; [lia | reflexivity]
            | rewrite show_form_errors_snoc; eexists; split; [|reflexivity];
              rewrite length_app; simpl; lia]. }
  assert (H3' : exists errs, (length errs <= 3)%nat /\ w3 = show_form_errors errs w).
  { destruct H2' as (errs & Hl & ->). revert E3. unfold _get_queryset_user.
    destruct (GET req !! "user") as [n|]; [destruct (User_get n _)|];
      intros [= _ <-];
      first [exists errs; split; [lia | reflexivity]
            | rewrite show_form_errors_snoc; eexists; split; [|reflexivity];
              rewrite length_app; simpl; lia]. }
  split; [exact H3'|]. split; [apply sublist_filter|]. split; [reflexivity|].
  intros c Hc. apply list_elem_of_filter in Hc as [Hc _].
  apply andb_prop in Hc as [Hc Hu]. apply andb_prop in Hc as [Hc Hg].
  apply andb_prop in Hc as [Hs Hl].
  repeat split; try assumption.
  intros u Hview. unfold by_user in Hu. simpl in Hu, Hview. rewrite Hview in Hu.
  apply bool_decide_eq_true in Hu. exact Hu.
Qed.

(** X26. Without any parameter [get_queryset] is [last_changes]: nothing is
    filtered out, nothing is reported, and no filter is set on the view. *)
Theorem X26_queryset_unfiltered req w :
  GET req = ∅ ->
  get_queryset req ChangesView_init w =
    (ChangesView_init, last_changes (user req) w, w).
Proof.
  intros Hempty. unfold get_queryset, _get_queryset_project,
    _get_queryset_language, _get_queryset_user, in_GET.
  rewrite Hempty, !lookup_empty. simpl.
  f_equal. f_equal. apply filter_all. intros c _. reflexivity.
Qed.


Lemma context_scope_url self :
  let scoped :=
    bool_decide (is_Some (view_translation self)) ||
    bool_decide (is_Some (view_subproject self)) ||
    bool_decide (is_Some (view_project self)) in
  let '(_, _, _, rss, title, url) := context_scope self in
  url !! "user" = None /\ url !! "glossary" = None /\
  url !! "lang" = translation_language <$> view_translation self /\
  (if scoped then url <> ∅ /\ is_Some rss /\ is_Some title
   else url = ∅ /\ rss = None /\ title = None).
Proof.
  destruct self as [p s t l u g]. unfold context_scope.
  cbv beta iota zeta delta [view_translation view_subproject view_project].
  destruct t as [t|]; [|destruct s as [s|]; [|destruct p as [p|]]];
    cbv beta iota zeta;
    rewrite ?lookup_insert_ne by discriminate;
    rewrite ?lookup_insert_eq, ?lookup_empty;
    (split; [reflexivity|]; split; [reflexivity|]; split; [reflexivity|]);
    try (split; [apply insert_non_empty | split; eauto]).
  repeat split.
Qed.

(** X27. The permalink of the changes browser names the filters of the
    view: [url] has the user exactly when a user is set, the glossary mark
    exactly when the glossary flag is, and the language of the language
    filter or else of the translation.  Two entries can be missing from the
    context: the feed link, when only a user or the glossary flag is set,
    and the title, when nothing is set or only the glossary flag. *)
Theorem X27_context_url self :
  let ctx := get_context_data self in
  let scoped :=
    bool_decide (is_Some (view_translation self)) ||
    bool_decide (is_Some (view_subproject self)) ||
    bool_decide (is_Some (view_project self)) in
  context_url ctx !! "user" = username <$> view_user self /\
  context_url ctx !! "glossary" =
    (if view_glossary self then Some "1" else None) /\
  context_url ctx !! "lang" =
    match view_language self with
    | Some l => Some l
    | None => translation_language <$> view_translation self
    end /\
  context_query_string ctx = urlencode (context_url ctx) /\
  (context_changes_rss ctx = None <->
   scoped = false /\ view_language self = None /\
   (is_Some (view_user self) \/ view_glossary self = true)) /\
  (context_title ctx = None <->
   scoped = false /\ view_language self = None /\ view_user self = None).
Proof.
  intros ctx scoped. subst ctx.
  pose proof (context_scope_url self) as Hscope. fold scoped in Hscope.
  unfold get_context_data.
  destruct (context_scope self) as [[[[[p0 s0] t0] rss] title] url].
  destruct Hscope as (Huser & Hgloss & Hlang & Hsc).
  destruct (view_language self) as [l|] eqn:El;
    destruct (view_user self) as [u|] eqn:Eu;
    destruct (view_glossary self) eqn:Eg;
    cbv beta iota zeta;
    cbn [context_url context_query_string context_changes_rss context_title];
    (split; [repeat (rewrite lookup_insert_ne by discriminate);
             rewrite ?lookup_insert_eq; first [reflexivity | exact Huser]|]);
    (split; [repeat (rewrite lookup_insert_ne by discriminate);
             rewrite ?lookup_insert_eq; first [reflexivity | exact Hgloss]|]);
    (split; [repeat (rewrite lookup_insert_ne by discriminate);
             rewrite ?lookup_insert_eq; first [reflexivity | exact Hlang]|]);
    (split; [reflexivity|]).
  all: destruct scoped; [destruct Hsc as (Hne & [r ->] & [ti ->])
                        | destruct Hsc as (-> & -> & ->)].
  all: repeat match goal with
       | |- context [decide (size ?m = 0%nat)] =>
           destruct (decide (size m = 0%nat)) as [Hz|Hz];
           [apply map_size_empty_inv in Hz;
            first [exfalso; exact (insert_non_empty _ _ _ Hz)
                  | exfalso; exact (Hne Hz) | idtac]
           | try (exfalso; apply Hz; apply map_size_empty)]
       end.
  all: split; split; try discriminate;
    try (intros (? & ? & ?); discriminate);
    try (intros (? & ? & [[? ?]|?]); discriminate);
    try (intros _; repeat split; eauto; fail).
Qed.

End ChangesMore.

(** ** The theorems of these sections on the small installation *)

Lemma X6_locked_component_witness :
  let B := Locked.backend in
  let req := Demo.post [("sid", "new"); ("offset", "1")]
               [("checksum", "2"); ("target", "Diky.")] in
  exists ctx,
    translate (H := B) Demo.amb req "hello" "weblate" "cs" Locked.world =
      (Returns (render_translate ctx), Locked.world) /\
    ctx_unit ctx = mkUnit 2 22 "Dekuji." false Locked.cs /\
    ctx_locked ctx = true.
Proof.
  intros B req.
  destruct (X6_locked_component (H := B) Demo.amb req "hello" "weblate" "cs"
              Locked.world Locked.cs
              (mkSearchResult
                 (mkSearchEntry (Some ∅) (Some "") "All strings" [1; 2]
                    "new" 286400 0) (BoundForm ∅))
              Locked.world eq_refl eq_refl eq_refl)
    as (pk & Hpk & Hview).
  - vm_compute. split; [discriminate | reflexivity].
  - injection Hpk as <-. exact Hview.
Defined.

Lemma X7_rendered_context_witness :
  let B := Demo.backend true in
  match (translate (H := B) Demo.amb (Demo.get [("sid", "new")])
           "hello" "weblate" "cs" Demo.world).1 with
  | Returns (render_translate ctx) =>
      0 <= ctx_offset ctx < ctx_filter_count ctx /\
      ctx_filter_pos ctx = ctx_offset ctx + 1
  | _ => False
  end.
Proof.
  intros B.
  destruct (translate (H := B) Demo.amb (Demo.get [("sid", "new")])
              "hello" "weblate" "cs" Demo.world) as [r w'] eqn:E.
  destruct r as [[url|o|ctx|ctx| |rows| |]|e];
    try (vm_compute in E; discriminate).
  destruct (X7_rendered_context (H := B) Demo.amb (Demo.get [("sid", "new")])
              "hello" "weblate" "cs" Demo.world ctx w' E)
    as (t & _ & _ & _ & Hrange & Hpos & _).
  simpl. split; assumption.
Defined.

Lemma X12_user_locked_witness :
  let B := Demo.backend true in
  let req := Demo.post [] [("checksum", "1"); ("target", "Ahoj.")] in
  let r := translate_dispatch (H := B) Demo.amb Demo.cs req true false
             "this" "next" Demo.world in
  r.2 = Demo.world \/ r.2 = check_sync (Backend := B) Demo.cs Demo.world \/
  r.2 = add_message ERROR "You don't have privileges to save translations!"
          (check_sync (Backend := B) Demo.cs Demo.world).
Proof.
  intros B req.
  exact (X12_user_locked (H := B) Demo.amb Demo.cs req false "this" "next"
           Demo.world eq_refl).
Defined.


Lemma X15_replace_nothing_witness :
  let B := Demo.backend true in
  let req := Demo.post [] [("search", "xyz"); ("replacement", "E")] in
  search_replace (H := B) Demo.amb req "hello" None None Demo.world =
    (Returns (redirect (OProject Demo.project)),
     add_message WARNING
       "Search and replace completed, no strings were updated." Demo.world).
Proof.
  intros B req.
  pose proof (X15_replace_nothing (H := B) Demo.amb req "hello" None None
                Demo.world (OProject Demo.project) (ScopeProject Demo.project)
                eq_refl eq_refl eq_refl eq_refl) as HX.
  refine ((HX : Forall (fun u => Py.contains "xyz" (target u) = false)
                  (scope_units (H := B) (OProject Demo.project) Demo.world) ->
                _) _).
  vm_compute. repeat constructor.
Defined.

Lemma X16_merge_twice_witness :
  let B := Demo.backend true in
  let req := Demo.get [("checksum", "1"); ("merge", "3")] in
  let w1 := (handle_merge (H := B) Demo.amb Demo.cs req "next" Demo.world).2 in
  profile_translated w1 = 8 /\
  handle_merge (H := B) Demo.amb Demo.cs req "next" w1 =
    (Respond (HttpResponseRedirect "next"), w1).
Proof.
  intros B req w1. split; [reflexivity|].
  exact (X16_merge_twice (H := B) Demo.amb Demo.cs req "next" Demo.world
           Demo.hello 3 Demo.bye (mkUnit 1 11 "Nashledanou." true Demo.cs)
           eq_refl eq_refl eq_refl eq_refl eq_refl eq_refl eq_refl).
Defined.

Lemma X17_zen_page_witness :
  let B := Demo.backend true in
  let page := zen_units (H := B) Demo.cs [1; 2; 3] 1 Demo.world in
  (length page <= 20)%nat.
Proof.
  intros B page.
  exact (proj1 (X17_zen_page (H := B) Demo.cs [1; 2; 3] 1 Demo.world
                  demo_units_wf)).
Defined.

Lemma X18_zen_past_the_end_witness :
  let B := Demo.backend true in
  let req := Demo.get [("sid", "new"); ("offset", "7")] in
  zen (H := B) Demo.amb req "hello" "weblate" "cs" Demo.world =
    (Returns (render_zen (mkZenContext [] 3 true "new" 7)), Demo.world).
Proof.
  intros B req.
  apply (X18_zen_past_the_end (H := B) Demo.amb req "hello" "weblate" "cs"
           Demo.world Demo.cs (mkSearchResult Demo.new_search (BoundForm ∅))
           Demo.world eq_refl eq_refl).
  vm_compute. discriminate.
Defined.

Lemma X21_save_zen_witness :
  let B := Demo.backend true in
  let req := Demo.post [] [("checksum", "1"); ("target", "Ahoj.")] in
  (save_zen (H := B) req "hello" "weblate" "cs" Demo.world).2 =
  (handle_translate (H := B) Demo.cs req false "this" "next" Demo.world).2.
Proof.
  intros B req.
  destruct (TranslationForm_clean (Backend := B) Demo.cs (POST req) Demo.world)
    as [frm|] eqn:E; [|vm_compute in E; discriminate].
  exact (proj1 (proj2 (X21_save_zen (H := B) req "hello" "weblate" "cs" "this"
          "next" Demo.world Demo.cs frm eq_refl eq_refl eq_refl eq_refl eq_refl
          eq_refl E
          ltac:(vm_compute in E; injection E as <-; reflexivity)))).
Defined.

Lemma X22_decorators_witness :
  let B := Demo.backend true in
  let req := mkRequest GET_ ∅ ∅ (mkUser "" false) in
  (auto_translation (H0 := Demo2.helpers true) req "hello" "weblate" "cs"
     Demo.world).1 = Returns HttpResponseNotAllowed /\
  (save_zen (H := B) req "hello" "weblate" "cs" Demo.world).1 =
    Returns redirect_to_login.
Proof.
  intros B req.
  destruct (X22_decorators (H0 := Demo2.helpers true) Demo.amb req
              "hello" "weblate" "cs" None None 1 Demo.world
              (or_introl eq_refl))
    as (_ & _ & _ & _ & Hanon).
  destruct (Hanon eq_refl) as (_ & Hsave & _ & _ & Hauto).
  split; [apply Hauto; discriminate | exact Hsave].
Defined.

Lemma X26_queryset_unfiltered_witness :
  let B := Demo.backend true in
  get_queryset (H := B) (Demo.get []) ChangesView_init Demo.world =
    (ChangesView_init, last_changes (Backend := B) Demo.alice Demo.world,
     Demo.world).
Proof.
  intros B.
  exact (X26_queryset_unfiltered (H := B) (Demo.get []) Demo.world eq_refl).
Defined.

Lemma X19_zen_full_window_witness :
  let B := Demo.backend true in
  let long := mkSearchEntry (Some ∅) (Some "") "All strings"
                (seqZ 1 30) "long" 286400 0 in
  let w := set_session (insert "search_long" (SearchDict long)) Demo.world in
  let req := Demo.get [("sid", "long"); ("offset", "4")] in
  Py.slice (seqZ 1 30) 4 24 = take 20 (drop 4 (seqZ 1 30)).
Proof.
  intros B long w req.
  destruct (get_zen_unitdata (H := B) Demo.amb Demo.cs req w)
    as [[[e|r]|[[sr last] page]] w1] eqn:E;
    try (vm_compute in E; discriminate).
  assert (Hlast : last = false)
    by (vm_compute in E; injection E as _ <- _ _; reflexivity).
  assert (Hsr : entry sr = set_offset 4 long)
    by (vm_compute in E; injection E as <- _ _ _; reflexivity).
  destruct (X19_zen_full_window (H := B) Demo.amb Demo.cs req w sr last page w1
              E Hlast) as (_ & Hwindow & _).
  - rewrite Hsr. simpl. lia.
  - rewrite Hsr in Hwindow. exact Hwindow.
Defined.
